(** * SOCCER-SCANNER: the aggregation and scoring engine of [app.py]

    A shallow embedding of the pure parts of [app.py] (importance scoring,
    the matches-today classifier, the competition lifecycle analysis, the
    squad age buckets and the team form statistics) together with the
    properties the specification states about them.

    Conventions of the embedding.
    - A JSON object is a record; a key that may be missing is an [option]
      field and [Py.get_str] plays the part of [dict.get(k, default)].
      A field that is present carries a value of the type both providers
      document for it (a string for names, status, stage, venue and dates,
      an integer for scores).
    - Python [str] values are byte strings holding their UTF-8 encoding:
      equality, substring search and lexicographic order on the bytes agree
      with the same operations on code points.
    - Python [int] is [Z].
    - [list.sort(key=...)] and [sorted] are stable; they are embedded as a
      stable insertion sort, which yields the one stable sorted arrangement
      of its input.
    - The clock ([datetime.now()]) and the standard-library date parsers are
      parameters of the sections that need them. *)

From Stdlib Require Import ZArith List String Ascii Bool Lia.
From Stdlib Require Import Sorted Permutation QArith Qround Lqa.
From Stdlib Require OrderedTypeEx.
Import ListNotations.

Local Open Scope string_scope.
Local Open Scope Z_scope.
Local Open Scope list_scope.

(** ** Python primitives *)

Module Py.

(** [d.get(k, default)] for a key whose value is a string. *)
Definition get_str (o : option string) (default : string) : string :=
  match o with Some s => s | None => default end.

(** [x in xs] for a list of strings. *)
Definition str_in_list (x : string) (xs : list string) : bool :=
  existsb (String.eqb x) xs.

(** [needle in hay] for two strings: substring search. *)
Fixpoint str_contains (needle hay : string) : bool :=
  String.prefix needle hay ||
  match hay with
  | EmptyString => false
  | String _ rest => str_contains needle rest
  end.

(** [any(s in hay for s in needles)]. *)
Definition any_contained (needles : list string) (hay : string) : bool :=
  existsb (fun s => str_contains s hay) needles.

(** A [dict] literal with string keys, in source order. *)
Definition dict (V : Type) := list (string * V).

Fixpoint dict_lookup {V} (d : dict V) (k : string) : option V :=
  match d with
  | [] => None
  | (k', v) :: d' => if String.eqb k k' then Some v else dict_lookup d' k
  end.

(** [d.get(k, default)] on a dict literal. *)
Definition dict_get {V} (d : dict V) (k : string) (default : V) : V :=
  match dict_lookup d k with Some v => v | None => default end.

(** [s1 <= s2] on strings. *)
Definition str_leb (s1 s2 : string) : bool := String.leb s1 s2.

(** [xs[:n]]. *)
Definition slice_to {A} (n : nat) (xs : list A) : list A := firstn n xs.

(** Stable sort: [insert x l] puts [x] in front of the first element that
    is not smaller than it, so an element that came earlier in the input
    stays in front of every later element with an equal key. *)
Section StableSort.
Context {A : Type} (leb : A -> A -> bool).

Fixpoint insert (x : A) (l : list A) : list A :=
  match l with
  | [] => [x]
  | y :: l' => if leb x y then x :: y :: l' else y :: insert x l'
  end.

Fixpoint sort (l : list A) : list A :=
  match l with
  | [] => []
  | x :: l' => insert x (sort l')
  end.
End StableSort.

End Py.

(** ** Match records *)

(** An identifier as the providers send it: football-data.org uses
    integers, converted ESPN events carry [espn_...] strings. *)
Inductive ident : Type :=
| IdInt (z : Z)
| IdStr (s : string).

Definition ident_eqb (a b : ident) : bool :=
  match a, b with
  | IdInt x, IdInt y => Z.eqb x y
  | IdStr x, IdStr y => String.eqb x y
  | _, _ => false
  end.

Definition opt_ident_eqb (a b : option ident) : bool :=
  match a, b with
  | Some x, Some y => ident_eqb x y
  | None, None => true
  | _, _ => false
  end.

Record Team : Type := mkTeam {
  tm_id : option ident;
  tm_name : option string
}.

Record Competition : Type := mkCompetition {
  competition_id : option ident;
  competition_name : option string;
  competition_type : option string;
  competition_code : option string;
  competition_emblem : option string
}.

Record FullTime : Type := mkFullTime {
  ft_home : option Z;
  ft_away : option Z
}.

(** The keys of a match object that the engine reads.  [date] is the raw
    ESPN key, [utcDate] the canonical one; [fullTime] is
    [match.get('score', {}).get('fullTime', {})] with [None] for a missing
    [score] or [fullTime] object. *)
Record Match : Type := mkMatch {
  date : option string;
  utcDate : option string;
  status : option string;
  stage : option string;
  matchday : option Z;
  homeTeam : option Team;
  awayTeam : option Team;
  fullTime : option FullTime;
  competition : option Competition;
  venue : option string
}.

(** [match.get('competition', {}).get('name', default)] *)
Definition competition_name_of (m : Match) (default : string) : string :=
  match competition m with
  | Some c => Py.get_str (competition_name c) default
  | None => default
  end.

(** [match.get('homeTeam', {}).get('name', '')] *)
Definition home_team_name (m : Match) : string :=
  match homeTeam m with
  | Some t => Py.get_str (tm_name t) ""
  | None => ""
  end.

(** [match.get('awayTeam', {}).get('name', '')] *)
Definition away_team_name (m : Match) : string :=
  match awayTeam m with
  | Some t => Py.get_str (tm_name t) ""
  | None => ""
  end.

(** ** Importance scorer *)

Module Importance.

Definition competition_scores : Py.dict Z :=
  [ ("Premier League", 35);
    ("UEFA Champions League", 40);
    ("FIFA World Cup", 50);
    ("European Championship", 45);
    ("La Liga", 32); ("Primera Division", 32);
    ("Bundesliga", 30);
    ("Serie A", 30);
    ("Ligue 1", 28);
    ("UEFA Europa League", 25);
    ("UEFA Conference League", 20);
    ("Copa Libertadores", 25);
    ("Eredivisie", 22);
    ("Primeira Liga", 20);
    ("Pro League", 18);
    ("Austrian Bundesliga", 16);
    ("Süper Lig", 18);
    ("Scottish Premiership", 15);
    ("Championship", 18);
    ("Segunda División", 15);
    ("2. Bundesliga", 16);
    ("Serie B", 14);
    ("Brasileirão", 20);
    ("Liga Profesional", 18);
    ("Copa del Rey", 15);
    ("FA Cup", 15);
    ("DFB-Pokal", 12);
    ("Coppa Italia", 12);
    ("Coupe de France", 10);
    ("MLS", 12);
    ("Liga MX", 14);
    ("J1 League", 10);
    ("K League 1", 8);
    ("Campeonato Brasileiro Série A", 20) ].

Definition big_clubs : list string :=
  [ "Manchester United"; "Manchester City"; "Liverpool"; "Arsenal"; "Chelsea";
    "Tottenham"; "Newcastle United"; "Aston Villa"; "West Ham United";
    "Real Madrid"; "Barcelona"; "Atletico Madrid"; "Sevilla"; "Real Betis";
    "Villarreal";
    "Bayern Munich"; "Borussia Dortmund"; "RB Leipzig"; "Bayer Leverkusen";
    "Eintracht Frankfurt";
    "Juventus"; "AC Milan"; "Inter Milan"; "AS Roma"; "Napoli"; "Lazio";
    "Atalanta"; "Fiorentina";
    "Paris Saint-Germain"; "Olympique Marseille"; "Olympique Lyon";
    "AS Monaco"; "Lille";
    "Ajax"; "PSV Eindhoven"; "Feyenoord"; "AZ Alkmaar";
    "Benfica"; "FC Porto"; "Sporting CP"; "SC Braga";
    "Club Brugge"; "Anderlecht"; "Standard Liège"; "Genk";
    "Galatasaray"; "Fenerbahce"; "Besiktas"; "Trabzonspor";
    "Celtic"; "Rangers"; "Aberdeen";
    "Flamengo"; "Palmeiras"; "Santos"; "São Paulo"; "Corinthians"; "Grêmio";
    "Internacional";
    "River Plate"; "Boca Juniors"; "Racing Club"; "Independiente";
    "San Lorenzo" ].

Definition stage_boosts : Py.dict Z :=
  [ ("FINAL", 20);
    ("SEMI_FINALS", 15);
    ("QUARTER_FINALS", 10);
    ("ROUND_OF_16", 8);
    ("LAST_16", 8);
    ("PLAYOFFS", 5) ].

(** The four contributions of [calculate_match_importance], in the order
    the source adds them to [score]. *)
Definition competition_points (m : Match) : Z :=
  Py.dict_get competition_scores (competition_name_of m "") 10.

Definition club_points (m : Match) : Z :=
  let home := Py.str_in_list (home_team_name m) big_clubs in
  let away := Py.str_in_list (away_team_name m) big_clubs in
  (if home || away then 15 else 0) + (if home && away then 10 else 0).

Definition status_points (m : Match) : Z :=
  let st := Py.get_str (status m) "" in
  if Py.str_in_list st ["LIVE"; "IN_PLAY"] then 20
  else if String.eqb st "TIMED" then 5
  else 0.

Definition stage_points (m : Match) : Z :=
  Py.dict_get stage_boosts (Py.get_str (stage m) "") 0.

Definition calculate_match_importance (m : Match) : Z :=
  let score := 0 in
  let score := score + competition_points m in
  let score := score + club_points m in
  let score := score + status_points m in
  let score := score + stage_points m in
  Z.min score 100.

Definition determine_tv_coverage (m : Match) : string :=
  let competition := competition_name_of m "" in
  let importance := calculate_match_importance m in
  if 70 <=? importance then "Prime Time TV"
  else if 50 <=? importance then "Major Sports Networks"
  else if 30 <=? importance then "Sports Channels"
  else if Py.str_in_list competition
            ["Premier League"; "UEFA Champions League"; "La Liga"; "Serie A";
             "Bundesliga"]
       then "League Broadcasting"
  else "Streaming/Regional".

Definition large_stadiums : list string :=
  [ "Camp Nou"; "Santiago Bernabéu"; "Old Trafford"; "Emirates Stadium";
    "Allianz Arena"; "San Siro"; "Anfield"; "Etihad Stadium" ].

Definition estimate_attendance (m : Match) : string :=
  let importance := calculate_match_importance m in
  let venue := Py.get_str (venue m) "" in
  if Py.any_contained large_stadiums venue then "Sold Out (70,000+)"
  else if 70 <=? importance then "High (50,000+)"
  else if 50 <=? importance then "Good (30,000+)"
  else if 30 <=? importance then "Moderate (15,000+)"
  else "Low (5,000+)".

Definition rivalries : list ((string * string) * string) :=
  [ (("Manchester United", "Liverpool"), "Historic Rivalry");
    (("Manchester United", "Manchester City"), "Manchester Derby");
    (("Arsenal", "Tottenham"), "North London Derby");
    (("Liverpool", "Everton"), "Merseyside Derby");
    (("Chelsea", "Arsenal"), "London Derby");
    (("Real Madrid", "Barcelona"), "El Clásico");
    (("Real Madrid", "Atletico Madrid"), "Madrid Derby");
    (("Barcelona", "Espanyol"), "Barcelona Derby");
    (("Juventus", "AC Milan"), "Classic Rivalry");
    (("Inter Milan", "AC Milan"), "Derby della Madonnina");
    (("AS Roma", "Lazio"), "Derby della Capitale");
    (("Bayern Munich", "Borussia Dortmund"), "Der Klassiker");
    (("Schalke 04", "Borussia Dortmund"), "Revierderby");
    (("Ajax", "Feyenoord"), "De Klassieker");
    (("Benfica", "FC Porto"), "O Clássico") ].

(** The [for ... in rivalries.items()] loop: the first entry whose pair
    matches the two names in either order decides. *)
Fixpoint rivalry_scan (table : list ((string * string) * string))
                      (home_team away_team : string) : option string :=
  match table with
  | [] => None
  | ((team1, team2), rivalry_name) :: rest =>
      if (String.eqb home_team team1 && String.eqb away_team team2)
         || (String.eqb home_team team2 && String.eqb away_team team1)
      then Some rivalry_name
      else rivalry_scan rest home_team away_team
  end.

Definition check_rivalry_factor (m : Match) : option string :=
  rivalry_scan rivalries (home_team_name m) (away_team_name m).

End Importance.

(** ** Match classifier (the processing half of [get_matches_today]) *)

Module Classifier.

(** The [enhanced_info] block.  [match_date] holds the calendar date itself
    (a proleptic Gregorian ordinal, as [date.toordinal()]); the source
    stores its [%Y-%m-%d] rendering. *)
Record EnhancedInfo : Type := mkEnhancedInfo {
  importance_score : Z;
  tv_coverage : string;
  attendance_estimate : string;
  rivalry_factor : option string;
  match_date : Z;
  days_from_today : Z;
  source : string
}.

(** [{**match, 'enhanced_info': {...}}] *)
Record EnhancedMatch : Type := mkEnhancedMatch {
  base : Match;
  enhanced_info : EnhancedInfo
}.

(** What the handler hands to [jsonify], together with the two local lists
    [today_matches] and [future_matches] as they stand at the end of the
    processing loop. *)
Record Response : Type := mkResponse {
  today_matches : list EnhancedMatch;
  future_matches : list EnhancedMatch;
  matches : list EnhancedMatch;
  featured_matches : list EnhancedMatch;
  total_matches : nat;
  total_unique : nat
}.

Section WithClock.

(** [iso_date s] is [datetime.fromisoformat(s.replace('Z', '+00:00')).date()]
    as an ordinal, [None] when the parser raises. *)
Variable iso_date : string -> option Z.

(** [datetime.now().date()], as an ordinal. *)
Variable today : Z.

(** The date lookup at the head of the loop body; [None] stands for the
    exception ([KeyError] for a record with neither key, [ValueError] from
    the parser) that the loop's [except] turns into [continue]. *)
Definition derive_match_date (m : Match) : option Z :=
  match date m with
  | Some s => iso_date s
  | None =>
      match utcDate m with
      | Some s => iso_date s
      | None => None
      end
  end.

Definition enhance (m : Match) (d : Z) : EnhancedMatch :=
  {| base := m;
     enhanced_info :=
       {| importance_score := Importance.calculate_match_importance m;
          tv_coverage := Importance.determine_tv_coverage m;
          attendance_estimate := Importance.estimate_attendance m;
          rivalry_factor := Importance.check_rivalry_factor m;
          match_date := d;
          days_from_today := d - today;
          source := match date m with
                    | Some _ => "ESPN"
                    | None => "football-data.org"
                    end |} |}.

(** One iteration of [for match in all_matches], on the pair
    [(today_matches, future_matches)]. *)
Definition process_match
    (acc : list EnhancedMatch * list EnhancedMatch) (m : Match)
    : list EnhancedMatch * list EnhancedMatch :=
  match derive_match_date m with
  | None => acc
  | Some d =>
      if d <? today then acc
      else
        let enhanced_match := enhance m d in
        if d =? today
        then (fst acc ++ [enhanced_match], snd acc)
        else (fst acc, snd acc ++ [enhanced_match])
  end.

Definition process_matches (all_matches : list Match)
    : list EnhancedMatch * list EnhancedMatch :=
  fold_left process_match all_matches ([], []).

(** The sort key
    [(-importance_score, days_from_today, x.get('utcDate', ''))]. *)
Definition sort_key (x : EnhancedMatch) : Z * Z * string :=
  (- importance_score (enhanced_info x),
   days_from_today (enhanced_info x),
   Py.get_str (utcDate (base x)) "").

(** Tuple comparison [k1 <= k2]. *)
Definition key_leb (k1 k2 : Z * Z * string) : bool :=
  let '(a1, b1, c1) := k1 in
  let '(a2, b2, c2) := k2 in
  if a1 <? a2 then true
  else if a2 <? a1 then false
  else if b1 <? b2 then true
  else if b2 <? b1 then false
  else Py.str_leb c1 c2.

Definition match_leb (x y : EnhancedMatch) : bool :=
  key_leb (sort_key x) (sort_key y).

(** From [final_matches = today_matches + future_matches] to the response.
    When fewer than six matches remain, [featured_matches] is the list
    object [final_matches] itself, so sorting it in place also rewrites
    [final_matches]. *)
Definition get_matches_today (all_matches : list Match) : Response :=
  let '(today_matches, future_matches) := process_matches all_matches in
  let final_matches := today_matches ++ future_matches in
  let total_unique := List.length final_matches in
  let final_matches := Py.sort match_leb final_matches in
  let aliased := negb (6 <=? List.length final_matches)%nat in
  let featured_matches :=
    if aliased then final_matches else Py.slice_to 6 final_matches in
  let featured_matches := Py.sort match_leb featured_matches in
  let final_matches := if aliased then featured_matches else final_matches in
  {| today_matches := today_matches;
     future_matches := future_matches;
     matches := final_matches;
     featured_matches := featured_matches;
     total_matches := List.length final_matches;
     total_unique := total_unique |}.

End WithClock.

End Classifier.

(** ** Competition lifecycle analyzer ([analyze_team_competitions]) *)

Module Competitions.

(** One entry of a bucket's [matches] list.  [cm_date] is the parsed kickoff
    instant, a point of the UTC time line. *)
Record CompMatch : Type := mkCompMatch {
  cm_date : Z;
  cm_status : option string;
  cm_stage : option string;
  cm_matchday : option Z;
  cm_opponent : option Team
}.

(** The per-competition dict.  The keys [matches_played],
    [matches_remaining], [starts] and [ended] exist only once the bucket
    has been categorised; the constant [stage_info] is left out. *)
Record CompData : Type := mkCompData {
  cd_name : string;
  cd_type : string;
  cd_code : string;
  cd_emblem : string;
  cd_matches : list CompMatch;
  cd_status : string;
  cd_next_match : option CompMatch;
  cd_last_match : option CompMatch;
  cd_matches_played : option nat;
  cd_matches_remaining : option nat;
  cd_starts : option Z;
  cd_ended : option Z
}.

Record Analysis : Type := mkAnalysis {
  active : list CompData;
  upcoming : list CompData;
  completed : list CompData;
  total_competitions : nat
}.

(** The [competitions] dict: keys in insertion order. *)
Definition buckets := list (option ident * CompData).

Definition new_bucket (m : Match) : CompData :=
  let get (f : Competition -> option string) (default : string) :=
    match competition m with
    | Some c => Py.get_str (f c) default
    | None => default
    end in
  {| cd_name := get competition_name "Unknown";
     cd_type := get competition_type "Unknown";
     cd_code := get competition_code "";
     cd_emblem := get competition_emblem "";
     cd_matches := [];
     cd_status := "unknown";
     cd_next_match := None;
     cd_last_match := None;
     cd_matches_played := None;
     cd_matches_remaining := None;
     cd_starts := None;
     cd_ended := None |}.

Definition with_matches (d : CompData) (ms : list CompMatch) : CompData :=
  {| cd_name := cd_name d; cd_type := cd_type d; cd_code := cd_code d;
     cd_emblem := cd_emblem d; cd_matches := ms; cd_status := cd_status d;
     cd_next_match := cd_next_match d; cd_last_match := cd_last_match d;
     cd_matches_played := cd_matches_played d;
     cd_matches_remaining := cd_matches_remaining d;
     cd_starts := cd_starts d; cd_ended := cd_ended d |}.

(** [comp_id in competitions] *)
Definition has_bucket (comp_id : option ident) (cs : buckets) : bool :=
  existsb (fun kv => opt_ident_eqb comp_id (fst kv)) cs.

(** [competitions[comp_id]['matches'].append(entry)] *)
Fixpoint append_match (comp_id : option ident) (entry : CompMatch)
                      (cs : buckets) : buckets :=
  match cs with
  | [] => []
  | (k, d) :: rest =>
      if opt_ident_eqb comp_id k
      then (k, with_matches d (cd_matches d ++ [entry])) :: rest
      else (k, d) :: append_match comp_id entry rest
  end.

(** [last_of l] is [l[-1]]. *)
Definition last_of {A} (l : list A) : option A :=
  match rev l with
  | [] => None
  | x :: _ => Some x
  end.

Definition priority_order : Py.dict Z :=
  [ ("UEFA Champions League", 1);
    ("UEFA Europa League", 2);
    ("UEFA Conference League", 3);
    ("Premier League", 4);
    ("La Liga", 4); ("Primera Division", 4);
    ("Serie A", 4);
    ("Bundesliga", 4);
    ("Ligue 1", 4);
    ("FA Cup", 5);
    ("Copa del Rey", 5);
    ("DFB-Pokal", 5);
    ("Coppa Italia", 5);
    ("EFL Cup", 6);
    ("Championship", 7) ].

(** The three result lists while the analysis loop runs. *)
Record Lists : Type := mkLists {
  active_competitions : list CompData;
  upcoming_competitions : list CompData;
  completed_competitions : list CompData
}.

Section WithClock.

(** [iso_instant s] is
    [datetime.fromisoformat(s.replace('Z', '+00:00'))] as a point of the
    UTC time line.  [None] covers the inputs on which the function cannot
    return: the parser raises, or it yields a naive datetime, whose
    comparison with the timezone-aware [current_date] raises. *)
Variable iso_instant : string -> option Z.

(** [datetime.now(timezone.utc)] *)
Variable current_date : Z.

(** [int(team_id)] *)
Variable team_id : Z.

(** One iteration of the grouping loop; [None] is an exception
    ([KeyError] on a missing [utcDate], or [iso_instant] failing). *)
Definition group_match (cs : buckets) (m : Match) : option buckets :=
  let comp_id :=
    match competition m with
    | Some c => competition_id c
    | None => None
    end in
  let cs :=
    if has_bucket comp_id cs then cs else cs ++ [(comp_id, new_bucket m)] in
  match utcDate m with
  | None => None
  | Some s =>
      match iso_instant s with
      | None => None
      | Some match_date =>
          let home_id :=
            match homeTeam m with
            | Some t => tm_id t
            | None => None
            end in
          let entry :=
            {| cm_date := match_date;
               cm_status := status m;
               cm_stage := stage m;
               cm_matchday := matchday m;
               cm_opponent :=
                 if opt_ident_eqb home_id (Some (IdInt team_id))
                 then awayTeam m else homeTeam m |} in
          Some (append_match comp_id entry cs)
      end
  end.

Fixpoint group_matches (cs : buckets) (ms : list Match) : option buckets :=
  match ms with
  | [] => Some cs
  | m :: ms' =>
      match group_match cs m with
      | None => None
      | Some cs' => group_matches cs' ms'
      end
  end.

Definition is_upcoming (m : CompMatch) : bool :=
  (current_date <? cm_date m)
  && match cm_status m with
     | Some st => Py.str_in_list st ["SCHEDULED"; "TIMED"]
     | None => false
     end.

Definition is_recent (m : CompMatch) : bool :=
  (cm_date m <=? current_date)
  && match cm_status m with
     | Some st => Py.str_in_list st ["FINISHED"; "LIVE"; "IN_PLAY"]
     | None => false
     end.

Definition date_leb (x y : CompMatch) : bool := cm_date x <=? cm_date y.

(** The body of [for comp_id, comp_data in competitions.items()] for one
    bucket: the updated [comp_data] and the lists after the iteration. *)
Definition analyze_bucket (d : CompData) (out : Lists) : CompData * Lists :=
  match cd_matches d with
  | [] => (d, out)
  | _ :: _ =>
      let matches := Py.sort date_leb (cd_matches d) in
      let upcoming_matches := filter is_upcoming matches in
      let recent_matches := filter is_recent matches in
      let next_match := hd_error upcoming_matches in
      let last_match := last_of recent_matches in
      let upd status played remaining starts ended :=
        {| cd_name := cd_name d; cd_type := cd_type d; cd_code := cd_code d;
           cd_emblem := cd_emblem d; cd_matches := matches;
           cd_status := status;
           cd_next_match := next_match; cd_last_match := last_match;
           cd_matches_played := played;
           cd_matches_remaining := remaining;
           cd_starts := starts; cd_ended := ended |} in
      match upcoming_matches, recent_matches with
      | _ :: _, _ :: _ =>
          let d' := upd "active" (Some (List.length recent_matches))
                        (Some (List.length upcoming_matches)) None None in
          (d', {| active_competitions := active_competitions out ++ [d'];
                  upcoming_competitions := upcoming_competitions out;
                  completed_competitions := completed_competitions out |})
      | _ :: _, [] =>
          let d' := upd "upcoming" None
                        (Some (List.length upcoming_matches))
                        (option_map cm_date (hd_error upcoming_matches))
                        None in
          (d', {| active_competitions := active_competitions out;
                  upcoming_competitions := upcoming_competitions out ++ [d'];
                  completed_competitions := completed_competitions out |})
      | [], _ :: _ =>
          let d' := upd "completed" (Some (List.length recent_matches)) None
                        None (option_map cm_date (last_of recent_matches)) in
          (d', {| active_competitions := active_competitions out;
                  upcoming_competitions := upcoming_competitions out;
                  completed_competitions :=
                    completed_competitions out ++ [d'] |})
      | [], [] => (upd "unknown" None None None None, out)
      end
  end.

Fixpoint analyze_buckets (cs : buckets) (out : Lists) : buckets * Lists :=
  match cs with
  | [] => ([], out)
  | (k, d) :: rest =>
      let '(d', out') := analyze_bucket d out in
      let '(rest', out'') := analyze_buckets rest out' in
      ((k, d') :: rest', out'')
  end.

(** The key of [sort_competitions]. *)
Definition competition_key (x : CompData) : Z * Z :=
  (Py.dict_get priority_order (cd_name x) 99,
   if String.eqb (cd_status x) "upcoming"
   then match cd_starts x with Some s => s | None => current_date end
   else current_date).

Definition competition_leb (x y : CompData) : bool :=
  let '(p1, d1) := competition_key x in
  let '(p2, d2) := competition_key y in
  if p1 <? p2 then true
  else if p2 <? p1 then false
  else d1 <=? d2.

Definition sort_competitions (comps : list CompData) : list CompData :=
  Py.sort competition_leb comps.

(** The grouped and analysed [competitions] dict, before the result lists
    are sorted. *)
Definition analysed_buckets (ms : list Match) : option (buckets * Lists) :=
  match group_matches [] ms with
  | None => None
  | Some cs => Some (analyze_buckets cs (mkLists [] [] []))
  end.

Definition analyze_team_competitions (ms : list Match) : option Analysis :=
  match analysed_buckets ms with
  | None => None
  | Some (cs, out) =>
      Some {| active := sort_competitions (active_competitions out);
              upcoming := sort_competitions (upcoming_competitions out);
              completed := sort_competitions (completed_competitions out);
              total_competitions := List.length cs |}
  end.

End WithClock.

End Competitions.

(** ** Squad analytics: the age buckets of [get_top_performers] *)

Module Squad.

(** A calendar date as [datetime] exposes it: [.year], [.month], [.day]. *)
Record Date : Type := mkDate {
  year : Z;
  month : Z;
  day : Z
}.

(** A squad entry as the provider sends it. *)
Record Player : Type := mkPlayer {
  name : option string;
  position : option string;
  nationality : option string;
  dateOfBirth : option string
}.

(** The [player_data] dict built for every squad entry. *)
Record PlayerData : Type := mkPlayerData {
  pd_name : string;
  pd_position : string;
  pd_nationality : string;
  pd_age : option Z;
  pd_dateOfBirth : option string
}.

(** The two age-based keys of the returned dict; the position, nationality
    and summary keys are not part of this development. *)
Record TopPerformers : Type := mkTopPerformers {
  young_talents : list PlayerData;
  experienced_players : list PlayerData
}.

Section WithClock.

(** [strptime_ymd s] is [datetime.strptime(s, '%Y-%m-%d')], [None] when
    it raises. *)
Variable strptime_ymd : string -> option Date.

(** [datetime.now()], read once for the whole call. *)
Variable today : Date.

(** [(today.month, today.day) < (birth_date.month, birth_date.day)] *)
Definition birthday_ahead (birth_date : Date) : bool :=
  (month today <? month birth_date)
  || ((month today =? month birth_date) && (day today <? day birth_date)).

Definition age_on (birth_date : Date) : Z :=
  year today - year birth_date - (if birthday_ahead birth_date then 1 else 0).

(** The age stored in [player_data['age']]: computed only for a truthy
    [dateOfBirth] that parses. *)
Definition player_age (p : Player) : option Z :=
  match dateOfBirth p with
  | None => None
  | Some "" => None
  | Some s =>
      match strptime_ymd s with
      | Some birth_date => Some (age_on birth_date)
      | None => None
      end
  end.

Definition player_data (p : Player) : PlayerData :=
  {| pd_name := Py.get_str (name p) "Unknown";
     pd_position := Py.get_str (position p) "Unknown";
     pd_nationality := Py.get_str (nationality p) "Unknown";
     pd_age := player_age p;
     pd_dateOfBirth := dateOfBirth p |}.

Definition squad_with_ages (squad : list Player) : list PlayerData :=
  map player_data squad.

Definition has_age (p : PlayerData) : bool :=
  match pd_age p with Some _ => true | None => false end.

Definition players_with_ages (squad : list Player) : list PlayerData :=
  filter has_age (squad_with_ages squad).

(** [p['age'] < 23] and [p['age'] >= 30] on players that have an age. *)
Definition is_young (p : PlayerData) : bool :=
  match pd_age p with Some a => a <? 23 | None => false end.

Definition is_experienced (p : PlayerData) : bool :=
  match pd_age p with Some a => 30 <=? a | None => false end.

(** The sort key [x['age']] on players with an age. *)
Definition age_key (p : PlayerData) : Z :=
  match pd_age p with Some a => a | None => 0 end.

(** [sort(key=age)]: youngest first. *)
Definition youngest_first (x y : PlayerData) : bool :=
  age_key x <=? age_key y.

(** [sort(key=age, reverse=True)]: oldest first, equal ages keeping their
    input order. *)
Definition oldest_first (x y : PlayerData) : bool :=
  age_key y <=? age_key x.

Definition get_top_performers (squad : list Player) : TopPerformers :=
  match squad with
  | [] => {| young_talents := []; experienced_players := [] |}
  | _ :: _ =>
      let young_talents := filter is_young (players_with_ages squad) in
      let young_talents := Py.sort youngest_first young_talents in
      let experienced_players :=
        filter is_experienced (players_with_ages squad) in
      let experienced_players := Py.sort oldest_first experienced_players in
      {| young_talents := Py.slice_to 8 young_talents;
         experienced_players := Py.slice_to 8 experienced_players |}
  end.

End WithClock.

End Squad.

(** ** Team form calculator ([calculate_team_stats]) *)

Module TeamStats.

(** [home_record] and [away_record]. *)
Record Tally : Type := mkTally {
  t_wins : Z;
  t_draws : Z;
  t_losses : Z
}.

(** The [stats] dict.  The five derived keys are set only when at least one
    match was counted.  [competitions] is a set in the source; the list
    keeps each name once, in order of first appearance.  The rounded values
    are exact decimals, held as rationals. *)
Record Stats : Type := mkStats {
  wins : Z;
  draws : Z;
  losses : Z;
  goals_for : Z;
  goals_against : Z;
  clean_sheets : Z;
  form : list string;
  home_record : Tally;
  away_record : Tally;
  competitions : list string;
  win_percentage : option Q;
  points : option Z;
  average_goals_for : option Q;
  average_goals_against : option Q;
  goal_difference : option Z
}.

(** The function returns the empty dict for an empty match list. *)
Inductive Result : Type :=
| EmptyDict
| StatsDict (s : Stats).

Definition initial_stats : Stats :=
  {| wins := 0; draws := 0; losses := 0;
     goals_for := 0; goals_against := 0; clean_sheets := 0;
     form := [];
     home_record := mkTally 0 0 0;
     away_record := mkTally 0 0 0;
     competitions := [];
     win_percentage := None; points := None;
     average_goals_for := None; average_goals_against := None;
     goal_difference := None |}.

(** Rounding to the nearest integer, ties to the even neighbour. *)
Definition round_half_even (q : Q) : Z :=
  let f := Qfloor q in
  match Qcompare (q - inject_Z f) (1 # 2) with
  | Lt => f
  | Gt => f + 1
  | Eq => if Z.even f then f else f + 1
  end.

(** [round(x, 1)].  Python rounds the double it is given to the nearest
    decimal with one fractional digit, ties to even.  The quotients below
    have a denominator of at most 10: a tie then has a denominator 4 or 8
    and is a double without error, and every other quotient is farther from
    a rounding boundary than the error of the floating-point operations, so
    rounding the exact quotient gives the decimal that Python returns. *)
Definition round1 (q : Q) : Q :=
  inject_Z (round_half_even (q * 10)) / 10.

(** [home_team.get('id') == team_id] *)
Definition is_home (team_id : Z) (m : Match) : bool :=
  opt_ident_eqb
    (match homeTeam m with Some t => tm_id t | None => None end)
    (Some (IdInt team_id)).

(** The two full-time scores, when both are present. *)
Definition both_scores (m : Match) : option (Z * Z) :=
  match fullTime m with
  | Some ft =>
      match ft_home ft, ft_away ft with
      | Some h, Some a => Some (h, a)
      | _, _ => None
      end
  | None => None
  end.

Definition bump_wins (t : Tally) : Tally :=
  mkTally (t_wins t + 1) (t_draws t) (t_losses t).
Definition bump_draws (t : Tally) : Tally :=
  mkTally (t_wins t) (t_draws t + 1) (t_losses t).
Definition bump_losses (t : Tally) : Tally :=
  mkTally (t_wins t) (t_draws t) (t_losses t + 1).

(** [stats['competitions'].add(name)] *)
Definition set_add (x : string) (s : list string) : list string :=
  if Py.str_in_list x s then s else s ++ [x].

(** One iteration of [for match in matches[:10]]. *)
Definition count_match (team_id : Z) (stats : Stats) (m : Match) : Stats :=
  match both_scores m with
  | None => stats
  | Some (home_score, away_score) =>
      let competitions :=
        match competition m with
        | Some c =>
            match competition_name c with
            | Some "" | None => competitions stats
            | Some n => set_add n (competitions stats)
            end
        | None => competitions stats
        end in
      let is_home := is_home team_id m in
      let team_score := if is_home then home_score else away_score in
      let opponent_score := if is_home then away_score else home_score in
      let won := opponent_score <? team_score in
      let lost := team_score <? opponent_score in
      let result := if won then "W" else if lost then "L" else "D" in
      let bump (t : Tally) :=
        if won then bump_wins t
        else if lost then bump_losses t
        else bump_draws t in
      {| wins := wins stats + (if won then 1 else 0);
         draws := draws stats + (if won || lost then 0 else 1);
         losses := losses stats + (if won then 0 else if lost then 1 else 0);
         goals_for := goals_for stats + team_score;
         goals_against := goals_against stats + opponent_score;
         clean_sheets :=
           clean_sheets stats + (if opponent_score =? 0 then 1 else 0);
         form :=
           if (List.length (form stats) <? 5)%nat
           then form stats ++ [result] else form stats;
         home_record :=
           if is_home then bump (home_record stats) else home_record stats;
         away_record :=
           if is_home then away_record stats else bump (away_record stats);
         competitions := competitions;
         win_percentage := win_percentage stats;
         points := points stats;
         average_goals_for := average_goals_for stats;
         average_goals_against := average_goals_against stats;
         goal_difference := goal_difference stats |}
  end.

(** The block after the loop. *)
Definition derive_metrics (stats : Stats) : Stats :=
  let total_matches := wins stats + draws stats + losses stats in
  if 0 <? total_matches then
    let total := inject_Z total_matches in
    {| wins := wins stats; draws := draws stats; losses := losses stats;
       goals_for := goals_for stats; goals_against := goals_against stats;
       clean_sheets := clean_sheets stats; form := form stats;
       home_record := home_record stats; away_record := away_record stats;
       competitions := competitions stats;
       win_percentage :=
         Some (round1 ((inject_Z (wins stats) / total) * 100));
       points := Some (wins stats * 3 + draws stats);
       average_goals_for := Some (round1 (inject_Z (goals_for stats) / total));
       average_goals_against :=
         Some (round1 (inject_Z (goals_against stats) / total));
       goal_difference := Some (goals_for stats - goals_against stats) |}
  else stats.

Definition calculate_team_stats (ms : list Match) (team_id : Z) : Result :=
  match ms with
  | [] => EmptyDict
  | _ :: _ =>
      let stats :=
        fold_left (count_match team_id) (Py.slice_to 10 ms) initial_stats in
      StatsDict (derive_metrics stats)
  end.

End TeamStats.

(** ** Reference date parsers

    Parsers for the canonical shapes the providers send
    ([YYYY-MM-DD] and [YYYY-MM-DDTHH:MM:SSZ], zero padded), used to run the
    model on sample inputs.  On these shapes they compute what
    [datetime.strptime(s, '%Y-%m-%d')] and
    [datetime.fromisoformat(s.replace('Z', '+00:00'))] compute; the theorems
    below do not depend on them. *)

Module RefDates.

Definition digit (c : ascii) : option Z :=
  let n := Z.of_N (N_of_ascii c) in
  if (48 <=? n) && (n <=? 57) then Some (n - 48) else None.

(** Reads exactly [n] decimal digits. *)
Fixpoint digits (n : nat) (acc : Z) (s : string) : option (Z * string) :=
  match n with
  | O => Some (acc, s)
  | S n' =>
      match s with
      | String c rest =>
          match digit c with
          | Some d => digits n' (acc * 10 + d) rest
          | None => None
          end
      | EmptyString => None
      end
  end.

(** Reads the one character [c]. *)
Definition expect (c : ascii) (s : string) : option string :=
  match s with
  | String c' rest => if Ascii.eqb c c' then Some rest else None
  | EmptyString => None
  end.

Definition is_leap (y : Z) : bool :=
  (y mod 4 =? 0) && (negb (y mod 100 =? 0) || (y mod 400 =? 0)).

Definition days_in_month (y m : Z) : Z :=
  if m =? 2 then (if is_leap y then 29 else 28)
  else if (m =? 4) || (m =? 6) || (m =? 9) || (m =? 11) then 30
  else 31.

Definition days_before_year (y : Z) : Z :=
  let y' := y - 1 in
  y' * 365 + y' / 4 - y' / 100 + y' / 400.

Definition days_before_month (y m : Z) : Z :=
  nth (Z.to_nat (m - 1)) [0; 31; 59; 90; 120; 151; 181; 212; 243; 273; 304; 334] 0
  + (if (2 <? m) && is_leap y then 1 else 0).

(** [date(y, m, d).toordinal()] *)
Definition ymd2ord (y m d : Z) : Z :=
  days_before_year y + days_before_month y m + d.

(** [YYYY-MM-DD] at the head of [s], and what follows it. *)
Definition read_ymd (s : string) : option (Squad.Date * string) :=
  match digits 4 0 s with
  | None => None
  | Some (y, s) =>
  match expect "-" s with
  | None => None
  | Some s =>
  match digits 2 0 s with
  | None => None
  | Some (m, s) =>
  match expect "-" s with
  | None => None
  | Some s =>
  match digits 2 0 s with
  | None => None
  | Some (d, s) =>
      if (1 <=? y) && (1 <=? m) && (m <=? 12) && (1 <=? d)
         && (d <=? days_in_month y m)
      then Some (Squad.mkDate y m d, s)
      else None
  end end end end end.

(** [HH:MM:SS] at the head of [s], in seconds, and what follows it. *)
Definition read_hms (s : string) : option (Z * string) :=
  match digits 2 0 s with
  | None => None
  | Some (h, s) =>
  match expect ":" s with
  | None => None
  | Some s =>
  match digits 2 0 s with
  | None => None
  | Some (mi, s) =>
  match expect ":" s with
  | None => None
  | Some s =>
  match digits 2 0 s with
  | None => None
  | Some (se, s) =>
      if (h <=? 23) && (mi <=? 59) && (se <=? 59)
      then Some (h * 3600 + mi * 60 + se, s)
      else None
  end end end end end.

Definition strptime_ymd (s : string) : option Squad.Date :=
  match read_ymd s with
  | Some (d, "") => Some d
  | _ => None
  end.

(** Seconds from the start of day 0 of the ordinal count to the UTC instant
    [YYYY-MM-DDTHH:MM:SSZ]. *)
Definition iso_instant (s : string) : option Z :=
  match read_ymd s with
  | None => None
  | Some (d, s) =>
  match expect "T" s with
  | None => None
  | Some s =>
  match read_hms s with
  | Some (t, "Z") =>
      Some (ymd2ord (Squad.year d) (Squad.month d) (Squad.day d) * 86400 + t)
  | _ => None
  end end end.

(** The calendar date of [YYYY-MM-DDTHH:MM:SSZ], as an ordinal. *)
Definition iso_date (s : string) : option Z :=
  match iso_instant s with
  | Some t => Some (t / 86400)
  | None => None
  end.

End RefDates.


(** ** Formation inference ([analyze_squad_formation]) *)

Module Formation.
Import Squad.

(** The [positions] dict: raw position string to the players carrying it,
    keys in order of first appearance. *)
Definition positions_dict := list (string * list Player).

(** [positions[position].append(player)], creating the key when new. *)
Fixpoint add_player (position : string) (p : Player) (positions : positions_dict)
    : positions_dict :=
  match positions with
  | [] => [(position, [p])]
  | (k, ps) :: rest =>
      if String.eqb position k then (k, ps ++ [p]) :: rest
      else (k, ps) :: add_player position p rest
  end.

Definition group_players (squad : list Player) : positions_dict :=
  fold_left
    (fun positions player =>
       add_player (Py.get_str (position player) "Unknown") player positions)
    squad [].

(** [len(positions.get(k, []))] *)
Fixpoint count_position (positions : positions_dict) (k : string) : nat :=
  match positions with
  | [] => 0
  | (k', ps) :: rest =>
      if String.eqb k k' then List.length ps else count_position rest k
  end.

Record Counts : Type := mkCounts {
  goalkeepers : nat;
  defenders : nat;
  midfielders : nat;
  attackers : nat
}.

(** The returned dict; an empty squad gives no [count] key. *)
Record FormationData : Type := mkFormationData {
  formation : string;
  positions : positions_dict;
  count : option Counts
}.

Definition suggest_formation (defenders midfielders attackers : nat) : string :=
  let total_outfield := (defenders + midfielders + attackers)%nat in
  if (10 <=? total_outfield)%nat then
    if (4 <=? defenders)%nat && (3 <=? midfielders)%nat
       && (3 <=? attackers)%nat then "4-3-3"
    else if (4 <=? defenders)%nat && (4 <=? midfielders)%nat
            && (2 <=? attackers)%nat then "4-4-2"
    else if (3 <=? defenders)%nat && (5 <=? midfielders)%nat
            && (2 <=? attackers)%nat then "3-5-2"
    else if (5 <=? defenders)%nat && (3 <=? midfielders)%nat
            && (2 <=? attackers)%nat then "5-3-2"
    else "4-4-2"
  else "Unknown".

Definition analyze_squad_formation (squad : list Player) : FormationData :=
  match squad with
  | [] => {| formation := "Unknown"; positions := []; count := None |}
  | _ :: _ =>
      let positions := group_players squad in
      let goalkeepers := count_position positions "Goalkeeper" in
      let defenders := count_position positions "Defender" in
      let midfielders := count_position positions "Midfielder" in
      let attackers := count_position positions "Attacker" in
      {| formation := suggest_formation defenders midfielders attackers;
         positions := positions;
         count := Some {| goalkeepers := goalkeepers;
                          defenders := defenders;
                          midfielders := midfielders;
                          attackers := attackers |} |}
  end.

End Formation.

(** ** Squad analytics: the remaining keys of [get_top_performers] and
    [calculate_age] *)

Module SquadMore.
Import Squad.

(** The position group of a raw position string; the first test that
    succeeds decides. *)
Definition position_group (pos : string) : string :=
  if Py.str_contains "Goalkeeper" pos then "Goalkeepers"
  else if Py.any_contained ["Back"; "Defence"] pos then "Defenders"
  else if Py.any_contained ["Midfield"] pos then "Midfielders"
  else if Py.any_contained ["Forward"; "Winger"; "Attacker"; "Offence"] pos
       then "Attackers"
  else "Other".

(** The [position_groups] dict, with its five fixed keys. *)
Record PositionGroups : Type := mkPositionGroups {
  Goalkeepers : list PlayerData;
  Defenders : list PlayerData;
  Midfielders : list PlayerData;
  Attackers : list PlayerData;
  Other : list PlayerData
}.

(** [position_groups[group].append(player)] *)
Definition place (groups : PositionGroups) (player : PlayerData)
    : PositionGroups :=
  let group := position_group (pd_position player) in
  if String.eqb group "Goalkeepers" then
    mkPositionGroups (Goalkeepers groups ++ [player]) (Defenders groups)
      (Midfielders groups) (Attackers groups) (Other groups)
  else if String.eqb group "Defenders" then
    mkPositionGroups (Goalkeepers groups) (Defenders groups ++ [player])
      (Midfielders groups) (Attackers groups) (Other groups)
  else if String.eqb group "Midfielders" then
    mkPositionGroups (Goalkeepers groups) (Defenders groups)
      (Midfielders groups ++ [player]) (Attackers groups) (Other groups)
  else if String.eqb group "Attackers" then
    mkPositionGroups (Goalkeepers groups) (Defenders groups)
      (Midfielders groups) (Attackers groups ++ [player]) (Other groups)
  else
    mkPositionGroups (Goalkeepers groups) (Defenders groups)
      (Midfielders groups) (Attackers groups) (Other groups ++ [player]).

(** The sort key [x['age'] if x['age'] is not None else 999]. *)
Definition group_age_key (p : PlayerData) : Z :=
  match pd_age p with Some a => a | None => 999 end.

Definition by_group_age (x y : PlayerData) : bool :=
  group_age_key x <=? group_age_key y.

(** The groups after the second loop has sorted each of them. *)
Definition full_squad_by_position (players : list PlayerData) : PositionGroups :=
  let groups := fold_left place players (mkPositionGroups [] [] [] [] []) in
  mkPositionGroups (Py.sort by_group_age (Goalkeepers groups))
                   (Py.sort by_group_age (Defenders groups))
                   (Py.sort by_group_age (Midfielders groups))
                   (Py.sort by_group_age (Attackers groups))
                   (Py.sort by_group_age (Other groups)).

(** [ages = [p['age'] for p in players_with_ages]] *)
Definition ages_of (players : list PlayerData) : list Z :=
  flat_map (fun p => match pd_age p with Some a => [a] | None => [] end)
           players.

Record AgeGroups : Type := mkAgeGroups {
  under_20 : nat;
  age_20_24 : nat;
  age_25_29 : nat;
  age_30_plus : nat
}.

Definition age_groups (ages : list Z) : AgeGroups :=
  {| under_20 := List.length (filter (fun a => a <? 20) ages);
     age_20_24 :=
       List.length (filter (fun a => (20 <=? a) && (a <=? 24)) ages);
     age_25_29 :=
       List.length (filter (fun a => (25 <=? a) && (a <=? 29)) ages);
     age_30_plus := List.length (filter (fun a => 30 <=? a) ages) |}.

(** [min(ages) if ages else 0] and [max(ages) if ages else 0]. *)
Definition youngest_age (ages : list Z) : Z :=
  match ages with
  | [] => 0
  | a :: rest => fold_left Z.min rest a
  end.

Definition oldest_age (ages : list Z) : Z :=
  match ages with
  | [] => 0
  | a :: rest => fold_left Z.max rest a
  end.

(** [nationality_counts[n] = nationality_counts.get(n, 0) + 1] *)
Fixpoint bump (n : string) (counts : list (string * nat))
    : list (string * nat) :=
  match counts with
  | [] => [(n, 1%nat)]
  | (k, c) :: rest =>
      if String.eqb n k then (k, S c) :: rest else (k, c) :: bump n rest
  end.

Definition nationality_counts (players : list PlayerData)
    : list (string * nat) :=
  fold_left
    (fun counts player =>
       if String.eqb (pd_nationality player) "Unknown" then counts
       else bump (pd_nationality player) counts)
    players [].

(** [sorted(items, key=lambda x: x[1], reverse=True)] *)
Definition by_count_desc (x y : string * nat) : bool :=
  (snd y <=? snd x)%nat.

Definition sorted_nationalities (players : list PlayerData)
    : list (string * nat) :=
  Py.sort by_count_desc (nationality_counts players).

Definition top_nationality (players : list PlayerData) : string * nat :=
  match sorted_nationalities players with
  | x :: _ => x
  | [] => ("Unknown", 0%nat)
  end.

Section WithClock.

Variable strptime_ymd : string -> option Date.
Variable today : Date.

(** [calculate_age(date_of_birth)] *)
Definition calculate_age (date_of_birth : option string) : option Z :=
  match date_of_birth with
  | None => None
  | Some "" => None
  | Some s =>
      match strptime_ymd s with
      | Some birth_date => Some (age_on today birth_date)
      | None => None
      end
  end.

End WithClock.

End SquadMore.

(** ** Daily statistics ([analyze_daily_matches]) *)

Module DailyStats.

Record TimeSlots : Type := mkTimeSlots {
  morning : nat;
  afternoon : nat;
  evening : nat;
  late_night : nat
}.

(** The [stats] dict; [by_competition] keeps its keys in insertion order. *)
Record Statistics : Type := mkStatistics {
  total_matches : nat;
  by_competition : list (string * nat);
  by_time_slots : TimeSlots;
  live_matches : nat;
  high_importance : nat;
  rivalries : nat;
  major_leagues : nat
}.

(** The local list [major_leagues] of the loop body. *)
Definition major_league_names : list string :=
  [ "Premier League"; "UEFA Champions League"; "La Liga"; "Serie A";
    "Bundesliga"; "Ligue 1" ].

(** Truth value of an optional string: [None] and [''] are false. *)
Definition truthy (v : option string) : bool :=
  match v with
  | None | Some "" => false
  | Some _ => true
  end.

Section WithClock.

(** [iso_hour s] is
    [datetime.fromisoformat(s.replace('Z', '+00:00')).hour], [None] when
    the parser raises. *)
Variable iso_hour : string -> option Z.

(** The [try] block of the loop body; a missing [utcDate] or a failing
    parser leaves the slots as they are. *)
Definition count_time_slot (slots : TimeSlots) (m : Match) : TimeSlots :=
  match utcDate m with
  | None => slots
  | Some s =>
      match iso_hour s with
      | None => slots
      | Some hour =>
          if (6 <=? hour) && (hour <? 12) then
            mkTimeSlots (S (morning slots)) (afternoon slots)
                        (evening slots) (late_night slots)
          else if (12 <=? hour) && (hour <? 18) then
            mkTimeSlots (morning slots) (S (afternoon slots))
                        (evening slots) (late_night slots)
          else if (18 <=? hour) && (hour <? 24) then
            mkTimeSlots (morning slots) (afternoon slots)
                        (S (evening slots)) (late_night slots)
          else
            mkTimeSlots (morning slots) (afternoon slots)
                        (evening slots) (S (late_night slots))
      end
  end.

(** One iteration of [for match in matches]. *)
Definition analyze_match (stats : Statistics) (e : Classifier.EnhancedMatch)
    : Statistics :=
  let m := Classifier.base e in
  let comp_name := competition_name_of m "Unknown" in
  let importance := Classifier.importance_score (Classifier.enhanced_info e) in
  {| total_matches := total_matches stats;
     by_competition := SquadMore.bump comp_name (by_competition stats);
     by_time_slots := count_time_slot (by_time_slots stats) m;
     live_matches :=
       match status m with
       | Some s =>
           if Py.str_in_list s ["LIVE"; "IN_PLAY"]
           then S (live_matches stats) else live_matches stats
       | None => live_matches stats
       end;
     high_importance :=
       if 60 <=? importance
       then S (high_importance stats) else high_importance stats;
     rivalries :=
       if truthy (Classifier.rivalry_factor (Classifier.enhanced_info e))
       then S (rivalries stats) else rivalries stats;
     major_leagues :=
       if Py.str_in_list comp_name major_league_names
       then S (major_leagues stats) else major_leagues stats |}.

Definition analyze_daily_matches (matches : list Classifier.EnhancedMatch)
    : Statistics :=
  fold_left analyze_match matches
    {| total_matches := List.length matches;
       by_competition := [];
       by_time_slots := mkTimeSlots 0 0 0 0;
       live_matches := 0;
       high_importance := 0;
       rivalries := 0;
       major_leagues := 0 |}.

End WithClock.

End DailyStats.

(** ** ESPN events ([convert_espn_to_standard_format]) *)

Module Espn.

(** A score as it arrives in a competitor: a JSON string or a JSON
    number. *)
Inductive Score : Type :=
| ScoreStr (s : string)
| ScoreInt (n : Z).

(** [a > b]; [None] stands for the [TypeError] that comparing a string with
    a number raises. *)
Definition score_gt (a b : Score) : option bool :=
  match a, b with
  | ScoreStr x, ScoreStr y => Some (String.ltb y x)
  | ScoreInt x, ScoreInt y => Some (y <? x)
  | _, _ => None
  end.

Record EspnTeam : Type := mkEspnTeam {
  et_id : option ident;
  et_displayName : option string;
  et_abbreviation : option string;
  et_logo : option string
}.

Record Competitor : Type := mkCompetitor {
  co_team : option EspnTeam;
  co_homeAway : option string;
  co_score : option Score
}.

Record EspnVenue : Type := mkEspnVenue {
  vn_fullName : option string
}.

Record EspnCompetition : Type := mkEspnCompetition {
  ec_competitors : option (list Competitor);
  ec_venue : option EspnVenue
}.

(** An event of the scoreboard.  [ev_status_name] is the value at
    [status.type.name], [None] when one of the three keys is missing. *)
Record EspnEvent : Type := mkEspnEvent {
  ev_id : option string;
  ev_status_name : option string;
  ev_competitions : option (list EspnCompetition);
  ev_date : option string
}.

Record TeamData : Type := mkTeamData {
  td_id : option ident;
  td_name : option string;
  td_shortName : option string;
  td_tla : option string;
  td_crest : option string
}.

(** The converted record.  A field that is [None] is a key holding
    [None].  The keys with a fixed value other than [stage], [duration] and
    the competition's [type] ([group], [halfTime], [season], [referees],
    the competition's [emblem]) and the two keys derived from the league
    name by case mapping (the competition's [id] and [code]) are not part
    of this development. *)
Record StandardMatch : Type := mkStandardMatch {
  sm_id : string;
  sm_utcDate : option string;
  sm_status : string;
  sm_stage : string;
  sm_lastUpdated : option string;
  sm_homeTeam : TeamData;
  sm_awayTeam : TeamData;
  sm_winner : option string;
  sm_duration : string;
  sm_home_score : option Score;
  sm_away_score : option Score;
  sm_competition_name : string;
  sm_competition_type : string;
  sm_venue : string
}.

Definition status_mapping : Py.dict string :=
  [ ("STATUS_SCHEDULED", "SCHEDULED");
    ("STATUS_IN_PROGRESS", "LIVE");
    ("STATUS_FINAL", "FINISHED");
    ("STATUS_POSTPONED", "POSTPONED");
    ("STATUS_CANCELED", "CANCELLED") ].

(** [espn_event.get('competitions', [{}])[0]]; [None] stands for the
    [IndexError] of an empty list. *)
Definition first_competition (espn_event : EspnEvent)
    : option EspnCompetition :=
  match ev_competitions espn_event with
  | None => Some (mkEspnCompetition None None)
  | Some [] => None
  | Some (c :: _) => Some c
  end.

Definition team_data (competitor : Competitor) : TeamData :=
  match co_team competitor with
  | Some t =>
      {| td_id := et_id t; td_name := et_displayName t;
         td_shortName := et_abbreviation t; td_tla := et_abbreviation t;
         td_crest := et_logo t |}
  | None => mkTeamData None None None None None
  end.

(** [competitor.get('homeAway') == 'home'] *)
Definition is_home (competitor : Competitor) : bool :=
  match co_homeAway competitor with
  | Some s => String.eqb s "home"
  | None => false
  end.

(** The first loop over the competitors, on [(home_team, away_team)]. *)
Definition assign_teams (competitors : list Competitor)
    : option TeamData * option TeamData :=
  fold_left
    (fun teams competitor =>
       if is_home competitor then (Some (team_data competitor), snd teams)
       else (fst teams, Some (team_data competitor)))
    competitors (None, None).

(** The second loop, on [(home_score, away_score)]. *)
Definition assign_scores (competitors : list Competitor)
    : option Score * option Score :=
  fold_left
    (fun scores competitor =>
       if is_home competitor then (co_score competitor, snd scores)
       else (fst scores, co_score competitor))
    competitors (None, None).

(** The winner key; the outer [None] stands for the [TypeError] of a
    comparison between a string and a number. *)
Definition decide_winner (mapped_status : string)
    (home_score away_score : option Score) : option (option string) :=
  if String.eqb mapped_status "FINISHED" then
    match home_score, away_score with
    | Some h, Some a =>
        match score_gt h a with
        | None => None
        | Some true => Some (Some "HOME_TEAM")
        | Some false =>
            match score_gt a h with
            | None => None
            | Some true => Some (Some "AWAY_TEAM")
            | Some false => Some (Some "DRAW")
            end
        end
    | _, _ => Some None
    end
  else Some None.

(** [None] is the [None] the function returns, on its two early exits and
    from its [except] clause. *)
Definition convert_espn_to_standard_format
    (espn_event : EspnEvent) (league_name : string) : option StandardMatch :=
  let match_id := ev_id espn_event in
  let status := Py.get_str (ev_status_name espn_event) "SCHEDULED" in
  let mapped_status := Py.dict_get status_mapping status "SCHEDULED" in
  match first_competition espn_event with
  | None => None
  | Some competition =>
      let competitors :=
        match ec_competitors competition with Some l => l | None => [] end in
      if (List.length competitors <? 2)%nat then None
      else
        match assign_teams competitors with
        | (Some home_team, Some away_team) =>
            let scores :=
              if String.eqb mapped_status "FINISHED"
                 || String.eqb mapped_status "LIVE"
              then assign_scores competitors else (None, None) in
            let home_score := fst scores in
            let away_score := snd scores in
            let date_str := ev_date espn_event in
            let venue_name :=
              match ec_venue competition with
              | Some venue_info =>
                  Py.get_str (vn_fullName venue_info) "Unknown Venue"
              | None => "Unknown Venue"
              end in
            match decide_winner mapped_status home_score away_score with
            | None => None
            | Some winner =>
                Some {| sm_id := "espn_" ++ Py.get_str match_id "None";
                        sm_utcDate := date_str;
                        sm_status := mapped_status;
                        sm_stage := "REGULAR_SEASON";
                        sm_lastUpdated := ev_date espn_event;
                        sm_homeTeam := home_team;
                        sm_awayTeam := away_team;
                        sm_winner := winner;
                        sm_duration := "REGULAR";
                        sm_home_score := home_score;
                        sm_away_score := away_score;
                        sm_competition_name := league_name;
                        sm_competition_type := "LEAGUE";
                        sm_venue := venue_name |}
            end
        | _ => None
        end
  end.

End Espn.

(** ** Match sources (the fetching half of [get_matches_today]) *)

Module Sources.

(** The [espn_leagues] dict: scoreboard id to the league name handed to the
    converter. *)
Definition espn_leagues : Py.dict string :=
  [ ("eng.1", "Premier League");
    ("esp.1", "La Liga");
    ("ger.1", "Bundesliga");
    ("ita.1", "Serie A");
    ("fra.1", "Ligue 1");
    ("uefa.champions", "Champions League");
    ("uefa.europa", "Europa League");
    ("uefa.europa.conf", "Conference League");
    ("ned.1", "Eredivisie");
    ("por.1", "Primeira Liga");
    ("bel.1", "Pro League");
    ("aut.1", "Austrian Bundesliga");
    ("tur.1", "Süper Lig");
    ("sco.1", "Scottish Premiership");
    ("eng.2", "Championship");
    ("esp.2", "Segunda División");
    ("ger.2", "2. Bundesliga");
    ("ita.2", "Serie B");
    ("bra.1", "Brasileirão");
    ("arg.1", "Liga Profesional") ].

(** An element of [all_matches]: a converted ESPN event or a match of the
    football-data.org response. *)
Inductive Record : Type :=
| FromEspn (sm : Espn.StandardMatch)
| FromFootballData (m : Match).

(** What the fetching half leaves behind: the list [all_matches], the two
    counters of [source_stats] it sets, and the flag [extended_search]. *)
Record Gathered : Type := mkGathered {
  all_matches : list Record;
  espn_api : nat;
  football_data_fallback : nat;
  extended_search : bool
}.

(** [range(-3, 8)] *)
Definition days_offsets : list Z := [-3; -2; -1; 0; 1; 2; 3; 4; 5; 6; 7].

Section WithNetwork.

(** [scoreboard league_id days_offset] is the [events] list of the ESPN
    scoreboard of a league for the day [today + days_offset], the empty
    list when the body has no such key; [None] when the request raises,
    its status is not 200 or its body is not JSON. *)
Variable scoreboard : string -> Z -> option (list Espn.EspnEvent).

(** [football_data extended] is the [matches] list of the football-data.org
    response for today and tomorrow, or for three days back to seven days
    ahead when [extended]; [None] when the request raises, its status is
    not 200 or its body is not JSON. *)
Variable football_data : bool -> option (list Match).

(** One league of the loop over today's scoreboards, on
    [(all_matches, matches_found)]. *)
Definition fetch_today (state : list Record * bool) (league : string * string)
    : list Record * bool :=
  match scoreboard (fst league) 0 with
  | Some events =>
      fold_left
        (fun state event =>
           match Espn.convert_espn_to_standard_format event (snd league) with
           | Some m => (fst state ++ [FromEspn m], true)
           | None => state
           end)
        events state
  | None => state
  end.

Definition today_phase : list Record * bool :=
  fold_left fetch_today espn_leagues ([], false).

(** One league of one day of the extended search. *)
Definition fetch_extended (days_offset : Z) (all_matches : list Record)
    (league : string * string) : list Record :=
  match scoreboard (fst league) days_offset with
  | Some events =>
      fold_left
        (fun all_matches event =>
           match Espn.convert_espn_to_standard_format event (snd league) with
           | Some m => all_matches ++ [FromEspn m]
           | None => all_matches
           end)
        events all_matches
  | None => all_matches
  end.

(** [for days_offset in range(-3, 8)], with its [continue] for today and
    its [break] once twenty records are in. *)
Fixpoint extended_loop (offsets : list Z) (all_matches : list Record)
    : list Record :=
  match offsets with
  | [] => all_matches
  | days_offset :: rest =>
      if days_offset =? 0 then extended_loop rest all_matches
      else
        let all_matches :=
          fold_left (fetch_extended days_offset)
                    (Py.slice_to 5 espn_leagues) all_matches in
        if (20 <=? List.length all_matches)%nat then all_matches
        else extended_loop rest all_matches
  end.

(** [all_matches] once ESPN has been asked. *)
Definition espn_phase : list Record :=
  let '(all_matches, matches_found) := today_phase in
  if matches_found then all_matches
  else extended_loop days_offsets all_matches.

Definition gather : Gathered :=
  let '(today_matches, matches_found) := today_phase in
  let espn_api := List.length today_matches in
  let extended_search := negb matches_found in
  let all_matches := espn_phase in
  if (List.length all_matches <? 5)%nat then
    match football_data extended_search with
    | Some fb_matches =>
        {| all_matches := all_matches ++ map FromFootballData fb_matches;
           espn_api := espn_api;
           football_data_fallback := List.length fb_matches;
           extended_search := extended_search |}
    | None =>
        {| all_matches := all_matches;
           espn_api := espn_api;
           football_data_fallback := 0;
           extended_search := extended_search |}
    end
  else
    {| all_matches := all_matches;
       espn_api := espn_api;
       football_data_fallback := 0;
       extended_search := extended_search |}.

End WithNetwork.

End Sources.

(** ** Player roster ([get_team_players], [calculate_time_at_club]) *)

From Stdlib Require DecimalString.

Module Roster.
Import Squad.

(** [str(n)] for an integer. *)
Definition str_of_int (n : Z) : string :=
  DecimalString.NilZero.string_of_int (Z.to_int n).

(** The [contract] object of a squad member; only [start] is read. *)
Record Contract : Type := mkContract {
  start : option string
}.

(** A squad member as the roster reads it.  The keys [id] and
    [marketValue], which are copied through unread, are not part of this
    development. *)
Record SquadMember : Type := mkSquadMember {
  member : Player;
  shirtNumber : option Z;
  contract : option Contract
}.








Section WithClock.

Variable strptime_ymd : string -> option Date.

(** [datetime.now()], as a calendar date. *)
Variable today : Date.

(** [calculate_time_at_club(contract)], on [player.get('contract', {})]. *)
Definition calculate_time_at_club (contract : option Contract) : string :=
  match contract with
  | None => "Unknown"
  | Some c =>
      match start c with
      | None | Some "" => "Unknown"
      | Some s =>
          match strptime_ymd s with
          | None => "Unknown"
          | Some start_date =>
              let years := year today - year start_date in
              let months := month today - month start_date in
              let years := if months <? 0 then years - 1 else years in
              let months := if months <? 0 then months + 12 else months in
              if 0 <? years
              then str_of_int years ++ "y " ++ str_of_int months ++ "m"
              else str_of_int months ++ "m"
          end
      end
  end.



End WithClock.

End Roster.

(** ** The specification's vocabulary *)

(** The classifier as the specification words it. *)
Module ClassifierSpec.
Import Classifier.

Section WithClock.
Variable iso_date : string -> option Z.
Variable today : Z.

(** The match's date is today. *)
Definition on_day (m : Match) : bool :=
  match derive_match_date iso_date m with
  | Some d => d =? today
  | None => false
  end.

(** The match's date is strictly after today. *)
Definition after_day (m : Match) : bool :=
  match derive_match_date iso_date m with
  | Some d => today <? d
  | None => false
  end.

(** The enhanced record of a match that has a date. *)
Definition enhanced (m : Match) : EnhancedMatch :=
  match derive_match_date iso_date m with
  | Some d => enhance today m d
  | None => enhance today m today
  end.

(** The date field the classifier consults is absent or does not parse:
    the ESPN [date] key when the record has one, the canonical [utcDate]
    otherwise. *)
Definition undated (m : Match) : Prop :=
  match date m with
  | Some s => iso_date s = None
  | None =>
      match utcDate m with
      | Some s => iso_date s = None
      | None => True
      end
  end.
End WithClock.

(** "Descending importance score, then ascending days-from-today, then
    ascending kickoff timestamp string": [x] may stand in front of [y]. *)
Definition ranks_before (x y : EnhancedMatch) : Prop :=
  let ix := importance_score (enhanced_info x) in
  let iy := importance_score (enhanced_info y) in
  let dx := days_from_today (enhanced_info x) in
  let dy := days_from_today (enhanced_info y) in
  iy < ix \/
  (ix = iy /\
   (dx < dy \/
    (dx = dy /\
     String.leb (Py.get_str (utcDate (base x)) "")
                (Py.get_str (utcDate (base y)) "") = true))).

End ClassifierSpec.

(** The lifecycle analysis as the specification words it. *)
Module CompetitionsSpec.
Import Competitions.

(** The status of a bucket, from its matches: both an upcoming and a recent
    match make it active, upcoming matches alone upcoming, recent matches
    alone completed; with neither the bucket keeps its initial status and
    is in no result list. *)
Definition lifecycle (current_date : Z) (ms : list CompMatch) : string :=
  match filter (is_upcoming current_date) ms,
        filter (is_recent current_date) ms with
  | _ :: _, _ :: _ => "active"
  | _ :: _, [] => "upcoming"
  | [], _ :: _ => "completed"
  | [], [] => "unknown"
  end.

Definition has_status (s : string) (d : CompData) : bool :=
  String.eqb (cd_status d) s.

End CompetitionsSpec.

(** Team form as the specification words it: what the team's matches say,
    independently of the accumulation loop. *)
Module TeamStatsSpec.
Import TeamStats.

(** The team's score and the opponent's, for a match with both full-time
    scores; the team is the home side when its id is the home side's. *)
Definition side_scores (team_id : Z) (m : Match) : option (Z * Z) :=
  match both_scores m with
  | Some (h, a) => if is_home team_id m then Some (h, a) else Some (a, h)
  | None => None
  end.

Definition won (team_id : Z) (m : Match) : bool :=
  match side_scores team_id m with Some (t, o) => o <? t | None => false end.

Definition drawn (team_id : Z) (m : Match) : bool :=
  match side_scores team_id m with Some (t, o) => t =? o | None => false end.

Definition lost (team_id : Z) (m : Match) : bool :=
  match side_scores team_id m with Some (t, o) => t <? o | None => false end.

Definition number_of (f : Match -> bool) (ms : list Match) : Z :=
  Z.of_nat (List.length (filter f ms)).

Definition scored (team_id : Z) (m : Match) : Z :=
  match side_scores team_id m with Some (t, _) => t | None => 0 end.

Definition conceded (team_id : Z) (m : Match) : Z :=
  match side_scores team_id m with Some (_, o) => o | None => 0 end.

Definition total (f : Match -> Z) (ms : list Match) : Z :=
  fold_right Z.add 0 (map f ms).

End TeamStatsSpec.

(** ** Sample inputs *)

Module Samples.

Definition team (n : string) : option Team :=
  Some {| tm_id := None; tm_name := Some n |}.

Definition league (n : string) : option Competition :=
  Some {| competition_id := None; competition_name := Some n;
          competition_type := Some "LEAGUE"; competition_code := None;
          competition_emblem := None |}.

(** A fixture of a competition outside the tier table between two clubs
    outside the roster, scheduled, in the regular season. *)
Definition plain_match : Match :=
  {| date := None; utcDate := Some "2025-03-10T15:00:00Z";
     status := Some "SCHEDULED"; stage := Some "REGULAR_SEASON";
     matchday := None;
     homeTeam := team "Leeds United"; awayTeam := team "Burnley";
     fullTime := None; competition := league "Friendlies";
     venue := Some "Elland Road" |}.

(** Manchester United against Liverpool, in play at Old Trafford. *)
Definition derby_at_old_trafford : Match :=
  {| date := None; utcDate := Some "2025-03-10T16:30:00Z";
     status := Some "LIVE"; stage := Some "REGULAR_SEASON";
     matchday := None;
     homeTeam := team "Manchester United"; awayTeam := team "Liverpool";
     fullTime := None; competition := league "Premier League";
     venue := Some "Old Trafford" |}.

(** The same fixture with the sides swapped. *)
Definition derby_at_anfield : Match :=
  {| date := None; utcDate := Some "2025-03-10T16:30:00Z";
     status := Some "LIVE"; stage := Some "REGULAR_SEASON";
     matchday := None;
     homeTeam := team "Liverpool"; awayTeam := team "Manchester United";
     fullTime := None; competition := league "Premier League";
     venue := Some "Anfield" |}.

(** 10 March 2025, as [date.toordinal()]. *)
Definition march_10 : Z := 739320.

(** A Premier League fixture on 11 March 2025 between two clubs outside the
    roster. *)
Definition league_tomorrow : Match :=
  {| date := None; utcDate := Some "2025-03-11T20:00:00Z";
     status := Some "SCHEDULED"; stage := Some "REGULAR_SEASON";
     matchday := Some 28;
     homeTeam := team "Everton"; awayTeam := team "Fulham";
     fullTime := None; competition := league "Premier League";
     venue := Some "Goodison Park" |}.

(** A record whose kickoff time is not a timestamp. *)
Definition kickoff_tbd : Match :=
  {| date := None; utcDate := Some "TBD";
     status := Some "SCHEDULED"; stage := Some "REGULAR_SEASON";
     matchday := None;
     homeTeam := team "Real Madrid"; awayTeam := team "Barcelona";
     fullTime := None; competition := league "La Liga";
     venue := None |}.

(** A fixture played the day before. *)
Definition league_yesterday : Match :=
  {| date := None; utcDate := Some "2025-03-09T14:00:00Z";
     status := Some "FINISHED"; stage := Some "REGULAR_SEASON";
     matchday := Some 27;
     homeTeam := team "Arsenal"; awayTeam := team "Chelsea";
     fullTime := Some (mkFullTime (Some 1) (Some 0));
     competition := league "Premier League";
     venue := Some "Emirates Stadium" |}.

(** A Premier League fixture that was postponed. *)
Definition postponed_match : Match :=
  {| date := None; utcDate := Some "2025-03-12T20:00:00Z";
     status := Some "POSTPONED"; stage := Some "REGULAR_SEASON";
     matchday := Some 28;
     homeTeam := Some {| tm_id := Some (IdInt 66);
                         tm_name := Some "Manchester United" |};
     awayTeam := Some {| tm_id := Some (IdInt 57); tm_name := Some "Arsenal" |};
     fullTime := None;
     competition :=
       Some {| competition_id := Some (IdInt 2021);
               competition_name := Some "Premier League";
               competition_type := Some "LEAGUE";
               competition_code := Some "PL";
               competition_emblem := None |};
     venue := None |}.

(** Noon of 10 March 2025, on the time line of [RefDates.iso_instant]. *)
Definition noon_march_10 : Z := 739320 * 86400 + 43200.

(** Two more Premier League fixtures of the same club: one played, one to
    come. *)
Definition league_played : Match :=
  {| date := None; utcDate := Some "2025-03-01T15:00:00Z";
     status := Some "FINISHED"; stage := Some "REGULAR_SEASON";
     matchday := Some 27;
     homeTeam := Some {| tm_id := Some (IdInt 66);
                         tm_name := Some "Manchester United" |};
     awayTeam := Some {| tm_id := Some (IdInt 65);
                         tm_name := Some "Manchester City" |};
     fullTime := Some (mkFullTime (Some 2) (Some 1));
     competition := competition postponed_match;
     venue := None |}.

Definition league_to_come : Match :=
  {| date := None; utcDate := Some "2025-03-15T15:00:00Z";
     status := Some "TIMED"; stage := Some "REGULAR_SEASON";
     matchday := Some 29;
     homeTeam := Some {| tm_id := Some (IdInt 64); tm_name := Some "Liverpool" |};
     awayTeam := Some {| tm_id := Some (IdInt 66);
                         tm_name := Some "Manchester United" |};
     fullTime := None;
     competition := competition postponed_match;
     venue := None |}.

(** Three finished matches of team 66: a 2-1 home win, a 1-1 away draw and
    a 2-0 away win. *)
Definition result (home away : Z) (h a : Z) : Match :=
  {| date := None; utcDate := Some "2025-03-01T15:00:00Z";
     status := Some "FINISHED"; stage := Some "REGULAR_SEASON";
     matchday := None;
     homeTeam := Some {| tm_id := Some (IdInt home); tm_name := None |};
     awayTeam := Some {| tm_id := Some (IdInt away); tm_name := None |};
     fullTime := Some (mkFullTime (Some h) (Some a));
     competition := competition postponed_match;
     venue := None |}.

Definition recent_form : list Match :=
  [ result 66 65 2 1; result 64 66 1 1; result 57 66 0 2 ].

(** A squad on 10 March 2025: a player who turns 23 that day, a teenager,
    a player who turns 30 that day, and one without a date of birth. *)
Definition squad_day : Squad.Date := Squad.mkDate 2025 3 10.

Definition born (n : string) (dob : option string) : Squad.Player :=
  {| Squad.name := Some n; Squad.position := Some "Midfield";
     Squad.nationality := Some "England"; Squad.dateOfBirth := dob |}.

Definition squad : list Squad.Player :=
  [ born "A" (Some "2002-03-10"); born "B" (Some "2005-06-01");
    born "C" (Some "1995-03-10"); born "D" None ].

End Samples.


(** ** Further vocabulary *)

(** Team form, match by match. *)
Module FormSpec.
Import TeamStats TeamStatsSpec.

(** The match has both full-time scores, so the loop counts it. *)
Definition has_scores (m : Match) : bool :=
  match both_scores m with Some _ => true | None => false end.

(** The result letter of a counted match. *)
Definition letter (team_id : Z) (m : Match) : string :=
  if won team_id m then "W" else if lost team_id m then "L" else "D".

(** The opponent did not score. *)
Definition kept_clean (team_id : Z) (m : Match) : bool :=
  match side_scores team_id m with Some (_, o) => o =? 0 | None => false end.

(** The competition name the loop records for a counted match, if any. *)
Definition recorded_name (m : Match) : option string :=
  match competition m with
  | Some c =>
      match competition_name c with
      | Some "" | None => None
      | Some n => Some n
      end
  | None => None
  end.

End FormSpec.

(** The lifecycle analysis, seen from its input. *)
Module LifecycleSpec.
Import Competitions.

(** The competition id of a raw match: [competition.get('id')]. *)
Definition comp_id_of (m : Match) : option ident :=
  match competition m with
  | Some c => competition_id c
  | None => None
  end.

(** The distinct ids of a list, in order of first appearance. *)
Definition note_id (seen : list (option ident)) (k : option ident)
    : list (option ident) :=
  if existsb (opt_ident_eqb k) seen then seen else seen ++ [k].

Definition first_seen (ks : list (option ident)) : list (option ident) :=
  fold_left note_id ks [].

(** The number of matches of competition [k]. *)
Definition matches_of (k : option ident) (ms : list Match) : nat :=
  List.length (filter (fun m => opt_ident_eqb (comp_id_of m) k) ms).

(** The kickoff time is present and can be read. *)
Definition readable (iso_instant : string -> option Z) (m : Match) : Prop :=
  exists s t, utcDate m = Some s /\ iso_instant s = Some t.


End LifecycleSpec.

(** Squads, seen player by player. *)
Module SquadSpec.
Import Squad.

(** [player.get('position', 'Unknown')] *)
Definition raw_position (p : Player) : string :=
  Py.get_str (position p) "Unknown".

(** The players of a squad whose raw position is exactly [k]. *)
Definition holding (k : string) (squad : list Player) : list Player :=
  filter (fun p => String.eqb (raw_position p) k) squad.

(** The player belongs to position group [g]. *)
Definition in_group (g : string) (p : PlayerData) : bool :=
  String.eqb (SquadMore.position_group (pd_position p)) g.

(** The player's nationality is [n]. *)
Definition of_nation (n : string) (p : PlayerData) : bool :=
  String.eqb (pd_nationality p) n.

(** The player's nationality is known. *)
Definition nation_known (p : PlayerData) : bool :=
  negb (String.eqb (pd_nationality p) "Unknown").

(** Calendar order: the date [a] is not after the date [b]. *)
Definition on_or_before (a b : Date) : Prop :=
  year a < year b \/
  (year a = year b /\
   (month a < month b \/ (month a = month b /\ day a <= day b))).

(** The [n]-th anniversary of a date, as a year, month and day. *)
Definition anniversary (n : Z) (birth_date : Date) : Date :=
  mkDate (year birth_date + n) (month birth_date) (day birth_date).

End SquadSpec.

(** The matches-today response, seen from its input. *)
Module ResponseSpec.
Import Classifier.

(** The record is dated today or later, so the classifier keeps it. *)
Definition kept (iso_date : string -> option Z) (today : Z) (m : Match) : bool :=
  match derive_match_date iso_date m with
  | Some d => today <=? d
  | None => false
  end.

(** The enhanced match has the sort key [k]. *)
Definition has_key (k : Z * Z * string) (e : EnhancedMatch) : bool :=
  let '(a, b, c) := k in
  let '(a', b', c') := sort_key e in
  (a =? a') && (b =? b') && String.eqb c c'.

End ResponseSpec.

(** ** Further sample inputs *)

Module MoreSamples.

(** Manchester United against Liverpool at Old Trafford, before kickoff. *)
Definition derby_scheduled : Match :=
  {| date := None; utcDate := Some "2025-03-10T16:30:00Z";
     status := Some "SCHEDULED"; stage := Some "REGULAR_SEASON";
     matchday := None;
     homeTeam := Samples.team "Manchester United";
     awayTeam := Samples.team "Liverpool";
     fullTime := None; competition := Samples.league "Premier League";
     venue := Some "Old Trafford" |}.

(** The squad of [Samples.squad] as [get_top_performers] records it on
    10 March 2025. *)
Definition squad_data : list Squad.PlayerData :=
  Squad.squad_with_ages RefDates.strptime_ymd Samples.squad_day Samples.squad.

(** The hour of the UTC instant [YYYY-MM-DDTHH:MM:SSZ]. *)
Definition iso_hour (s : string) : option Z :=
  match RefDates.iso_instant s with
  | Some t => Some (t mod 86400 / 3600)
  | None => None
  end.

(** One match today and one tomorrow. *)
Definition two_days : list Match :=
  [Samples.plain_match; Samples.league_tomorrow].

End MoreSamples.

(** The day's statistics, seen match by match. *)
Module DailySpec.

(** The competition name the statistics file a record under. *)
Definition filed_under (m : Match) : string :=
  competition_name_of m "Unknown".

Definition in_competition (n : string) (m : Match) : bool :=
  String.eqb (filed_under m) n.

(** The kickoff hour, when the record has a kickoff time that can be
    read. *)
Definition hour_of (iso_hour : string -> option Z) (m : Match) : option Z :=
  match utcDate m with
  | Some s => iso_hour s
  | None => None
  end.

Definition timed (iso_hour : string -> option Z) (m : Match) : bool :=
  match hour_of iso_hour m with Some _ => true | None => false end.

(** The kickoff hour lies in [lo, hi). *)
Definition kicks_off_in (iso_hour : string -> option Z) (lo hi : Z)
    (m : Match) : bool :=
  match hour_of iso_hour m with
  | Some h => (lo <=? h) && (h <? hi)
  | None => false
  end.

(** The kickoff hour lies outside [lo, hi). *)
Definition kicks_off_outside (iso_hour : string -> option Z) (lo hi : Z)
    (m : Match) : bool :=
  match hour_of iso_hour m with
  | Some h => negb ((lo <=? h) && (h <? hi))
  | None => false
  end.

Definition is_live (m : Match) : bool :=
  match status m with
  | Some s => String.eqb s "LIVE" || String.eqb s "IN_PLAY"
  | None => false
  end.

Definition in_major_league (m : Match) : bool :=
  Py.str_in_list (filed_under m) DailyStats.major_league_names.

(** The two sides are one of the listed rivalries. *)
Definition is_rivalry (m : Match) : bool :=
  match Importance.check_rivalry_factor m with
  | Some _ => true
  | None => false
  end.

(** The count of an entry of the competition breakdown whose name is one of
    the major leagues, 0 for any other entry. *)
Definition major_share (kv : string * nat) : nat :=
  if Py.str_in_list (fst kv) DailyStats.major_league_names
  then snd kv else 0%nat.

(** How many elements of a list satisfy a test. *)
Definition how_many {A : Type} (f : A -> bool) (l : list A) : nat :=
  List.length (filter f l).

End DailySpec.

(** ESPN events, seen from their competitors. *)
Module EspnSpec.
Import Espn.

(** The competitors of the event's first competition, none when the key is
    missing. *)
Definition competitors_of (ev : EspnEvent) : list Competitor :=
  match ev_competitions ev with
  | Some (c :: _) =>
      match ec_competitors c with Some l => l | None => [] end
  | _ => []
  end.

(** The last competitor flagged as home, and the last one not flagged so. *)
Definition last_home (cs : list Competitor) : option Competitor :=
  find is_home (rev cs).

Definition last_away (cs : list Competitor) : option Competitor :=
  find (fun c => negb (is_home c)) (rev cs).

(** The status of the converted record. *)
Definition status_of (ev : EspnEvent) : string :=
  Py.dict_get status_mapping (Py.get_str (ev_status_name ev) "SCHEDULED")
    "SCHEDULED".

(** The event is final and the two sides' scores cannot be compared: one
    is a string and the other a number. *)
Definition scores_incomparable (ev : EspnEvent) : Prop :=
  status_of ev = "FINISHED" /\
  exists ch ca h a,
    last_home (competitors_of ev) = Some ch /\
    last_away (competitors_of ev) = Some ca /\
    co_score ch = Some h /\ co_score ca = Some a /\
    score_gt h a = None.

(** The status carries scores. *)
Definition with_scores (s : string) : bool :=
  String.eqb s "FINISHED" || String.eqb s "LIVE".

(** The winner key of a final match with the scores [h] and [a]. *)
Definition winner_of (h a : Score) : string :=
  match score_gt h a with
  | Some true => "HOME_TEAM"
  | _ =>
      match score_gt a h with
      | Some true => "AWAY_TEAM"
      | _ => "DRAW"
      end
  end.

(** A match record holds the keys of a converted record that the scorer
    and the classifier read: no [date] key, the same [utcDate], [status],
    [stage] and [venue], the two sides' names and the competition's
    name. *)
Definition carries (sm : StandardMatch) (m : Match) : Prop :=
  date m = None /\
  utcDate m = sm_utcDate sm /\
  status m = Some (sm_status sm) /\
  stage m = Some (sm_stage sm) /\
  venue m = Some (sm_venue sm) /\
  (exists t, homeTeam m = Some t /\ tm_name t = td_name (sm_homeTeam sm)) /\
  (exists t, awayTeam m = Some t /\ tm_name t = td_name (sm_awayTeam sm)) /\
  (exists c, competition m = Some c /\
             competition_name c = Some (sm_competition_name sm)).

End EspnSpec.

(** ** Sample events *)

Module EspnSamples.
Import Espn.

Definition side (n : string) (where_ : string) (goals : string) : Competitor :=
  {| co_team := Some (mkEspnTeam None (Some n) None None);
     co_homeAway := Some where_;
     co_score := Some (ScoreStr goals) |}.

(** A final event whose scores are the strings 10 and 9. *)
Definition ten_nine : EspnEvent :=
  {| ev_id := Some "401";
     ev_status_name := Some "STATUS_FINAL";
     ev_competitions :=
       Some [ {| ec_competitors :=
                   Some [side "Arsenal" "home" "10"; side "Chelsea" "away" "9"];
                 ec_venue := None |} ];
     ev_date := Some "2025-03-10T15:00:00Z" |}.

Definition ten_nine_converted : StandardMatch :=
  {| sm_id := "espn_401";
     sm_utcDate := Some "2025-03-10T15:00:00Z";
     sm_status := "FINISHED";
     sm_stage := "REGULAR_SEASON";
     sm_lastUpdated := Some "2025-03-10T15:00:00Z";
     sm_homeTeam := mkTeamData None (Some "Arsenal") None None None;
     sm_awayTeam := mkTeamData None (Some "Chelsea") None None None;
     sm_winner := Some "AWAY_TEAM";
     sm_duration := "REGULAR";
     sm_home_score := Some (ScoreStr "10");
     sm_away_score := Some (ScoreStr "9");
     sm_competition_name := "Premier League";
     sm_competition_type := "LEAGUE";
     sm_venue := "Unknown Venue" |}.

(** An event with a single competitor. *)
Definition one_sided : EspnEvent :=
  {| ev_id := Some "402";
     ev_status_name := Some "STATUS_SCHEDULED";
     ev_competitions :=
       Some [ {| ec_competitors := Some [side "Arsenal" "home" "0"];
                 ec_venue := None |} ];
     ev_date := Some "2025-03-10T15:00:00Z" |}.

(** The converted record of [ten_nine] as the scorer reads it. *)
Definition ten_nine_match : Match :=
  {| date := None; utcDate := Some "2025-03-10T15:00:00Z";
     status := Some "FINISHED"; stage := Some "REGULAR_SEASON";
     matchday := None;
     homeTeam := Samples.team "Arsenal"; awayTeam := Samples.team "Chelsea";
     fullTime := None; competition := Samples.league "Premier League";
     venue := Some "Unknown Venue" |}.

End EspnSamples.

(** The fetching half, seen from what the scoreboards hold. *)
Module SourcesSpec.
Import Sources.

Section WithNetwork.
Variable scoreboard : string -> Z -> option (list Espn.EspnEvent).

(** The events of a league that convert, as records, in scoreboard
    order. *)
Definition league_records (days_offset : Z) (league : string * string)
    : list Record :=
  match scoreboard (fst league) days_offset with
  | Some events =>
      flat_map
        (fun event =>
           match Espn.convert_espn_to_standard_format event (snd league) with
           | Some m => [FromEspn m]
           | None => []
           end)
        events
  | None => []
  end.

(** The records of a day over a list of leagues; a league whose request
    fails gives none. *)
Definition day_records (leagues : list (string * string)) (days_offset : Z)
    : list Record :=
  flat_map (league_records days_offset) leagues.

(** The records of the first [n] days of the extended search. *)
Definition extended_records (n : nat) : list Record :=
  flat_map (day_records (firstn 5 espn_leagues))
           (firstn n [-3; -2; -1; 1; 2; 3; 4; 5; 6; 7]).

End WithNetwork.

(** The football-data.org matches among the records. *)
Definition fallback_matches (records : list Record) : list Match :=
  flat_map (fun r => match r with
                     | FromFootballData m => [m]
                     | FromEspn _ => []
                     end) records.

End SourcesSpec.

(** ** Sample sources *)

Module SourceSamples.

(** Only the Premier League scoreboard of today holds an event; the
    Bundesliga request fails. *)
Definition scoreboard (league_id : string) (days_offset : Z)
    : option (list Espn.EspnEvent) :=
  if String.eqb league_id "eng.1" && (days_offset =? 0)
  then Some [EspnSamples.ten_nine]
  else if String.eqb league_id "ger.1" then None
  else Some [].

Definition football_data (extended : bool) : option (list Match) :=
  if extended then Some [Samples.league_yesterday; Samples.league_tomorrow]
  else Some [Samples.plain_match].

End SourceSamples.

(** The roster, seen player by player. *)
Module RosterSpec.
Import Roster.


(** Whole months from the month of [a] to the month of [b], days
    ignored. *)
Definition months_between (a b : Squad.Date) : Z :=
  12 * (Squad.year b - Squad.year a) + (Squad.month b - Squad.month a).

(** The label of a tenure of [n] whole months. *)
Definition label (n : Z) : string :=
  if 12 <=? n
  then str_of_int (n / 12) ++ "y " ++ str_of_int (n mod 12) ++ "m"
  else str_of_int (n mod 12) ++ "m".

End RosterSpec.

(** ** A sample roster *)

Module RosterSamples.
Import Roster.

Definition keeper : SquadMember :=
  {| member := {| Squad.name := Some "K"; Squad.position := Some "Goalkeeper";
                  Squad.nationality := Some "England";
                  Squad.dateOfBirth := Some "1995-03-10" |};
     shirtNumber := Some 1;
     contract := Some (mkContract (Some "2022-07-01")) |}.


End RosterSamples.

(** * Properties *)

(** ** The stable sort *)

(** A member of a prefix is a member of the list. *)
Lemma firstn_In {A : Type} (n : nat) (l : list A) (x : A) :
  In x (firstn n l) -> In x l.
Proof.
  intros H. rewrite <- (firstn_skipn n l). apply in_or_app. now left.
Qed.

(** Sortedness passes to a weaker relation. *)
Lemma Sorted_weaken {A : Type} (R R' : A -> A -> Prop) (l : list A) :
  (forall x y, R x y -> R' x y) -> Sorted R l -> Sorted R' l.
Proof.
  intros Hw. induction 1 as [|x l Hs IH Hhd]; constructor; auto.
  destruct Hhd; constructor; auto.
Qed.

(** A filter that implies another one absorbs it. *)
Lemma filter_absorb {A : Type} (f g : A -> bool) (l : list A) :
  (forall x, f x = true -> g x = true) ->
  filter f (filter g l) = filter f l.
Proof.
  intros Hfg. induction l as [|x l IH]; simpl; [reflexivity|].
  destruct (g x) eqn:Hg; simpl; rewrite IH; [reflexivity|].
  destruct (f x) eqn:Hf; [|reflexivity].
  apply Hfg in Hf. congruence.
Qed.

(** In a sorted concatenation every element of the front part stands in
    the relation to every element of the back part. *)
Lemma StronglySorted_app_cross {A : Type} (R : A -> A -> Prop)
    (l1 l2 : list A) (x y : A) :
  StronglySorted R (l1 ++ l2) -> In x l1 -> In y l2 -> R x y.
Proof.
  induction l1 as [|a l1 IH]; simpl; intros Hs Hx Hy; [contradiction|].
  inversion Hs as [|a' l' Hs' Hall]; subst.
  destruct Hx as [->|Hx]; [|now apply IH].
  rewrite Forall_forall in Hall. apply Hall, in_or_app. now right.
Qed.

Lemma firstn_StronglySorted {A : Type} (R : A -> A -> Prop) (n : nat)
    (l : list A) :
  StronglySorted R l -> StronglySorted R (firstn n l).
Proof.
  intros Hs. revert n. induction Hs as [|x l Hs IH Hall]; intros n.
  - rewrite firstn_nil. constructor.
  - destruct n as [|n]; simpl; constructor; [apply IH|].
    rewrite Forall_forall in *. intros y Hy. apply Hall.
    now apply firstn_In in Hy.
Qed.

(** The order of strings is transitive. *)
Lemma string_leb_trans (a b c : string) :
  String.leb a b = true -> String.leb b c = true -> String.leb a c = true.
Proof.
  unfold String.leb.
  destruct (String.compare a b) eqn:Hab; [| |discriminate];
    destruct (String.compare b c) eqn:Hbc; try discriminate; intros _ _.
  - apply String.compare_eq_iff in Hab. subst b. now rewrite Hbc.
  - apply String.compare_eq_iff in Hab. subst b. now rewrite Hbc.
  - apply String.compare_eq_iff in Hbc. subst c. now rewrite Hab.
  - apply OrderedTypeEx.String_as_OT.cmp_lt in Hab, Hbc.
    pose proof (OrderedTypeEx.String_as_OT.lt_trans _ _ _ Hab Hbc) as Hac.
    apply OrderedTypeEx.String_as_OT.cmp_lt in Hac.
    unfold OrderedTypeEx.String_as_OT.cmp in Hac. now rewrite Hac.
Qed.

(** Taking a prefix keeps a list sorted. *)
Lemma firstn_Sorted {A : Type} (R : A -> A -> Prop) (n : nat) (l : list A) :
  Sorted R l -> Sorted R (firstn n l).
Proof.
  intros Hs. revert n. induction Hs as [|x l Hs IH Hhd]; intros n.
  - rewrite firstn_nil. constructor.
  - destruct n as [|n]; simpl; [constructor|].
    constructor; [apply IH|].
    destruct Hhd as [|y l' Hxy]; [rewrite firstn_nil; constructor|].
    destruct n; simpl; constructor. exact Hxy.
Qed.

Section SortFacts.
Context {A : Type} (leb : A -> A -> bool).

Let le (x y : A) : Prop := leb x y = true.

Lemma insert_perm (x : A) (l : list A) :
  Permutation (x :: l) (Py.insert leb x l).
Proof.
  induction l as [|y l IH]; simpl; [reflexivity|].
  destruct (leb x y); [reflexivity|].
  rewrite perm_swap. now apply perm_skip.
Qed.

Lemma sort_perm (l : list A) : Permutation l (Py.sort leb l).
Proof.
  induction l as [|x l IH]; simpl; [constructor|].
  rewrite <- insert_perm. now apply perm_skip.
Qed.

Lemma sort_length (l : list A) : List.length (Py.sort leb l) = List.length l.
Proof. symmetry. apply Permutation_length, sort_perm. Qed.

Lemma sort_In (x : A) (l : list A) : In x (Py.sort leb l) <-> In x l.
Proof.
  split; apply Permutation_in; [symmetry|]; apply sort_perm.
Qed.

(** A sorted list is a fixed point: the sort never moves an element that
    is already in place. *)
Lemma sort_sorted_id (l : list A) : Sorted le l -> Py.sort leb l = l.
Proof.
  induction 1 as [|x l Hs IH Hhd]; simpl; [reflexivity|].
  rewrite IH. destruct Hhd as [|y l' Hxy]; simpl; [reflexivity|].
  unfold le in Hxy. now rewrite Hxy.
Qed.

Section Total.
Hypothesis leb_total : forall x y, leb x y = false -> leb y x = true.

Lemma insert_HdRel (a x : A) (l : list A) :
  le a x -> HdRel le a l -> HdRel le a (Py.insert leb x l).
Proof.
  intros Hax Hhd. destruct Hhd as [|y l' Hay]; simpl.
  - now constructor.
  - destruct (leb x y); now constructor.
Qed.

Lemma insert_Sorted (x : A) (l : list A) :
  Sorted le l -> Sorted le (Py.insert leb x l).
Proof.
  induction 1 as [|y l Hs IH Hhd]; simpl.
  - repeat constructor.
  - destruct (leb x y) eqn:Hxy.
    + constructor; [now constructor | now constructor].
    + constructor; [exact IH|].
      apply insert_HdRel; [now apply leb_total | exact Hhd].
Qed.

Lemma sort_Sorted (l : list A) : Sorted le (Py.sort leb l).
Proof.
  induction l as [|x l IH]; simpl; [constructor|].
  now apply insert_Sorted.
Qed.
End Total.

End SortFacts.

(** ** Importance scorer *)

Section ImportanceFacts.
Import Importance.

Lemma dict_get_bounds (d : Py.dict Z) (k : string) (default lo hi : Z) :
  Forall (fun kv => lo <= snd kv <= hi) d ->
  lo <= default <= hi ->
  lo <= Py.dict_get d k default <= hi.
Proof.
  intros Hd Hdef. unfold Py.dict_get.
  induction Hd as [|[k' v] d' Hv Hd' IH]; simpl; [exact Hdef|].
  destruct (String.eqb k k'); [exact Hv | exact IH].
Qed.

Lemma competition_points_bounds (m : Match) : 8 <= competition_points m <= 50.
Proof.
  apply dict_get_bounds; [|lia].
  unfold competition_scores. repeat constructor; simpl; lia.
Qed.

Lemma club_points_bounds (m : Match) : 0 <= club_points m <= 25.
Proof.
  unfold club_points.
  destruct (Py.str_in_list (home_team_name m) big_clubs),
           (Py.str_in_list (away_team_name m) big_clubs); simpl; lia.
Qed.

Lemma status_points_bounds (m : Match) : 0 <= status_points m <= 20.
Proof.
  unfold status_points.
  destruct (Py.str_in_list _ _); [lia|].
  destruct (String.eqb _ _); lia.
Qed.

Lemma stage_points_bounds (m : Match) : 0 <= stage_points m <= 20.
Proof.
  apply dict_get_bounds; [|lia].
  unfold stage_boosts. repeat constructor; simpl; lia.
Qed.

Lemma rivalry_scan_symmetric table (a b : string) :
  rivalry_scan table a b = rivalry_scan table b a.
Proof.
  induction table as [|[[team1 team2] rivalry_name] rest IH]; simpl.
  - reflexivity.
  - rewrite IH.
    destruct (String.eqb a team1), (String.eqb a team2),
             (String.eqb b team1), (String.eqb b team2); reflexivity.
Qed.

(** The five names of the league-based branch of [determine_tv_coverage]
    all score at least 30, so that branch is never taken. *)
Lemma league_broadcasting_unreachable (m : Match) :
  determine_tv_coverage m <> "League Broadcasting".
Proof.
  unfold determine_tv_coverage.
  destruct (70 <=? _); [discriminate|].
  destruct (50 <=? _); [discriminate|].
  destruct (30 <=? calculate_match_importance m) eqn:H30; [discriminate|].
  destruct (Py.str_in_list _ _) eqn:Hin; [|discriminate].
  exfalso. apply Z.leb_gt in H30.
  assert (Hc : 30 <= competition_points m).
  { unfold competition_points. unfold Py.str_in_list in Hin. simpl in Hin.
    repeat match type of Hin with
    | (String.eqb ?x ?y || _) = true =>
        destruct (String.eqb_spec x y) as [->|_];
        [vm_compute; discriminate | simpl in Hin]
    end.
    discriminate. }
  pose proof (club_points_bounds m). pose proof (status_points_bounds m).
  pose proof (stage_points_bounds m).
  unfold calculate_match_importance in H30. lia.
Qed.

End ImportanceFacts.

(** C3.  The importance score of every match lies in [0,100]; a match whose
    competition is not in the tier table, whose two sides are outside the
    big-club roster, whose status is SCHEDULED and whose stage is not in the
    stage table scores exactly 10. *)
Theorem importance_in_range_and_floor_10 (m : Match) :
  0 <= Importance.calculate_match_importance m <= 100 /\
  (Py.dict_lookup Importance.competition_scores (competition_name_of m "") = None ->
   Py.str_in_list (home_team_name m) Importance.big_clubs = false ->
   Py.str_in_list (away_team_name m) Importance.big_clubs = false ->
   Py.get_str (status m) "" = "SCHEDULED" ->
   Py.dict_lookup Importance.stage_boosts (Py.get_str (stage m) "") = None ->
   Importance.calculate_match_importance m = 10).
Proof.
  split.
  - pose proof (competition_points_bounds m).
    pose proof (club_points_bounds m).
    pose proof (status_points_bounds m).
    pose proof (stage_points_bounds m).
    unfold Importance.calculate_match_importance. lia.
  - intros Hcomp Hhome Haway Hstatus Hstage.
    unfold Importance.calculate_match_importance,
      Importance.competition_points, Importance.club_points,
      Importance.status_points, Importance.stage_points, Py.dict_get.
    rewrite Hcomp, Hhome, Haway, Hstatus, Hstage. reflexivity.
Qed.

Lemma importance_in_range_and_floor_10_witness :
  Importance.calculate_match_importance Samples.plain_match = 10.
Proof.
  apply (proj2 (importance_in_range_and_floor_10 Samples.plain_match));
    reflexivity.
Defined.

(** C6.  The rivalry lookup does not depend on which side is at home: two
    matches whose home and away names are exchanged get the same rivalry
    label, or both get none. *)
Theorem check_rivalry_factor_symmetric (m1 m2 : Match) :
  home_team_name m1 = away_team_name m2 ->
  away_team_name m1 = home_team_name m2 ->
  Importance.check_rivalry_factor m1 = Importance.check_rivalry_factor m2.
Proof.
  intros Hh Ha. unfold Importance.check_rivalry_factor.
  rewrite Hh, Ha. apply rivalry_scan_symmetric.
Qed.

Lemma check_rivalry_factor_symmetric_witness :
  Importance.check_rivalry_factor Samples.derby_at_old_trafford
  = Importance.check_rivalry_factor Samples.derby_at_anfield.
Proof.
  apply (check_rivalry_factor_symmetric
           Samples.derby_at_old_trafford Samples.derby_at_anfield);
    reflexivity.
Defined.

(** C7, as stated, fails: a match of importance 80 played at Old Trafford
    is rated "Prime Time TV" but its attendance is "Sold Out (70,000+)",
    not the "High" tier. *)
Lemma attendance_tier_counterexample :
  70 <= Importance.calculate_match_importance Samples.derby_at_old_trafford /\
  Importance.determine_tv_coverage Samples.derby_at_old_trafford
    = "Prime Time TV" /\
  Importance.estimate_attendance Samples.derby_at_old_trafford
    <> "High (50,000+)".
Proof.
  repeat split; vm_compute; discriminate.
Qed.

(** C7, amended.  The TV tier follows the importance score alone: at least
    70 gives "Prime Time TV", 50 to 69 "Major Sports Networks", 30 to 49
    "Sports Channels", below 30 one of the two fallback labels.  The
    attendance tier is "Sold Out (70,000+)" whenever the venue name contains
    a marquee stadium, whatever the score; otherwise at least 70 gives
    "High (50,000+)", 50 to 69 "Good (30,000+)", 30 to 49
    "Moderate (15,000+)" and below 30 "Low (5,000+)". *)
Theorem coverage_and_attendance_tiers (m : Match) :
  let importance := Importance.calculate_match_importance m in
  let marquee :=
    Py.any_contained Importance.large_stadiums (Py.get_str (venue m) "") in
  (70 <= importance ->
     Importance.determine_tv_coverage m = "Prime Time TV") /\
  (50 <= importance < 70 ->
     Importance.determine_tv_coverage m = "Major Sports Networks") /\
  (30 <= importance < 50 ->
     Importance.determine_tv_coverage m = "Sports Channels") /\
  (importance < 30 ->
     Importance.determine_tv_coverage m = "League Broadcasting" \/
     Importance.determine_tv_coverage m = "Streaming/Regional") /\
  (marquee = true ->
     Importance.estimate_attendance m = "Sold Out (70,000+)") /\
  (marquee = false ->
     (70 <= importance ->
        Importance.estimate_attendance m = "High (50,000+)") /\
     (50 <= importance < 70 ->
        Importance.estimate_attendance m = "Good (30,000+)") /\
     (30 <= importance < 50 ->
        Importance.estimate_attendance m = "Moderate (15,000+)") /\
     (importance < 30 ->
        Importance.estimate_attendance m = "Low (5,000+)")).
Proof.
  intros importance marquee.
  unfold Importance.determine_tv_coverage, Importance.estimate_attendance.
  fold importance. fold marquee.
  destruct (Z.leb_spec 70 importance), (Z.leb_spec 50 importance),
           (Z.leb_spec 30 importance);
    try lia;
    (repeat split; intros; try lia; try reflexivity;
     try (destruct marquee; [discriminate | reflexivity]);
     try (subst marquee;
          match goal with H : _ = true |- _ => rewrite H end; reflexivity);
     try (destruct (Py.str_in_list _ _); [now left | now right])).
Qed.

Lemma coverage_and_attendance_tiers_witness :
  Importance.determine_tv_coverage Samples.derby_at_old_trafford
    = "Prime Time TV" /\
  Importance.estimate_attendance Samples.derby_at_old_trafford
    = "Sold Out (70,000+)" /\
  Importance.estimate_attendance Samples.plain_match = "Low (5,000+)".
Proof.
  pose proof (coverage_and_attendance_tiers Samples.derby_at_old_trafford)
    as (Htv & _ & _ & _ & Hsold & _).
  pose proof (coverage_and_attendance_tiers Samples.plain_match)
    as (_ & _ & _ & _ & _ & Hplain).
  split; [apply Htv; vm_compute; discriminate|].
  split; [apply Hsold; reflexivity|].
  apply Hplain; [reflexivity | reflexivity].
Defined.

(** ** Match classifier *)

Section ClassifierFacts.
Import Classifier ClassifierSpec.

Variable iso_date : string -> option Z.
Variable today : Z.

Abbreviation derive := (derive_match_date iso_date).
Abbreviation step := (process_match iso_date today).
Abbreviation leb := match_leb.

(** One iteration appends the match to the list of its day class, if it
  has one. *)
Lemma process_match_step acc (m : Match) :
  step acc m
  = (fst acc ++ map (enhanced iso_date today) (filter (on_day iso_date today) [m]),
     snd acc ++ map (enhanced iso_date today) (filter (after_day iso_date today) [m])).
Proof.
  destruct acc as [ts fs].
  unfold process_match, on_day, after_day, enhanced. cbn [filter map fst snd].
  destruct (derive m) as [d|] eqn:Hd; cbn [map]; [|now rewrite !app_nil_r].
  destruct (Z.ltb_spec d today), (Z.eqb_spec d today), (Z.ltb_spec today d);
    try lia; cbn [map]; rewrite ?Hd, ?app_nil_r; subst; reflexivity.
Qed.

(** The loop appends to each list exactly the matches of its day class,
    in input order. *)
Lemma process_match_fold (all : list Match) acc :
  fold_left step all acc
  = (fst acc ++ map (enhanced iso_date today) (filter (on_day iso_date today) all),
     snd acc ++ map (enhanced iso_date today) (filter (after_day iso_date today) all)).
Proof.
  revert acc. induction all as [|m all IH]; intros acc.
  - destruct acc. simpl. now rewrite !app_nil_r.
  - change (m :: all) with ([m] ++ all) at 2 3.
    rewrite !filter_app, !map_app, !app_assoc.
    cbn [fold_left]. rewrite IH, process_match_step. reflexivity.
Qed.

Lemma process_matches_partition (all : list Match) :
  process_matches iso_date today all
  = (map (enhanced iso_date today) (filter (on_day iso_date today) all),
     map (enhanced iso_date today) (filter (after_day iso_date today) all)).
Proof. unfold process_matches. now rewrite process_match_fold. Qed.

Lemma undated_iff (m : Match) : undated iso_date m <-> derive m = None.
Proof.
  unfold undated, derive_match_date.
  destruct (date m); [tauto|]. destruct (utcDate m); tauto.
Qed.

Lemma process_match_undated acc (m : Match) :
  derive m = None -> step acc m = acc.
Proof. intros H. unfold process_match. now rewrite H. Qed.

Lemma process_matches_skip (l1 l2 : list Match) (m : Match) :
  derive m = None ->
  process_matches iso_date today (l1 ++ m :: l2)
  = process_matches iso_date today (l1 ++ l2).
Proof.
  intros H. unfold process_matches. rewrite !fold_left_app. simpl.
  now rewrite process_match_undated.
Qed.

(** The comparator. *)
Lemma key_leb_total k1 k2 : key_leb k1 k2 = false -> key_leb k2 k1 = true.
Proof.
  destruct k1 as [[a1 b1] c1], k2 as [[a2 b2] c2]. unfold key_leb, Py.str_leb.
  destruct (Z.ltb_spec a1 a2), (Z.ltb_spec a2 a1); try lia; try discriminate;
    try reflexivity.
  destruct (Z.ltb_spec b1 b2), (Z.ltb_spec b2 b1); try lia; try discriminate;
    try reflexivity.
  intros Hs. destruct (String.leb_total c1 c2); congruence.
Qed.

Lemma match_leb_total x y : leb x y = false -> leb y x = true.
Proof. apply key_leb_total. Qed.

Lemma match_leb_ranks x y : leb x y = true <-> ranks_before x y.
Proof.
  unfold match_leb, sort_key, key_leb, ranks_before, Py.str_leb. simpl.
  destruct (Z.ltb_spec (- importance_score (enhanced_info x))
                       (- importance_score (enhanced_info y))).
  { split; [intros _; left; lia | reflexivity]. }
  destruct (Z.ltb_spec (- importance_score (enhanced_info y))
                       (- importance_score (enhanced_info x))).
  { split; [discriminate | intros [?|[? _]]; lia]. }
  destruct (Z.ltb_spec (days_from_today (enhanced_info x))
                       (days_from_today (enhanced_info y))).
  { split; [intros _; right; split; [lia | left; lia] | reflexivity]. }
  destruct (Z.ltb_spec (days_from_today (enhanced_info y))
                       (days_from_today (enhanced_info x))).
  { split; [discriminate | intros [?|[? [?|[? _]]]]; lia]. }
  split.
  - intros Hs. right. split; [lia|]. right. split; [lia | exact Hs].
  - intros [?|[? [?|[_ Hs]]]]; [lia | lia | exact Hs].
Qed.

Lemma Sorted_ranks (l : list EnhancedMatch) :
  Sorted (fun x y => leb x y = true) l <-> Sorted ranks_before l.
Proof.
  split; intros H; induction H as [|x l Hs IH Hhd]; constructor; auto;
    destruct Hhd; constructor; now apply match_leb_ranks.
Qed.

Lemma ranks_before_trans : Transitive ranks_before.
Proof.
  intros x y z. unfold ranks_before. cbv zeta.
  intros [H1|[E1 [D1|[F1 S1]]]] [H2|[E2 [D2|[F2 S2]]]];
    try (left; lia); try (right; split; [lia|]; left; lia).
  right. split; [lia|]. right. split; [lia|].
  now apply string_leb_trans with (b := Py.get_str (utcDate (base y)) "").
Qed.

(** What the handler returns, in closed form. *)
Lemma get_matches_today_closed (all : list Match) :
  let r := get_matches_today iso_date today all in
  today_matches r = fst (process_matches iso_date today all) /\
  future_matches r = snd (process_matches iso_date today all) /\
  matches r = Py.sort leb (today_matches r ++ future_matches r) /\
  featured_matches r = firstn 6 (matches r) /\
  featured_matches r = Py.sort leb (Py.slice_to 6 (matches r)) /\
  total_matches r = List.length (matches r) /\
  total_unique r = List.length (matches r).
Proof.
  cbv zeta. unfold get_matches_today.
  destruct (process_matches iso_date today all) as [ts fs].
  cbn [today_matches future_matches matches featured_matches total_matches
       total_unique fst snd].
  set (final := Py.sort leb (ts ++ fs)).
  assert (Hs : Sorted (fun x y => leb x y = true) final)
    by apply sort_Sorted, match_leb_total.
  assert (Hid : Py.sort leb final = final) by now apply sort_sorted_id.
  assert (Hid6 : Py.sort leb (firstn 6 final) = firstn 6 final)
    by now apply sort_sorted_id, firstn_Sorted.
  unfold Py.slice_to.
  destruct (Nat.leb_spec 6 (List.length final)) as [Hge|Hlt]; cbn [negb].
  - rewrite !Hid6. repeat split; try reflexivity.
    unfold final. now rewrite sort_length.
  - rewrite !Hid. rewrite (firstn_all2 final) by lia. rewrite !Hid.
    repeat split; try reflexivity.
    unfold final. now rewrite sort_length.
Qed.

(** Where the members of the two lists come from. *)
Lemma today_matches_members (all : list Match) (e : EnhancedMatch) :
  In e (today_matches (get_matches_today iso_date today all)) ->
  exists m, In m all /\ derive m = Some today /\ e = enhance today m today.
Proof.
  destruct (get_matches_today_closed all) as (Ht & _). rewrite Ht.
  rewrite process_matches_partition. cbn [fst].
  intros He. apply in_map_iff in He as (m & <- & Hm).
  apply filter_In in Hm as (Hin & Hon). exists m.
  unfold on_day, enhanced in *.
  destruct (derive m) as [d|]; [|discriminate].
  apply Z.eqb_eq in Hon. subst d. auto.
Qed.

Lemma future_matches_members (all : list Match) (e : EnhancedMatch) :
  In e (future_matches (get_matches_today iso_date today all)) ->
  exists m d, In m all /\ derive m = Some d /\ today < d /\
              e = enhance today m d.
Proof.
  destruct (get_matches_today_closed all) as (_ & Hf & _). rewrite Hf.
  rewrite process_matches_partition. cbn [snd].
  intros He. apply in_map_iff in He as (m & <- & Hm).
  apply filter_In in Hm as (Hin & Hon). exists m.
  unfold after_day, enhanced in *.
  destruct (derive m) as [d|]; [|discriminate].
  apply Z.ltb_lt in Hon. exists d. auto.
Qed.

End ClassifierFacts.

(** C4.  Whatever the input, a match whose date lies strictly before today
    appears in no list; every element of [today_matches] carries today's
    date and every element of [future_matches] a strictly later one; and
    every match dated today or later is kept, in the list of its day. *)
Theorem classifier_partitions_by_date
    (iso_date : string -> option Z) (today : Z) (all_matches : list Match) :
  let r := Classifier.get_matches_today iso_date today all_matches in
  let bases := map Classifier.base in
  (forall m d,
      Classifier.derive_match_date iso_date m = Some d -> d < today ->
      ~ In m (bases (Classifier.today_matches r)) /\
      ~ In m (bases (Classifier.future_matches r)) /\
      ~ In m (bases (Classifier.matches r)) /\
      ~ In m (bases (Classifier.featured_matches r))) /\
  (forall e,
      In e (Classifier.today_matches r) ->
      In (Classifier.base e) all_matches /\
      Classifier.derive_match_date iso_date (Classifier.base e) = Some today /\
      Classifier.match_date (Classifier.enhanced_info e) = today /\
      Classifier.days_from_today (Classifier.enhanced_info e) = 0) /\
  (forall e,
      In e (Classifier.future_matches r) ->
      In (Classifier.base e) all_matches /\
      exists d,
        Classifier.derive_match_date iso_date (Classifier.base e) = Some d /\
        today < d /\
        Classifier.match_date (Classifier.enhanced_info e) = d /\
        Classifier.days_from_today (Classifier.enhanced_info e) = d - today) /\
  (forall m d,
      In m all_matches ->
      Classifier.derive_match_date iso_date m = Some d ->
      (d = today -> In m (bases (Classifier.today_matches r))) /\
      (today < d -> In m (bases (Classifier.future_matches r)))).
Proof.
  intros r bases.
  destruct (get_matches_today_closed iso_date today all_matches)
    as (Ht & Hf & Hm & Hfeat & _).
  fold r in Ht, Hf, Hm, Hfeat.
  rewrite process_matches_partition in Ht, Hf. simpl in Ht, Hf.
  pose proof (today_matches_members iso_date today all_matches) as Htoday.
  pose proof (future_matches_members iso_date today all_matches) as Hfuture.
  fold r in Htoday, Hfuture.
  assert (Hall : forall m d,
            Classifier.derive_match_date iso_date m = Some d -> d < today ->
            ~ In m (bases (Classifier.today_matches r
                           ++ Classifier.future_matches r))).
  { intros m d Hd Hlt Hin. unfold bases in Hin.
    apply in_map_iff in Hin as (e & <- & He).
    apply in_app_or in He as [He|He].
    - apply Htoday in He as (m' & _ & Hd' & ->). simpl in Hd.
      rewrite Hd' in Hd. injection Hd as <-. lia.
    - apply Hfuture in He as (m' & d' & _ & Hd' & Hlt' & ->). simpl in Hd.
      rewrite Hd' in Hd. injection Hd as <-. lia. }
  split; [|split; [|split]].
  - intros m d Hd Hlt. specialize (Hall m d Hd Hlt).
    unfold bases in *. rewrite map_app in Hall.
    assert (Hnm : ~ In m (map Classifier.base (Classifier.matches r))).
    { intros Hin. apply Hall. rewrite <- map_app.
      apply in_map_iff in Hin as (e & <- & He). apply in_map.
      rewrite Hm in He. now apply sort_In in He. }
    repeat split.
    + intros Hin. apply Hall, in_or_app. now left.
    + intros Hin. apply Hall, in_or_app. now right.
    + exact Hnm.
    + intros Hin. apply Hnm.
      apply in_map_iff in Hin as (e & <- & He). apply in_map.
      rewrite Hfeat in He. now apply firstn_In in He.
  - intros e He. apply Htoday in He as (m & Hin & Hd & ->). simpl.
    repeat split; auto. lia.
  - intros e He. apply Hfuture in He as (m & d & Hin & Hd & Hlt & ->). simpl.
    split; [exact Hin|]. exists d. auto.
  - intros m d Hin Hd. unfold bases. split; intros Hcase.
    + rewrite Ht. rewrite map_map.
      apply in_map_iff. exists m. split.
      * unfold ClassifierSpec.enhanced. rewrite Hd. reflexivity.
      * apply filter_In. split; [exact Hin|].
        unfold ClassifierSpec.on_day. rewrite Hd. now apply Z.eqb_eq.
    + rewrite Hf. rewrite map_map.
      apply in_map_iff. exists m. split.
      * unfold ClassifierSpec.enhanced. rewrite Hd. reflexivity.
      * apply filter_In. split; [exact Hin|].
        unfold ClassifierSpec.after_day. rewrite Hd. now apply Z.ltb_lt.
Qed.

Lemma classifier_partitions_by_date_witness :
  ~ In Samples.league_yesterday
      (map Classifier.base
         (Classifier.matches
            (Classifier.get_matches_today RefDates.iso_date Samples.march_10
               [Samples.league_yesterday; Samples.plain_match;
                Samples.league_tomorrow]))) /\
  In Samples.plain_match
      (map Classifier.base
         (Classifier.today_matches
            (Classifier.get_matches_today RefDates.iso_date Samples.march_10
               [Samples.league_yesterday; Samples.plain_match;
                Samples.league_tomorrow]))).
Proof.
  pose proof (classifier_partitions_by_date RefDates.iso_date Samples.march_10
                [Samples.league_yesterday; Samples.plain_match;
                 Samples.league_tomorrow]) as H.
  cbv zeta in H. destruct H as (Hdrop & _ & _ & Hkeep).
  split.
  - exact (proj1 (proj2 (proj2
             (Hdrop Samples.league_yesterday 739319 eq_refl eq_refl)))).
  - refine (proj1 (Hkeep Samples.plain_match 739320 _ eq_refl) eq_refl).
    right. left. reflexivity.
Defined.

(** C10.  A record whose date field is absent or does not parse leaves no
    trace: the response is the one the handler gives without the record, and
    the record is in none of the lists. *)
Theorem undated_match_is_omitted
    (iso_date : string -> option Z) (today : Z)
    (before after : list Match) (m : Match) :
  ClassifierSpec.undated iso_date m ->
  let r := Classifier.get_matches_today iso_date today (before ++ m :: after) in
  r = Classifier.get_matches_today iso_date today (before ++ after) /\
  ~ In m (map Classifier.base (Classifier.matches r)) /\
  ~ In m (map Classifier.base (Classifier.today_matches r)) /\
  ~ In m (map Classifier.base (Classifier.future_matches r)) /\
  ~ In m (map Classifier.base (Classifier.featured_matches r)).
Proof.
  intros Hund r. apply undated_iff in Hund.
  assert (Hr : r = Classifier.get_matches_today iso_date today (before ++ after)).
  { unfold r, Classifier.get_matches_today.
    now rewrite (process_matches_skip iso_date today before after m Hund). }
  split; [exact Hr|].
  pose proof (today_matches_members iso_date today (before ++ m :: after))
    as Htoday.
  pose proof (future_matches_members iso_date today (before ++ m :: after))
    as Hfuture.
  fold r in Htoday, Hfuture.
  destruct (get_matches_today_closed iso_date today (before ++ m :: after))
    as (_ & _ & Hm & Hfeat & _).
  fold r in Hm, Hfeat.
  assert (Hts : ~ In m (map Classifier.base (Classifier.today_matches r))).
  { intros Hin. apply in_map_iff in Hin as (e & <- & He).
    apply Htoday in He as (m' & _ & Hd & ->). simpl in Hund. congruence. }
  assert (Hfs : ~ In m (map Classifier.base (Classifier.future_matches r))).
  { intros Hin. apply in_map_iff in Hin as (e & <- & He).
    apply Hfuture in He as (m' & d & _ & Hd & _ & ->). simpl in Hund.
    congruence. }
  assert (Hms : ~ In m (map Classifier.base (Classifier.matches r))).
  { intros Hin. apply in_map_iff in Hin as (e & <- & He).
    rewrite Hm in He. apply sort_In in He. apply in_app_or in He as [He|He].
    - apply Hts. now apply in_map.
    - apply Hfs. now apply in_map. }
  repeat split; auto.
  intros Hin. apply Hms. apply in_map_iff in Hin as (e & <- & He).
  apply in_map. rewrite Hfeat in He. now apply firstn_In in He.
Qed.

Lemma undated_match_is_omitted_witness :
  Classifier.get_matches_today RefDates.iso_date Samples.march_10
    ([Samples.plain_match] ++ Samples.kickoff_tbd :: [Samples.league_tomorrow])
  = Classifier.get_matches_today RefDates.iso_date Samples.march_10
      ([Samples.plain_match] ++ [Samples.league_tomorrow]).
Proof.
  apply (undated_match_is_omitted RefDates.iso_date Samples.march_10
           [Samples.plain_match] [Samples.league_tomorrow] Samples.kickoff_tbd).
  reflexivity.
Defined.

(** C5.  The featured list has at most six entries; the full list and the
    featured list are both ordered by descending importance, then ascending
    days-from-today, then ascending kickoff string; the featured list is the
    first six entries of the full list, every one of them ranking in front
    of every entry left out; and sorting that slice again with the same
    comparator, as the handler does, leaves it as it is. *)
Theorem featured_is_sorted_prefix
    (iso_date : string -> option Z) (today : Z) (all_matches : list Match) :
  let r := Classifier.get_matches_today iso_date today all_matches in
  (List.length (Classifier.featured_matches r) <= 6)%nat /\
  StronglySorted ClassifierSpec.ranks_before (Classifier.matches r) /\
  StronglySorted ClassifierSpec.ranks_before (Classifier.featured_matches r) /\
  Classifier.featured_matches r = firstn 6 (Classifier.matches r) /\
  (forall x y,
      In x (Classifier.featured_matches r) ->
      In y (skipn 6 (Classifier.matches r)) ->
      ClassifierSpec.ranks_before x y) /\
  Classifier.featured_matches r
  = Py.sort Classifier.match_leb (Py.slice_to 6 (Classifier.matches r)) /\
  Permutation (Classifier.matches r)
    (Classifier.today_matches r ++ Classifier.future_matches r).
Proof.
  intros r.
  destruct (get_matches_today_closed iso_date today all_matches)
    as (_ & _ & Hm & Hfeat & Hre & _).
  fold r in Hm, Hfeat, Hre.
  assert (Hs : StronglySorted ClassifierSpec.ranks_before
                 (Classifier.matches r)).
  { apply Sorted_StronglySorted; [apply ranks_before_trans|].
    apply Sorted_ranks. rewrite Hm. apply sort_Sorted, match_leb_total. }
  split; [rewrite Hfeat; apply firstn_le_length|].
  split; [exact Hs|].
  split; [rewrite Hfeat; now apply firstn_StronglySorted|].
  split; [exact Hfeat|].
  split.
  { intros x y Hx Hy. rewrite Hfeat in Hx.
    apply (StronglySorted_app_cross _ (firstn 6 (Classifier.matches r))
             (skipn 6 (Classifier.matches r))); auto.
    now rewrite firstn_skipn. }
  split; [exact Hre|].
  rewrite Hm. symmetry. apply sort_perm.
Qed.

(** C1.  The handler builds [today_matches + future_matches] and then sorts
    the result by importance first, which undoes the todays-first order the
    specification (and the comment above the concatenation) asks for.  With
    a plain fixture today and a Premier League fixture tomorrow the returned
    list starts with tomorrow's match. *)
Theorem todays_first_order_lost_by_sort :
  let r := Classifier.get_matches_today RefDates.iso_date Samples.march_10
             [Samples.plain_match; Samples.league_tomorrow] in
  map Classifier.base (Classifier.today_matches r) = [Samples.plain_match] /\
  map Classifier.base (Classifier.future_matches r)
    = [Samples.league_tomorrow] /\
  map Classifier.base (Classifier.matches r)
    = [Samples.league_tomorrow; Samples.plain_match] /\
  Classifier.matches r
    <> Classifier.today_matches r ++ Classifier.future_matches r.
Proof.
  cbv zeta. repeat split; try (vm_compute; reflexivity).
  intros H. apply (f_equal (map Classifier.base)) in H.
  vm_compute in H. discriminate H.
Qed.

(** ** Competition lifecycle analyzer *)

Lemma ident_eqb_eq (a b : ident) : ident_eqb a b = true <-> a = b.
Proof.
  destruct a as [x|x], b as [y|y]; simpl;
    try (split; [discriminate | intros H; discriminate H]).
  - rewrite Z.eqb_eq. split; [now intros -> | now intros [= ->]].
  - rewrite String.eqb_eq. split; [now intros -> | now intros [= ->]].
Qed.

Lemma opt_ident_eqb_eq (a b : option ident) :
  opt_ident_eqb a b = true <-> a = b.
Proof.
  destruct a as [x|], b as [y|]; simpl;
    try (split; [discriminate | intros H; discriminate H]).
  - rewrite ident_eqb_eq. split; [now intros -> | now intros [= ->]].
  - tauto.
Qed.

Section CompetitionsFacts.
Import Competitions CompetitionsSpec.

Variable iso_instant : string -> option Z.
Variable current_date : Z.
Variable team_id : Z.

(** The bucket holds at least one match. *)
Let populated (kv : option ident * CompData) : Prop :=
  cd_matches (snd kv) <> [].

(** The bucket's status is the one its matches call for. *)
Let classified (kv : option ident * CompData) : Prop :=
  cd_status (snd kv) = lifecycle current_date (cd_matches (snd kv)).

Lemma has_bucket_In (comp_id : option ident) (cs : buckets) :
  has_bucket comp_id cs = true <-> In comp_id (map fst cs).
Proof.
  unfold has_bucket. rewrite existsb_exists. split.
  - intros ([k d] & Hin & Heq). simpl in Heq.
    apply opt_ident_eqb_eq in Heq. subst k.
    now apply (in_map fst) in Hin.
  - intros Hin. apply in_map_iff in Hin as ([k d] & <- & Hin).
    exists (k, d). split; [exact Hin|]. now apply opt_ident_eqb_eq.
Qed.

Lemma append_match_keys comp_id entry (cs : buckets) :
  map fst (append_match comp_id entry cs) = map fst cs.
Proof.
  induction cs as [|[k d] cs IH]; simpl; [reflexivity|].
  destruct (opt_ident_eqb comp_id k); simpl; [reflexivity | now rewrite IH].
Qed.

Lemma append_match_populated comp_id entry (cs : buckets) :
  Forall populated cs -> Forall populated (append_match comp_id entry cs).
Proof.
  induction 1 as [|[k d] cs Hd Hcs IH]; simpl; [constructor|].
  destruct (opt_ident_eqb comp_id k); constructor; auto.
  unfold populated. simpl. intros H. now apply app_eq_nil in H as [_ H].
Qed.

(** A bucket that was just created receives the match. *)
Lemma append_match_fresh comp_id entry (cs : buckets) (d : CompData) :
  has_bucket comp_id cs = false ->
  append_match comp_id entry (cs ++ [(comp_id, d)])
  = cs ++ [(comp_id, with_matches d (cd_matches d ++ [entry]))].
Proof.
  induction cs as [|[k d0] cs IH]; simpl; intros Hno.
  - assert (H : opt_ident_eqb comp_id comp_id = true)
      by now apply opt_ident_eqb_eq.
    now rewrite H.
  - apply orb_false_iff in Hno as [Hk Hno]. rewrite Hk. now rewrite IH.
Qed.

Lemma group_match_invariant (cs cs' : buckets) (m : Match) :
  group_match iso_instant team_id cs m = Some cs' ->
  NoDup (map fst cs) -> Forall populated cs ->
  NoDup (map fst cs') /\ Forall populated cs'.
Proof.
  unfold group_match. intros Hg Hnd Hpop.
  destruct (utcDate m) as [s|]; [|discriminate].
  destruct (iso_instant s) as [match_date|]; [|discriminate].
  injection Hg as <-.
  set (comp_id := match competition m with
                  | Some c => competition_id c
                  | None => None
                  end).
  destruct (has_bucket comp_id cs) eqn:Hhas.
  - rewrite append_match_keys. split; [exact Hnd|].
    now apply append_match_populated.
  - rewrite append_match_fresh by exact Hhas. split.
    + rewrite map_app. simpl. apply NoDup_app; [exact Hnd | | ].
      * repeat constructor. intros [].
      * intros k Hk [<-|[]]. apply has_bucket_In in Hk. congruence.
    + apply Forall_app. split; [exact Hpop|].
      repeat constructor. unfold populated. simpl. discriminate.
Qed.

Lemma group_matches_invariant (ms : list Match) (cs cs' : buckets) :
  group_matches iso_instant team_id cs ms = Some cs' ->
  NoDup (map fst cs) -> Forall populated cs ->
  NoDup (map fst cs') /\ Forall populated cs'.
Proof.
  revert cs. induction ms as [|m ms IH]; simpl; intros cs Hg Hnd Hpop.
  - injection Hg as <-. auto.
  - destruct (group_match iso_instant team_id cs m) as [cs1|] eqn:H1;
      [|discriminate].
    destruct (group_match_invariant _ _ _ H1 Hnd Hpop).
    now apply (IH cs1).
Qed.

(** Grouping fails only on a kickoff time that is missing or unreadable. *)
Lemma group_matches_returns (ms : list Match) (cs : buckets) :
  Forall (fun m => exists s t, utcDate m = Some s /\ iso_instant s = Some t) ms ->
  exists cs', group_matches iso_instant team_id cs ms = Some cs'.
Proof.
  intros H. revert cs. induction H as [|m ms (s & t & Hs & Ht) _ IH];
    intros cs; simpl.
  - now exists cs.
  - unfold group_match. rewrite Hs, Ht. apply IH.
Qed.

Lemma analyze_bucket_spec (d d' : CompData) (out out' : Lists) :
  cd_matches d <> [] ->
  analyze_bucket current_date d out = (d', out') ->
  cd_matches d' <> [] /\
  cd_status d' = lifecycle current_date (cd_matches d') /\
  active_competitions out'
  = active_competitions out ++ filter (has_status "active") [d'] /\
  upcoming_competitions out'
  = upcoming_competitions out ++ filter (has_status "upcoming") [d'] /\
  completed_competitions out'
  = completed_competitions out ++ filter (has_status "completed") [d'].
Proof.
  intros Hne. unfold analyze_bucket.
  destruct (cd_matches d) as [|m0 ms0] eqn:Hms; [congruence|].
  set (matches := Py.sort (date_leb) (m0 :: ms0)).
  assert (Hsorted_ne : matches <> []).
  { intros Hnil. pose proof (sort_length date_leb (m0 :: ms0)) as Hlen.
    fold matches in Hlen. rewrite Hnil in Hlen. discriminate. }
  unfold lifecycle.
  destruct (filter (is_upcoming current_date) matches) as [|u us] eqn:Hup;
    destruct (filter (is_recent current_date) matches) as [|r rs] eqn:Hrc;
    intros [= <- <-]; cbn [cd_matches cd_status active_competitions
                           upcoming_competitions completed_competitions];
    rewrite Hup, Hrc; cbn; rewrite ?app_nil_r; auto.
Qed.

Lemma analyze_buckets_spec (cs cs' : buckets) (out out' : Lists) :
  Forall populated cs ->
  analyze_buckets current_date cs out = (cs', out') ->
  map fst cs' = map fst cs /\
  Forall populated cs' /\
  Forall classified cs' /\
  active_competitions out'
  = active_competitions out ++ filter (has_status "active") (map snd cs') /\
  upcoming_competitions out'
  = upcoming_competitions out ++ filter (has_status "upcoming") (map snd cs') /\
  completed_competitions out'
  = completed_competitions out
    ++ filter (has_status "completed") (map snd cs').
Proof.
  intros Hpop. revert out cs' out'.
  induction Hpop as [|[k d] cs Hd Hcs IH]; intros out cs' out'; simpl.
  - intros [= <- <-]. simpl. rewrite !app_nil_r. repeat split; constructor.
  - destruct (analyze_bucket current_date d out) as [d1 out1] eqn:H1.
    destruct (analyze_buckets current_date cs out1) as [cs2 out2] eqn:H2.
    intros [= <- <-].
    destruct (analyze_bucket_spec _ _ _ _ Hd H1) as (Hne & Hst & Ha & Hu & Hc).
    destruct (IH _ _ _ H2) as (Hk & Hp & Hcl & Ha2 & Hu2 & Hc2).
    split; [simpl; now rewrite Hk|].
    split; [now constructor|].
    split; [now constructor|].
    rewrite Ha2, Hu2, Hc2, Ha, Hu, Hc.
    change (map snd ((k, d1) :: cs2)) with ([d1] ++ map snd cs2).
    rewrite !filter_app, !app_assoc. auto.
Qed.

(** Every status is one of four, so the four classes share out the
    buckets. *)
Lemma status_classes_count (cs : buckets) :
  Forall classified cs ->
  (List.length (filter (has_status "active") (map snd cs))
   + List.length (filter (has_status "upcoming") (map snd cs))
   + List.length (filter (has_status "completed") (map snd cs))
   + List.length (filter (has_status "unknown") (map snd cs))
   = List.length cs)%nat.
Proof.
  induction 1 as [|[k d] cs Hd Hcs IH]; [reflexivity|].
  unfold classified, lifecycle in Hd. simpl in Hd.
  cbn [map snd filter].
  assert (Hs : forall s, has_status s d = String.eqb (cd_status d) s)
    by reflexivity.
  rewrite !Hs.
  destruct (filter (is_upcoming current_date) (cd_matches d));
    destruct (filter (is_recent current_date) (cd_matches d));
    rewrite Hd;
    repeat match goal with
    | |- context [String.eqb ?a ?b] =>
        let v := eval vm_compute in (String.eqb a b) in
        change (String.eqb a b) with v
    end;
    cbn [List.length]; lia.
Qed.

End CompetitionsFacts.

(** C2, as stated, fails: a competition whose only match is postponed has
    one match, is counted in [total_competitions], and is in none of the
    three lists. *)
Lemma dropped_bucket_counterexample :
  Competitions.analyze_team_competitions
    RefDates.iso_instant Samples.noon_march_10 66 [Samples.postponed_match]
  = Some {| Competitions.active := [];
            Competitions.upcoming := [];
            Competitions.completed := [];
            Competitions.total_competitions := 1 |} /\
  option_map
    (fun x => map (fun kv => List.length (Competitions.cd_matches (snd kv)))
                  (fst x))
    (Competitions.analysed_buckets
       RefDates.iso_instant Samples.noon_march_10 66 [Samples.postponed_match])
  = Some [1%nat].
Proof. split; vm_compute; reflexivity. Qed.

(** C2, amended.  When every kickoff time can be read, the analysis returns;
    there is one bucket per competition id and every bucket holds at least
    one match.  A bucket's status is decided by its matches: active with both
    an upcoming and a recent match, upcoming or completed with only the one
    kind, and unchanged ("unknown") with neither.  Each result list holds
    exactly the buckets of its status, so no bucket is in two lists, a
    bucket is in one list exactly when it has an upcoming or a recent match,
    and a bucket with neither is in no list although it has matches; all
    buckets count in [total_competitions]. *)
Theorem competition_buckets_classified
    (iso_instant : string -> option Z) (current_date team_id : Z)
    (ms : list Match) :
  Forall (fun m => exists s t, utcDate m = Some s /\ iso_instant s = Some t)
         ms ->
  exists cs out r,
    Competitions.analysed_buckets iso_instant current_date team_id ms
    = Some (cs, out) /\
    Competitions.analyze_team_competitions iso_instant current_date team_id ms
    = Some r /\
    NoDup (map fst cs) /\
    Forall (fun kv => Competitions.cd_matches (snd kv) <> []) cs /\
    Forall (fun kv =>
              Competitions.cd_status (snd kv)
              = CompetitionsSpec.lifecycle current_date
                  (Competitions.cd_matches (snd kv))) cs /\
    Permutation (Competitions.active r)
      (filter (CompetitionsSpec.has_status "active") (map snd cs)) /\
    Permutation (Competitions.upcoming r)
      (filter (CompetitionsSpec.has_status "upcoming") (map snd cs)) /\
    Permutation (Competitions.completed r)
      (filter (CompetitionsSpec.has_status "completed") (map snd cs)) /\
    (forall d, In d (Competitions.active r) ->
               ~ In d (Competitions.upcoming r) /\
               ~ In d (Competitions.completed r)) /\
    (forall d, In d (Competitions.upcoming r) ->
               ~ In d (Competitions.completed r)) /\
    Competitions.total_competitions r = List.length cs /\
    (List.length (Competitions.active r)
     + List.length (Competitions.upcoming r)
     + List.length (Competitions.completed r)
     + List.length
         (filter (CompetitionsSpec.has_status "unknown") (map snd cs))
     = List.length cs)%nat.
Proof.
  intros Hdates.
  destruct (group_matches_returns iso_instant team_id ms [] Hdates)
    as [cs0 Hg].
  destruct (group_matches_invariant iso_instant team_id ms [] cs0 Hg)
    as [Hnd0 Hpop0]; [constructor | constructor |].
  destruct (Competitions.analyze_buckets current_date cs0
              (Competitions.mkLists [] [] [])) as [cs out] eqn:Ha.
  destruct (analyze_buckets_spec current_date cs0 cs _ out Hpop0 Ha)
    as (Hk & Hpop & Hcl & Hact & Hupc & Hcmp).
  simpl in Hact, Hupc, Hcmp.
  exists cs, out.
  unfold Competitions.analysed_buckets,
    Competitions.analyze_team_competitions, Competitions.analysed_buckets.
  rewrite Hg, Ha.
  eexists. split; [reflexivity|]. split; [reflexivity|].
  cbn [Competitions.active Competitions.upcoming Competitions.completed
       Competitions.total_competitions].
  unfold Competitions.sort_competitions.
  assert (Pa : Permutation
                 (Py.sort (Competitions.competition_leb current_date)
                    (Competitions.active_competitions out))
                 (filter (CompetitionsSpec.has_status "active") (map snd cs)))
    by (rewrite <- sort_perm; now rewrite Hact).
  assert (Pu : Permutation
                 (Py.sort (Competitions.competition_leb current_date)
                    (Competitions.upcoming_competitions out))
                 (filter (CompetitionsSpec.has_status "upcoming") (map snd cs)))
    by (rewrite <- sort_perm; now rewrite Hupc).
  assert (Pc : Permutation
                 (Py.sort (Competitions.competition_leb current_date)
                    (Competitions.completed_competitions out))
                 (filter (CompetitionsSpec.has_status "completed") (map snd cs)))
    by (rewrite <- sort_perm; now rewrite Hcmp).
  assert (Hst : forall s l d,
            Permutation l (filter (CompetitionsSpec.has_status s) (map snd cs)) ->
            In d l -> Competitions.cd_status d = s).
  { intros s l d Hp Hin. apply (Permutation_in _ Hp) in Hin.
    apply filter_In in Hin as [_ Hs]. now apply String.eqb_eq in Hs. }
  split; [now rewrite Hk|].
  split; [exact Hpop|]. split; [exact Hcl|].
  split; [exact Pa|]. split; [exact Pu|]. split; [exact Pc|].
  split.
  { intros d Hd. pose proof (Hst _ _ _ Pa Hd) as Hs. split; intros Hd'.
    - pose proof (Hst _ _ _ Pu Hd') as Hs'. rewrite Hs in Hs'. discriminate.
    - pose proof (Hst _ _ _ Pc Hd') as Hs'. rewrite Hs in Hs'. discriminate. }
  split.
  { intros d Hd Hd'. pose proof (Hst _ _ _ Pu Hd) as Hs.
    pose proof (Hst _ _ _ Pc Hd') as Hs'. rewrite Hs in Hs'. discriminate. }
  split; [reflexivity|].
  rewrite (Permutation_length Pa), (Permutation_length Pu),
    (Permutation_length Pc).
  now apply (status_classes_count current_date).
Qed.

Lemma competition_buckets_classified_witness :
  exists cs out r,
    Competitions.analysed_buckets RefDates.iso_instant Samples.noon_march_10 66
      [Samples.league_played; Samples.postponed_match; Samples.league_to_come]
    = Some (cs, out) /\
    Competitions.analyze_team_competitions
      RefDates.iso_instant Samples.noon_march_10 66
      [Samples.league_played; Samples.postponed_match; Samples.league_to_come]
    = Some r /\
    List.length (Competitions.active r) = 1%nat.
Proof.
  destruct (competition_buckets_classified
              RefDates.iso_instant Samples.noon_march_10 66
              [Samples.league_played; Samples.postponed_match;
               Samples.league_to_come])
    as (cs & out & r & Hb & Hr & _).
  - repeat constructor; eexists; eexists; split; reflexivity.
  - exists cs, out, r. split; [exact Hb|]. split; [exact Hr|].
    vm_compute in Hr. injection Hr as <-. reflexivity.
Defined.

(** ** Squad age buckets *)

Section SquadFacts.
Import Squad.

Variable strptime_ymd : string -> option Date.
Variable today : Date.

Lemma is_young_has_age (p : PlayerData) : is_young p = true -> has_age p = true.
Proof. unfold is_young, has_age. now destruct (pd_age p). Qed.

Lemma is_experienced_has_age (p : PlayerData) :
  is_experienced p = true -> has_age p = true.
Proof. unfold is_experienced, has_age. now destruct (pd_age p). Qed.



(** The two returned lists, in closed form. *)
Lemma get_top_performers_closed (squad : list Player) :
  young_talents (get_top_performers strptime_ymd today squad)
  = firstn 8 (Py.sort youngest_first
                (filter is_young (squad_with_ages strptime_ymd today squad))) /\
  experienced_players (get_top_performers strptime_ymd today squad)
  = firstn 8 (Py.sort oldest_first
                (filter is_experienced
                   (squad_with_ages strptime_ymd today squad))).
Proof.
  destruct squad as [|p squad]; [split; reflexivity|].
  unfold get_top_performers, players_with_ages, Py.slice_to.
  cbn [young_talents experienced_players].
  rewrite (filter_absorb is_young has_age) by apply is_young_has_age.
  rewrite (filter_absorb is_experienced has_age)
    by apply is_experienced_has_age.
  split; reflexivity.
Qed.


End SquadFacts.



(** ** Team form calculator *)

Section RoundingFacts.
Import TeamStats.
Local Open Scope Q_scope.

(** Rounding moves a number by at most one half. *)
Lemma round_half_even_near (q : Q) :
  q - (1 # 2) <= inject_Z (round_half_even q) <= q + (1 # 2).
Proof.
  unfold round_half_even.
  pose proof (Qfloor_le q) as Hlo. pose proof (Qlt_floor q) as Hhi.
  rewrite inject_Z_plus in Hhi. change (inject_Z 1) with 1 in Hhi.
  destruct (Qcompare_spec (q - inject_Z (Qfloor q)) (1 # 2)) as [He|Hl|Hg];
    try destruct (Z.even (Qfloor q));
    rewrite ?inject_Z_plus; change (inject_Z 1) with 1; lra.
Qed.

(** [round1] yields a number of tenths within one twentieth of its
    argument. *)
Lemma round1_near (q : Q) :
  exists tenths : Z,
    round1 q == inject_Z tenths / 10 /\
    q - (1 # 20) <= round1 q <= q + (1 # 20).
Proof.
  exists (round_half_even (q * 10)). split; [reflexivity|].
  unfold round1. pose proof (round_half_even_near (q * 10)) as H.
  set (z := inject_Z (round_half_even (q * 10))) in *.
  unfold Qdiv. change (/ 10) with (1 # 10). lra.
Qed.

End RoundingFacts.

Section TeamStatsFacts.
Import TeamStats TeamStatsSpec.

Variable team_id : Z.

Lemma number_of_cons (f : Match -> bool) (m : Match) (ms : list Match) :
  number_of f (m :: ms) = (if f m then 1 else 0) + number_of f ms.
Proof.
  unfold number_of. simpl. destruct (f m); simpl List.length; lia.
Qed.

Lemma total_cons (f : Match -> Z) (m : Match) (ms : list Match) :
  total f (m :: ms) = f m + total f ms.
Proof. reflexivity. Qed.

(** One iteration adds the match's outcome and goals to the counters. *)
Lemma count_match_counters (stats : Stats) (m : Match) :
  wins (count_match team_id stats m)
  = wins stats + (if won team_id m then 1 else 0) /\
  draws (count_match team_id stats m)
  = draws stats + (if drawn team_id m then 1 else 0) /\
  losses (count_match team_id stats m)
  = losses stats + (if lost team_id m then 1 else 0) /\
  goals_for (count_match team_id stats m)
  = goals_for stats + scored team_id m /\
  goals_against (count_match team_id stats m)
  = goals_against stats + conceded team_id m.
Proof.
  unfold count_match, won, drawn, lost, scored, conceded, side_scores.
  destruct (both_scores m) as [[h a]|]; [|repeat split; lia].
  destruct (is_home team_id m);
    cbn [wins draws losses goals_for goals_against].
  - destruct (Z.ltb_spec a h), (Z.ltb_spec h a), (Z.eqb_spec h a);
      simpl; repeat split; lia.
  - destruct (Z.ltb_spec h a), (Z.ltb_spec a h), (Z.eqb_spec a h);
      simpl; repeat split; lia.
Qed.

Lemma count_match_fold (ms : list Match) (stats : Stats) :
  let stats' := fold_left (count_match team_id) ms stats in
  wins stats' = wins stats + number_of (won team_id) ms /\
  draws stats' = draws stats + number_of (drawn team_id) ms /\
  losses stats' = losses stats + number_of (lost team_id) ms /\
  goals_for stats' = goals_for stats + total (scored team_id) ms /\
  goals_against stats' = goals_against stats + total (conceded team_id) ms.
Proof.
  revert stats. induction ms as [|m ms IH]; intros stats.
  - unfold number_of, total. simpl. repeat split; lia.
  - cbn [fold_left]. cbv zeta in IH |- *.
    destruct (IH (count_match team_id stats m)) as (Hw & Hd & Hl & Hf & Ha).
    destruct (count_match_counters stats m) as (Hw1 & Hd1 & Hl1 & Hf1 & Ha1).
    rewrite Hw, Hd, Hl, Hf, Ha, Hw1, Hd1, Hl1, Hf1, Ha1.
    rewrite !number_of_cons, !total_cons. repeat split; lia.
Qed.

(** The closing block leaves the counters alone. *)
Lemma derive_metrics_counters (stats : Stats) :
  wins (derive_metrics stats) = wins stats /\
  draws (derive_metrics stats) = draws stats /\
  losses (derive_metrics stats) = losses stats /\
  goals_for (derive_metrics stats) = goals_for stats /\
  goals_against (derive_metrics stats) = goals_against stats.
Proof.
  unfold derive_metrics.
  destruct (0 <? wins stats + draws stats + losses stats); repeat split.
Qed.

Lemma derive_metrics_values (stats : Stats) :
  0 < wins stats + draws stats + losses stats ->
  win_percentage (derive_metrics stats)
  = Some (round1 ((inject_Z (wins stats)
                   / inject_Z (wins stats + draws stats + losses stats))
                  * 100)) /\
  points (derive_metrics stats) = Some (wins stats * 3 + draws stats) /\
  goal_difference (derive_metrics stats)
  = Some (goals_for stats - goals_against stats).
Proof.
  intros Hpos. unfold derive_metrics.
  apply Z.ltb_lt in Hpos. rewrite Hpos. repeat split.
Qed.

(** A match with both scores is won, drawn or lost, and only one of the
    three. *)
Lemma outcomes_partition (ms : list Match) :
  Forall (fun m => both_scores m <> None) ms ->
  number_of (won team_id) ms + number_of (drawn team_id) ms
  + number_of (lost team_id) ms
  = Z.of_nat (List.length ms).
Proof.
  induction 1 as [|m ms Hm Hms IH]; [reflexivity|].
  rewrite !number_of_cons. cbn [List.length]. rewrite Nat2Z.inj_succ.
  unfold won, drawn, lost, side_scores in *.
  destruct (both_scores m) as [[h a]|]; [|congruence].
  destruct (is_home team_id m).
  - destruct (Z.ltb_spec a h), (Z.ltb_spec h a), (Z.eqb_spec h a); lia.
  - destruct (Z.ltb_spec h a), (Z.ltb_spec a h), (Z.eqb_spec a h); lia.
Qed.

(** For a non-empty input the result is the loop over the first ten
    matches followed by the closing block. *)
Lemma calculate_team_stats_closed (ms : list Match) (s : Stats) :
  calculate_team_stats ms team_id = StatsDict s ->
  derive_metrics
    (fold_left (count_match team_id) (firstn 10 ms) initial_stats) = s.
Proof.
  assert (Hinj : forall a b, StatsDict a = StatsDict b -> a = b)
    by (intros a b E; now inversion E).
  destruct ms as [|m ms']; [discriminate|].
  unfold calculate_team_stats, Py.slice_to. apply Hinj.
Qed.

End TeamStatsFacts.

(** C9.  The counters of the returned statistics are the numbers of matches
    won, drawn and lost and the goals scored and conceded among the first
    ten matches.  When at least one match was counted, points are three
    times the wins plus the draws, the goal difference is goals for minus
    goals against, and the win percentage is a whole number of tenths within
    0.05 of the exact percentage.  Three matches with both scores, two won
    and one drawn with five goals for and two against, give 7 points, a win
    percentage of 66.7 and a goal difference of 3. *)
Theorem team_form_metrics (ms : list Match) (team_id : Z) (s : TeamStats.Stats) :
  TeamStats.calculate_team_stats ms team_id = TeamStats.StatsDict s ->
  let counted := firstn 10 ms in
  let played := TeamStats.wins s + TeamStats.draws s + TeamStats.losses s in
  let exact :=
    ((inject_Z (TeamStats.wins s) / inject_Z played) * 100)%Q in
  (TeamStats.wins s = TeamStatsSpec.number_of (TeamStatsSpec.won team_id) counted /\
   TeamStats.draws s
   = TeamStatsSpec.number_of (TeamStatsSpec.drawn team_id) counted /\
   TeamStats.losses s
   = TeamStatsSpec.number_of (TeamStatsSpec.lost team_id) counted /\
   TeamStats.goals_for s
   = TeamStatsSpec.total (TeamStatsSpec.scored team_id) counted /\
   TeamStats.goals_against s
   = TeamStatsSpec.total (TeamStatsSpec.conceded team_id) counted) /\
  (0 < played ->
   TeamStats.points s = Some (3 * TeamStats.wins s + TeamStats.draws s) /\
   TeamStats.goal_difference s
   = Some (TeamStats.goals_for s - TeamStats.goals_against s) /\
   exists (wp : Q) (tenths : Z),
     TeamStats.win_percentage s = Some wp /\
     (wp == inject_Z tenths / 10)%Q /\
     (exact - (1 # 20) <= wp <= exact + (1 # 20))%Q) /\
  (List.length ms = 3%nat ->
   Forall (fun m => TeamStats.both_scores m <> None) ms ->
   TeamStatsSpec.number_of (TeamStatsSpec.won team_id) ms = 2 ->
   TeamStatsSpec.number_of (TeamStatsSpec.drawn team_id) ms = 1 ->
   TeamStatsSpec.total (TeamStatsSpec.scored team_id) ms = 5 ->
   TeamStatsSpec.total (TeamStatsSpec.conceded team_id) ms = 2 ->
   TeamStats.points s = Some 7 /\
   (exists wp : Q, TeamStats.win_percentage s = Some wp /\ (wp == 66.7)%Q) /\
   TeamStats.goal_difference s = Some 3).
Proof.
  intros Hcall counted played exact.
  pose proof (calculate_team_stats_closed team_id ms s Hcall) as Hs.
  fold counted in Hs.
  set (st := fold_left (TeamStats.count_match team_id) counted
               TeamStats.initial_stats) in Hs.
  destruct (count_match_fold team_id counted TeamStats.initial_stats)
    as (Hw & Hd & Hl & Hf & Ha).
  fold st in Hw, Hd, Hl, Hf, Ha. simpl in Hw, Hd, Hl, Hf, Ha.
  destruct (derive_metrics_counters st) as (Hw' & Hd' & Hl' & Hf' & Ha').
  rewrite Hs in Hw', Hd', Hl', Hf', Ha'.
  assert (Hcounters :
            TeamStats.wins s
            = TeamStatsSpec.number_of (TeamStatsSpec.won team_id) counted /\
            TeamStats.draws s
            = TeamStatsSpec.number_of (TeamStatsSpec.drawn team_id) counted /\
            TeamStats.losses s
            = TeamStatsSpec.number_of (TeamStatsSpec.lost team_id) counted /\
            TeamStats.goals_for s
            = TeamStatsSpec.total (TeamStatsSpec.scored team_id) counted /\
            TeamStats.goals_against s
            = TeamStatsSpec.total (TeamStatsSpec.conceded team_id) counted).
  { rewrite Hw', Hd', Hl', Hf', Ha'. auto. }
  assert (Hvalues : 0 < played ->
            TeamStats.win_percentage s = Some (TeamStats.round1 exact) /\
            TeamStats.points s
            = Some (TeamStats.wins s * 3 + TeamStats.draws s) /\
            TeamStats.goal_difference s
            = Some (TeamStats.goals_for s - TeamStats.goals_against s)).
  { intros Hpos. unfold exact, played in *.
    rewrite Hw', Hd', Hl', Hf', Ha' in *. rewrite <- Hs.
    now apply derive_metrics_values. }
  split; [exact Hcounters|]. split.
  - intros Hpos. destruct (Hvalues Hpos) as (Hwp & Hpts & Hgd).
    split; [rewrite Hpts; f_equal; lia|]. split; [exact Hgd|].
    destruct (round1_near exact) as (tenths & Ht & Hnear).
    exists (TeamStats.round1 exact), tenths. auto.
  - intros Hlen Hall Hwon Hdrawn Hscored Hconceded.
    assert (Hcounted : counted = ms)
      by (unfold counted; apply firstn_all2; rewrite Hlen; lia).
    rewrite Hcounted in Hcounters.
    destruct Hcounters as (Hw2 & Hd2 & Hl2 & Hf2 & Ha2).
    pose proof (outcomes_partition team_id ms Hall) as Hpart.
    rewrite Hlen in Hpart.
    assert (Hlost : TeamStats.losses s = 0) by lia.
    rewrite Hwon in Hw2. rewrite Hdrawn in Hd2.
    rewrite Hscored in Hf2. rewrite Hconceded in Ha2.
    assert (Hpos : 0 < played) by (unfold played; lia).
    destruct (Hvalues Hpos) as (Hwp & Hpts & Hgd).
    unfold exact, played in Hwp.
    rewrite Hw2, Hd2, Hlost in Hwp. rewrite Hw2, Hd2 in Hpts.
    rewrite Hf2, Ha2 in Hgd.
    split; [exact Hpts|]. split; [|exact Hgd].
    eexists. split; [exact Hwp|]. reflexivity.
Qed.

Lemma team_form_metrics_witness :
  exists s,
    TeamStats.calculate_team_stats Samples.recent_form 66
    = TeamStats.StatsDict s /\
    TeamStats.points s = Some 7 /\
    (exists wp : Q, TeamStats.win_percentage s = Some wp /\ (wp == 66.7)%Q) /\
    TeamStats.goal_difference s = Some 3.
Proof.
  eexists. split; [reflexivity|].
  refine (proj2 (proj2 (team_form_metrics Samples.recent_form 66 _ eq_refl))
            eq_refl _ eq_refl eq_refl eq_refl eq_refl).
  repeat constructor; discriminate.
Defined.


(** * Further properties *)

(** ** Team form: the remaining keys *)

Section TeamStatsMore.
Import TeamStats TeamStatsSpec FormSpec.

Variable team_id : Z.

Lemma firstn_firstn_app {A : Type} (n : nat) (a b : list A) :
  firstn n (firstn n a ++ b) = firstn n (a ++ b).
Proof.
  revert a. induction n as [|n IH]; intros a; [reflexivity|].
  destruct a as [|x a]; simpl; [reflexivity|]. now rewrite IH.
Qed.

(** What one iteration does to the keys other than the five counters. *)
Lemma count_match_skipped (stats : Stats) (m : Match) :
  has_scores m = false -> count_match team_id stats m = stats.
Proof.
  unfold has_scores, count_match. now destruct (both_scores m).
Qed.

Lemma count_match_counted (stats : Stats) (m : Match) :
  has_scores m = true ->
  clean_sheets (count_match team_id stats m)
  = clean_sheets stats + (if kept_clean team_id m then 1 else 0) /\
  form (count_match team_id stats m)
  = (if (List.length (form stats) <? 5)%nat
     then form stats ++ [letter team_id m] else form stats) /\
  competitions (count_match team_id stats m)
  = match recorded_name m with
    | Some n => set_add n (competitions stats)
    | None => competitions stats
    end /\
  t_wins (home_record (count_match team_id stats m))
  + t_wins (away_record (count_match team_id stats m))
  = t_wins (home_record stats) + t_wins (away_record stats)
    + (if won team_id m then 1 else 0) /\
  t_draws (home_record (count_match team_id stats m))
  + t_draws (away_record (count_match team_id stats m))
  = t_draws (home_record stats) + t_draws (away_record stats)
    + (if drawn team_id m then 1 else 0) /\
  t_losses (home_record (count_match team_id stats m))
  + t_losses (away_record (count_match team_id stats m))
  = t_losses (home_record stats) + t_losses (away_record stats)
    + (if lost team_id m then 1 else 0).
Proof.
  unfold has_scores, count_match, kept_clean, letter, recorded_name,
    won, drawn, lost, side_scores.
  destruct (both_scores m) as [[h a]|]; [intros _|discriminate].
  destruct (is_home team_id m);
    cbn [clean_sheets form competitions home_record away_record].
  - split; [reflexivity|]. split; [reflexivity|].
    split; [destruct (competition m) as [c|]; [|reflexivity];
            destruct (competition_name c) as [[|ch n]|]; reflexivity|].
    destruct (Z.ltb_spec a h), (Z.ltb_spec h a), (Z.eqb_spec h a);
      try lia; cbn; repeat split; lia.
  - split; [reflexivity|]. split; [reflexivity|].
    split; [destruct (competition m) as [c|]; [|reflexivity];
            destruct (competition_name c) as [[|ch n]|]; reflexivity|].
    destruct (Z.ltb_spec h a), (Z.ltb_spec a h), (Z.eqb_spec a h);
      try lia; cbn; repeat split; lia.
Qed.

Lemma count_match_derived (stats : Stats) (m : Match) :
  win_percentage (count_match team_id stats m) = win_percentage stats /\
  points (count_match team_id stats m) = points stats /\
  average_goals_for (count_match team_id stats m) = average_goals_for stats /\
  average_goals_against (count_match team_id stats m)
  = average_goals_against stats /\
  goal_difference (count_match team_id stats m) = goal_difference stats.
Proof.
  unfold count_match. destruct (both_scores m) as [[h a]|]; repeat split.
Qed.

Lemma form_step (f : list string) (r : string) :
  (List.length f <= 5)%nat ->
  (if (List.length f <? 5)%nat then f ++ [r] else f) = firstn 5 (f ++ [r]).
Proof.
  intros Hlen. destruct (Nat.ltb_spec (List.length f) 5) as [Hlt|Hge].
  - symmetry. apply firstn_all2. rewrite length_app. simpl. lia.
  - rewrite firstn_app.
    replace (5 - List.length f)%nat with 0%nat by lia.
    rewrite firstn_all2 by lia. simpl. now rewrite app_nil_r.
Qed.

(** The form sequence after the loop: the first five result letters. *)
Lemma form_fold (ms : list Match) (stats : Stats) :
  (List.length (form stats) <= 5)%nat ->
  form (fold_left (count_match team_id) ms stats)
  = firstn 5 (form stats ++ map (letter team_id) (filter has_scores ms)).
Proof.
  revert stats. induction ms as [|m ms IH]; intros stats Hlen.
  - cbn [fold_left filter map]. rewrite app_nil_r. symmetry.
    now apply firstn_all2.
  - cbn [fold_left filter]. destruct (has_scores m) eqn:Hm.
    + destruct (count_match_counted stats m Hm) as (_ & Hf & _).
      rewrite IH.
      * rewrite Hf, form_step by exact Hlen.
        rewrite firstn_firstn_app. cbn [map]. now rewrite <- app_assoc.
      * rewrite Hf, form_step by exact Hlen. apply firstn_le_length.
    + rewrite count_match_skipped by exact Hm. now apply IH.
Qed.

Lemma clean_sheets_fold (ms : list Match) (stats : Stats) :
  clean_sheets (fold_left (count_match team_id) ms stats)
  = clean_sheets stats + number_of (kept_clean team_id) ms.
Proof.
  revert stats. induction ms as [|m ms IH]; intros stats.
  - unfold number_of. simpl. lia.
  - cbn [fold_left]. rewrite IH, number_of_cons.
    destruct (has_scores m) eqn:Hm.
    + destruct (count_match_counted stats m Hm) as (Hc & _). rewrite Hc. lia.
    + rewrite count_match_skipped by exact Hm.
      unfold kept_clean, side_scores. unfold has_scores in Hm.
      destruct (both_scores m); [discriminate | lia].
Qed.

Lemma records_fold (ms : list Match) (stats : Stats) :
  let stats' := fold_left (count_match team_id) ms stats in
  t_wins (home_record stats') + t_wins (away_record stats')
  = t_wins (home_record stats) + t_wins (away_record stats)
    + number_of (won team_id) ms /\
  t_draws (home_record stats') + t_draws (away_record stats')
  = t_draws (home_record stats) + t_draws (away_record stats)
    + number_of (drawn team_id) ms /\
  t_losses (home_record stats') + t_losses (away_record stats')
  = t_losses (home_record stats) + t_losses (away_record stats)
    + number_of (lost team_id) ms.
Proof.
  revert stats. induction ms as [|m ms IH]; intros stats; cbv zeta.
  - unfold number_of. simpl. lia.
  - cbn [fold_left]. cbv zeta in IH.
    destruct (IH (count_match team_id stats m)) as (Hw & Hd & Hl).
    rewrite Hw, Hd, Hl, !number_of_cons.
    destruct (has_scores m) eqn:Hm.
    + destruct (count_match_counted stats m Hm) as (_ & _ & _ & Hw1 & Hd1 & Hl1).
      rewrite Hw1, Hd1, Hl1. lia.
    + rewrite count_match_skipped by exact Hm.
      unfold won, drawn, lost, side_scores. unfold has_scores in Hm.
      destruct (both_scores m); [discriminate | lia].
Qed.

Lemma derived_fold (ms : list Match) (stats : Stats) :
  let stats' := fold_left (count_match team_id) ms stats in
  win_percentage stats' = win_percentage stats /\
  points stats' = points stats /\
  average_goals_for stats' = average_goals_for stats /\
  average_goals_against stats' = average_goals_against stats /\
  goal_difference stats' = goal_difference stats.
Proof.
  revert stats. induction ms as [|m ms IH]; intros stats; cbv zeta.
  - simpl. auto.
  - cbn [fold_left]. cbv zeta in IH.
    destruct (IH (count_match team_id stats m)) as (H1 & H2 & H3 & H4 & H5).
    destruct (count_match_derived stats m) as (G1 & G2 & G3 & G4 & G5).
    rewrite H1, H2, H3, H4, H5. auto.
Qed.

Lemma set_add_In (x y : string) (s : list string) :
  In y (set_add x s) <-> y = x \/ In y s.
Proof.
  unfold set_add, Py.str_in_list.
  destruct (existsb (String.eqb x) s) eqn:Hex.
  - apply existsb_exists in Hex as (z & Hz & Heq).
    apply String.eqb_eq in Heq. subst z. split; [auto|].
    intros [->|H]; auto.
  - rewrite in_app_iff. simpl. split; [intros [H|[H|[]]]; auto|].
    intros [->|H]; auto.
Qed.

Lemma set_add_NoDup (x : string) (s : list string) :
  NoDup s -> NoDup (set_add x s).
Proof.
  intros Hnd. unfold set_add, Py.str_in_list.
  destruct (existsb (String.eqb x) s) eqn:Hex; [exact Hnd|].
  apply NoDup_app; [exact Hnd | repeat constructor; intros [] |].
  intros y Hy [Hxy|[]]. subst y.
  assert (Ht : existsb (String.eqb x) s = true).
  { apply existsb_exists. exists x. split; [exact Hy|]. apply String.eqb_refl. }
  congruence.
Qed.

Lemma competitions_fold (ms : list Match) (stats : Stats) :
  let stats' := fold_left (count_match team_id) ms stats in
  (NoDup (competitions stats) -> NoDup (competitions stats')) /\
  (forall n, In n (competitions stats') <->
             In n (competitions stats) \/
             exists m, In m ms /\ has_scores m = true /\
                       recorded_name m = Some n).
Proof.
  revert stats. induction ms as [|m ms IH]; intros stats; cbv zeta.
  - simpl. split; [auto|]. intros n. split; [auto|].
    intros [H|(m & [] & _)]. exact H.
  - cbn [fold_left]. cbv zeta in IH.
    destruct (IH (count_match team_id stats m)) as (Hnd & Hin).
    destruct (has_scores m) eqn:Hm.
    + destruct (count_match_counted stats m Hm) as (_ & _ & Hc & _).
      split.
      * intros H0. apply Hnd. rewrite Hc.
        destruct (recorded_name m); [now apply set_add_NoDup | exact H0].
      * intros n. rewrite Hin, Hc. split.
        -- intros [H|(m' & Hm' & Hs & Hr)].
           ++ destruct (recorded_name m) as [n0|] eqn:Hr; [|now left].
              apply set_add_In in H as [->|H]; [|now left].
              right. exists m. simpl. auto.
           ++ right. exists m'. simpl. auto.
        -- intros [H|(m' & [<-|Hm'] & Hs & Hr)].
           ++ left. destruct (recorded_name m); [|exact H].
              apply set_add_In. now right.
           ++ left. rewrite Hr. apply set_add_In. now left.
           ++ right. exists m'. auto.
    + rewrite count_match_skipped in * by exact Hm.
      split; [exact Hnd|]. intros n. rewrite Hin. split.
      * intros [H|(m' & Hm' & Hs & Hr)]; [now left|].
        right. exists m'. simpl. auto.
      * intros [H|(m' & [<-|Hm'] & Hs & Hr)]; [now left | congruence |].
        right. exists m'. auto.
Qed.

(** The closing block touches only the five derived keys. *)
Lemma derive_metrics_rest (stats : Stats) :
  clean_sheets (derive_metrics stats) = clean_sheets stats /\
  form (derive_metrics stats) = form stats /\
  home_record (derive_metrics stats) = home_record stats /\
  away_record (derive_metrics stats) = away_record stats /\
  competitions (derive_metrics stats) = competitions stats.
Proof.
  unfold derive_metrics.
  destruct (0 <? wins stats + draws stats + losses stats); repeat split.
Qed.

Lemma number_of_bounds (f : Match -> bool) (ms : list Match) :
  0 <= number_of f ms <= Z.of_nat (List.length ms).
Proof.
  unfold number_of. pose proof (filter_length_le f ms). lia.
Qed.

Lemma outcomes_count (ms : list Match) :
  number_of (won team_id) ms + number_of (drawn team_id) ms
  + number_of (lost team_id) ms
  = number_of has_scores ms.
Proof.
  induction ms as [|m ms IH]; [reflexivity|].
  rewrite !number_of_cons.
  unfold won, drawn, lost, side_scores, has_scores in *.
  destruct (both_scores m) as [[h a]|]; [|lia].
  destruct (is_home team_id m).
  - destruct (Z.ltb_spec a h), (Z.ltb_spec h a), (Z.eqb_spec h a); lia.
  - destruct (Z.ltb_spec h a), (Z.ltb_spec a h), (Z.eqb_spec a h); lia.
Qed.

Lemma kept_clean_counted (ms : list Match) :
  number_of (kept_clean team_id) ms <= number_of has_scores ms.
Proof.
  induction ms as [|m ms IH]; [reflexivity|].
  rewrite !number_of_cons.
  unfold kept_clean, side_scores, has_scores in *.
  destruct (both_scores m) as [[h a]|]; [|lia].
  destruct (is_home team_id m); [destruct (a =? 0) | destruct (h =? 0)]; lia.
Qed.

End TeamStatsMore.

Section RoundingBounds.
Import TeamStats.
Local Open Scope Q_scope.

(** Rounding keeps a number between two integers that bound it. *)
Lemma round_half_even_between (q : Q) (lo hi : Z) :
  inject_Z lo <= q -> q <= inject_Z hi ->
  (lo <= round_half_even q <= hi)%Z.
Proof.
  intros Hlo Hhi. unfold round_half_even.
  pose proof (Qfloor_resp_le _ _ Hlo) as Hf1.
  pose proof (Qfloor_resp_le _ _ Hhi) as Hf2.
  rewrite Qfloor_Z in Hf1, Hf2.
  destruct (Z.eq_dec (Qfloor q) hi) as [Heq|Hne].
  - assert (Hq : q - inject_Z (Qfloor q) < 1 # 2) by (rewrite Heq; lra).
    destruct (Qcompare_spec (q - inject_Z (Qfloor q)) (1 # 2)); [lra|lia|lra].
  - destruct (Qcompare _ _); [destruct (Z.even _)| |]; lia.
Qed.

Lemma percentage_between (w t : Z) :
  (0 <= w <= t)%Z -> (0 < t)%Z ->
  0 <= round1 ((inject_Z w / inject_Z t) * 100) <= 100.
Proof.
  intros Hw Ht.
  assert (Ht' : 0 < inject_Z t)
    by (change 0 with (inject_Z 0); rewrite <- Zlt_Qlt; exact Ht).
  assert (H0 : 0 <= inject_Z w / inject_Z t).
  { apply Qle_shift_div_l; [exact Ht'|]. rewrite Qmult_0_l.
    change 0 with (inject_Z 0). rewrite <- Zle_Qle. lia. }
  assert (H1 : inject_Z w / inject_Z t <= 1).
  { apply Qle_shift_div_r; [exact Ht'|]. rewrite Qmult_1_l.
    rewrite <- Zle_Qle. lia. }
  destruct (round_half_even_between
              ((inject_Z w / inject_Z t) * 100 * 10) 0 1000) as [Ha Hb].
  - change (inject_Z 0) with 0. lra.
  - change (inject_Z 1000) with 1000. lra.
  - unfold round1. rewrite Zle_Qle in Ha, Hb.
    change (inject_Z 0) with 0 in Ha. change (inject_Z 1000) with 1000 in Hb.
    set (z := inject_Z (round_half_even (inject_Z w / inject_Z t * 100 * 10)))
      in *.
    unfold Qdiv. change (/ 10) with (1 # 10). lra.
Qed.

End RoundingBounds.

(** The counted matches are those with both scores. *)
Lemma played_is_counted (ms : list Match) (team_id : Z) (s : TeamStats.Stats) :
  TeamStats.calculate_team_stats ms team_id = TeamStats.StatsDict s ->
  TeamStats.wins s + TeamStats.draws s + TeamStats.losses s
  = TeamStatsSpec.number_of FormSpec.has_scores (firstn 10 ms).
Proof.
  intros Hcall.
  pose proof (calculate_team_stats_closed team_id ms s Hcall) as Hs.
  remember (firstn 10 ms) as counted eqn:Hcounted.
  destruct (count_match_fold team_id counted TeamStats.initial_stats)
    as (Hw & Hd & Hl & _).
  simpl in Hw, Hd, Hl.
  destruct (derive_metrics_counters
              (fold_left (TeamStats.count_match team_id) counted
                 TeamStats.initial_stats)) as (Hw' & Hd' & Hl' & _).
  rewrite Hs in Hw', Hd', Hl'. rewrite Hw', Hd', Hl', Hw, Hd, Hl.
  apply outcomes_count.
Qed.

(** X1.  Wins, draws and losses add up to the number of matches among
    the first ten that carry both full-time scores, so to at most ten.
    The five derived keys (win percentage, points, the two goal
    averages, goal difference) are present exactly when at least one
    match was counted. *)
Theorem team_stats_accounting (ms : list Match) (team_id : Z)
    (s : TeamStats.Stats) :
  TeamStats.calculate_team_stats ms team_id = TeamStats.StatsDict s ->
  let played := TeamStats.wins s + TeamStats.draws s + TeamStats.losses s in
  played = TeamStatsSpec.number_of FormSpec.has_scores (firstn 10 ms) /\
  0 <= played <= 10 /\
  (played = 0 ->
   TeamStats.win_percentage s = None /\ TeamStats.points s = None /\
   TeamStats.average_goals_for s = None /\
   TeamStats.average_goals_against s = None /\
   TeamStats.goal_difference s = None) /\
  (0 < played ->
   TeamStats.win_percentage s <> None /\ TeamStats.points s <> None /\
   TeamStats.average_goals_for s <> None /\
   TeamStats.average_goals_against s <> None /\
   TeamStats.goal_difference s <> None).
Proof.
  intros Hcall played.
  pose proof (calculate_team_stats_closed team_id ms s Hcall) as Hs.
  remember (firstn 10 ms) as counted eqn:Hcounted.
  set (st := fold_left (TeamStats.count_match team_id) counted
               TeamStats.initial_stats) in Hs.
  destruct (count_match_fold team_id counted TeamStats.initial_stats)
    as (Hw & Hd & Hl & _).
  destruct (derived_fold team_id counted TeamStats.initial_stats)
    as (D1 & D2 & D3 & D4 & D5).
  fold st in Hw, Hd, Hl, D1, D2, D3, D4, D5.
  simpl in Hw, Hd, Hl, D1, D2, D3, D4, D5.
  destruct (derive_metrics_counters st) as (Hw' & Hd' & Hl' & _).
  rewrite Hs in Hw', Hd', Hl'.
  assert (Hplayed : played
                    = TeamStatsSpec.number_of FormSpec.has_scores counted).
  { unfold played. rewrite Hw', Hd', Hl', Hw, Hd, Hl.
    apply outcomes_count. }
  assert (Hst : TeamStats.wins st + TeamStats.draws st + TeamStats.losses st
                = played) by (unfold played; lia).
  split; [exact Hplayed|]. split.
  { rewrite Hplayed.
    pose proof (number_of_bounds FormSpec.has_scores counted).
    pose proof (firstn_le_length 10 ms). rewrite <- Hcounted in *. lia. }
  split.
  - intros H0. rewrite <- Hs. unfold TeamStats.derive_metrics.
    rewrite Hst, H0. cbn [Z.ltb Z.compare]. auto.
  - intros Hpos. rewrite <- Hs. unfold TeamStats.derive_metrics.
    rewrite Hst. apply Z.ltb_lt in Hpos. rewrite Hpos.
    cbn [TeamStats.win_percentage TeamStats.points TeamStats.average_goals_for
         TeamStats.average_goals_against TeamStats.goal_difference].
    repeat split; discriminate.
Qed.

Lemma team_stats_accounting_witness :
  exists s,
    TeamStats.calculate_team_stats Samples.recent_form 66
    = TeamStats.StatsDict s /\
    TeamStats.wins s + TeamStats.draws s + TeamStats.losses s = 3.
Proof.
  eexists. split; [reflexivity|].
  exact (proj1 (team_stats_accounting Samples.recent_form 66 _ eq_refl)).
Defined.

(** X2.  The form sequence holds the result letters of the first five
    counted matches, in input order. *)
Theorem team_stats_form (ms : list Match) (team_id : Z) (s : TeamStats.Stats) :
  TeamStats.calculate_team_stats ms team_id = TeamStats.StatsDict s ->
  TeamStats.form s
  = firstn 5 (map (FormSpec.letter team_id)
                  (filter FormSpec.has_scores (firstn 10 ms))) /\
  (List.length (TeamStats.form s) <= 5)%nat /\
  Forall (fun r => r = "W" \/ r = "D" \/ r = "L") (TeamStats.form s).
Proof.
  intros Hcall.
  pose proof (calculate_team_stats_closed team_id ms s Hcall) as Hs.
  remember (firstn 10 ms) as counted eqn:Hcounted.
  destruct (derive_metrics_rest
              (fold_left (TeamStats.count_match team_id) counted
                 TeamStats.initial_stats)) as (_ & Hf & _).
  rewrite Hs in Hf. rewrite form_fold in Hf by (simpl; lia).
  cbn [TeamStats.form TeamStats.initial_stats app] in Hf.
  split; [exact Hf|]. split; [rewrite Hf; apply firstn_le_length|].
  rewrite Hf. apply Forall_forall. intros r Hr.
  apply firstn_In in Hr. apply in_map_iff in Hr as (m & <- & _).
  unfold FormSpec.letter.
  destruct (TeamStatsSpec.won team_id m); [auto|].
  destruct (TeamStatsSpec.lost team_id m); auto.
Qed.

Lemma team_stats_form_witness :
  exists s,
    TeamStats.calculate_team_stats Samples.recent_form 66
    = TeamStats.StatsDict s /\
    (List.length (TeamStats.form s) <= 5)%nat.
Proof.
  eexists. split; [reflexivity|].
  exact (proj1 (proj2 (team_stats_form Samples.recent_form 66 _ eq_refl))).
Defined.

(** X3.  The home and away records split the overall record: their wins,
    draws and losses add up to the overall counters. *)
Theorem team_stats_home_away_split (ms : list Match) (team_id : Z)
    (s : TeamStats.Stats) :
  TeamStats.calculate_team_stats ms team_id = TeamStats.StatsDict s ->
  TeamStats.t_wins (TeamStats.home_record s)
  + TeamStats.t_wins (TeamStats.away_record s) = TeamStats.wins s /\
  TeamStats.t_draws (TeamStats.home_record s)
  + TeamStats.t_draws (TeamStats.away_record s) = TeamStats.draws s /\
  TeamStats.t_losses (TeamStats.home_record s)
  + TeamStats.t_losses (TeamStats.away_record s) = TeamStats.losses s.
Proof.
  intros Hcall.
  pose proof (calculate_team_stats_closed team_id ms s Hcall) as Hs.
  remember (firstn 10 ms) as counted eqn:Hcounted.
  set (st := fold_left (TeamStats.count_match team_id) counted
               TeamStats.initial_stats) in Hs.
  destruct (count_match_fold team_id counted TeamStats.initial_stats)
    as (Hw & Hd & Hl & _).
  destruct (records_fold team_id counted TeamStats.initial_stats)
    as (Rw & Rd & Rl).
  fold st in Hw, Hd, Hl, Rw, Rd, Rl. simpl in Hw, Hd, Hl, Rw, Rd, Rl.
  destruct (derive_metrics_counters st) as (Hw' & Hd' & Hl' & _).
  destruct (derive_metrics_rest st) as (_ & _ & Hh & Ha & _).
  rewrite Hs in Hw', Hd', Hl', Hh, Ha. rewrite Hh, Ha. lia.
Qed.

Lemma team_stats_home_away_split_witness :
  exists s,
    TeamStats.calculate_team_stats Samples.recent_form 66
    = TeamStats.StatsDict s /\
    TeamStats.t_wins (TeamStats.home_record s)
    + TeamStats.t_wins (TeamStats.away_record s) = TeamStats.wins s.
Proof.
  eexists. split; [reflexivity|].
  exact (proj1 (team_stats_home_away_split Samples.recent_form 66 _ eq_refl)).
Defined.

(** X4.  Clean sheets count the counted matches in which the opponent did
    not score; there are never more of them than counted matches. *)
Theorem team_stats_clean_sheets (ms : list Match) (team_id : Z)
    (s : TeamStats.Stats) :
  TeamStats.calculate_team_stats ms team_id = TeamStats.StatsDict s ->
  TeamStats.clean_sheets s
  = TeamStatsSpec.number_of (FormSpec.kept_clean team_id) (firstn 10 ms) /\
  0 <= TeamStats.clean_sheets s
    <= TeamStats.wins s + TeamStats.draws s + TeamStats.losses s.
Proof.
  intros Hcall.
  pose proof (played_is_counted ms team_id s Hcall) as Hplayed.
  pose proof (calculate_team_stats_closed team_id ms s Hcall) as Hs.
  remember (firstn 10 ms) as counted eqn:Hcounted.
  destruct (derive_metrics_rest
              (fold_left (TeamStats.count_match team_id) counted
                 TeamStats.initial_stats)) as (Hc & _).
  rewrite Hs in Hc. rewrite clean_sheets_fold in Hc. simpl in Hc.
  split; [exact Hc|]. rewrite Hc, Hplayed.
  pose proof (number_of_bounds (FormSpec.kept_clean team_id) counted).
  pose proof (kept_clean_counted team_id counted). lia.
Qed.

Lemma team_stats_clean_sheets_witness :
  exists s,
    TeamStats.calculate_team_stats Samples.recent_form 66
    = TeamStats.StatsDict s /\
    TeamStats.clean_sheets s
    = TeamStatsSpec.number_of (FormSpec.kept_clean 66)
        (firstn 10 Samples.recent_form).
Proof.
  eexists. split; [reflexivity|].
  exact (proj1 (team_stats_clean_sheets Samples.recent_form 66 _ eq_refl)).
Defined.

(** X5.  The competitions key lists each non-empty competition name of a
    counted match once, and nothing else. *)
Theorem team_stats_competitions (ms : list Match) (team_id : Z)
    (s : TeamStats.Stats) :
  TeamStats.calculate_team_stats ms team_id = TeamStats.StatsDict s ->
  NoDup (TeamStats.competitions s) /\
  ~ In "" (TeamStats.competitions s) /\
  (forall n,
      In n (TeamStats.competitions s) <->
      exists m, In m (firstn 10 ms) /\ FormSpec.has_scores m = true /\
                FormSpec.recorded_name m = Some n).
Proof.
  intros Hcall.
  pose proof (calculate_team_stats_closed team_id ms s Hcall) as Hs.
  remember (firstn 10 ms) as counted eqn:Hcounted.
  destruct (derive_metrics_rest
              (fold_left (TeamStats.count_match team_id) counted
                 TeamStats.initial_stats)) as (_ & _ & _ & _ & Hc).
  rewrite Hs in Hc.
  destruct (competitions_fold team_id counted TeamStats.initial_stats)
    as (Hnd & Hin).
  rewrite <- Hc in Hnd, Hin.
  assert (Hmem : forall n,
            In n (TeamStats.competitions s) <->
            exists m, In m counted /\ FormSpec.has_scores m = true /\
                      FormSpec.recorded_name m = Some n).
  { intros n. rewrite Hin. simpl. split; [intros [[]|H]; exact H | auto]. }
  split; [apply Hnd; constructor|]. split; [|exact Hmem].
  intros Hempty. apply Hmem in Hempty as (m & _ & _ & Hr).
  unfold FormSpec.recorded_name in Hr.
  destruct (competition m) as [c|]; [|discriminate].
  destruct (competition_name c) as [[|ch n]|]; discriminate.
Qed.

Lemma team_stats_competitions_witness :
  exists s,
    TeamStats.calculate_team_stats Samples.recent_form 66
    = TeamStats.StatsDict s /\
    NoDup (TeamStats.competitions s).
Proof.
  eexists. split; [reflexivity|].
  exact (proj1 (team_stats_competitions Samples.recent_form 66 _ eq_refl)).
Defined.

(** X6.  When a match was counted, the points lie between 0 and three per
    counted match (so at most 30) and the win percentage between 0 and
    100. *)
Theorem team_stats_bounds (ms : list Match) (team_id : Z)
    (s : TeamStats.Stats) (p : Z) (wp : Q) :
  TeamStats.calculate_team_stats ms team_id = TeamStats.StatsDict s ->
  TeamStats.points s = Some p ->
  TeamStats.win_percentage s = Some wp ->
  0 <= p <= 3 * (TeamStats.wins s + TeamStats.draws s + TeamStats.losses s) /\
  p <= 30 /\
  (0 <= wp <= 100)%Q.
Proof.
  intros Hcall Hp Hwp.
  pose proof (played_is_counted ms team_id s Hcall) as Hplayed.
  pose proof (calculate_team_stats_closed team_id ms s Hcall) as Hs.
  remember (firstn 10 ms) as counted eqn:Hcounted.
  set (st := fold_left (TeamStats.count_match team_id) counted
               TeamStats.initial_stats) in Hs.
  destruct (count_match_fold team_id counted TeamStats.initial_stats)
    as (Hw & Hd & Hl & _).
  destruct (derived_fold team_id counted TeamStats.initial_stats)
    as (D1 & D2 & _).
  fold st in Hw, Hd, Hl, D1, D2. simpl in Hw, Hd, Hl, D1, D2.
  destruct (derive_metrics_counters st) as (Hw' & Hd' & Hl' & _).
  rewrite Hs in Hw', Hd', Hl'.
  pose proof (number_of_bounds (TeamStatsSpec.won team_id) counted) as Bw.
  pose proof (number_of_bounds (TeamStatsSpec.drawn team_id) counted) as Bd.
  pose proof (number_of_bounds (TeamStatsSpec.lost team_id) counted) as Bl.
  pose proof (number_of_bounds FormSpec.has_scores counted) as Bc.
  assert (Hlen : (List.length counted <= 10)%nat)
    by (rewrite Hcounted; apply firstn_le_length).
  destruct (Z.ltb_spec 0 (TeamStats.wins st + TeamStats.draws st
                          + TeamStats.losses st)) as [Hpos|Hzero].
  - destruct (derive_metrics_values st Hpos) as (Vw & Vp & _).
    rewrite Hs in Vw, Vp. rewrite Vp in Hp. injection Hp as <-.
    rewrite Vw in Hwp. injection Hwp as <-.
    split; [lia|]. split; [lia|].
    apply percentage_between; lia.
  - exfalso. rewrite <- Hs in Hp. unfold TeamStats.derive_metrics in Hp.
    apply Z.ltb_ge in Hzero. rewrite Hzero in Hp. congruence.
Qed.

Lemma team_stats_bounds_witness :
  exists s p wp,
    TeamStats.calculate_team_stats Samples.recent_form 66
    = TeamStats.StatsDict s /\
    TeamStats.points s = Some p /\ TeamStats.win_percentage s = Some wp /\
    p <= 30.
Proof.
  eexists. eexists. eexists.
  split; [reflexivity|]. split; [reflexivity|]. split; [reflexivity|].
  exact (proj1 (proj2 (team_stats_bounds Samples.recent_form 66 _ _ _
                         eq_refl eq_refl eq_refl))).
Defined.

(** ** Competition lifecycle: grouping, ordering and milestones *)

Lemma StronglySorted_filter {A : Type} (R : A -> A -> Prop) (f : A -> bool)
    (l : list A) :
  StronglySorted R l -> StronglySorted R (filter f l).
Proof.
  induction 1 as [|x l Hs IH Hall]; simpl; [constructor|].
  destruct (f x); [|exact IH]. constructor; [exact IH|].
  rewrite Forall_forall in *. intros y Hy. apply Hall.
  now apply filter_In in Hy as [Hy _].
Qed.

(** Two filters that exclude each other keep no more than the list has. *)
Lemma exclusive_filters_length {A : Type} (f g : A -> bool) (l : list A) :
  (forall x, f x = true -> g x = false) ->
  (List.length (filter f l) + List.length (filter g l) <= List.length l)%nat.
Proof.
  intros Hex. induction l as [|x l IH]; simpl; [lia|].
  destruct (f x) eqn:Hf; [rewrite (Hex x Hf)|destruct (g x)]; simpl; lia.
Qed.

Section CompetitionsMore.
Import Competitions CompetitionsSpec LifecycleSpec.

Variable iso_instant : string -> option Z.
Variable current_date : Z.
Variable team_id : Z.

(** The number of matches held by the buckets of key [k]. *)
Let held (k : option ident) (cs : buckets) : nat :=
  list_sum (map (fun kv => if opt_ident_eqb k (fst kv)
                           then List.length (cd_matches (snd kv)) else 0%nat)
                cs).

Lemma held_app k (cs1 cs2 : buckets) :
  held k (cs1 ++ cs2) = (held k cs1 + held k cs2)%nat.
Proof. unfold held. now rewrite map_app, list_sum_app. Qed.

Lemma held_absent k (cs : buckets) :
  has_bucket k cs = false -> held k cs = 0%nat.
Proof.
  unfold held, has_bucket. induction cs as [|[k' d] cs IH]; simpl;
    [reflexivity|].
  intros H. apply orb_false_iff in H as [Hk H]. rewrite Hk. now rewrite IH.
Qed.

Lemma held_unique k d (cs : buckets) :
  NoDup (map fst cs) -> In (k, d) cs ->
  held k cs = List.length (cd_matches d).
Proof.
  induction cs as [|[k' d'] cs IH]; simpl; intros Hnd Hin; [contradiction|].
  inversion Hnd as [|? ? Hnot Hnd']; subst.
  unfold held. simpl. fold (held k cs).
  destruct Hin as [[= -> ->]|Hin].
  - assert (E : opt_ident_eqb k k = true) by now apply opt_ident_eqb_eq.
    rewrite E. rewrite held_absent; [lia|].
    destruct (has_bucket k cs) eqn:Hb; [|reflexivity].
    apply has_bucket_In in Hb. contradiction.
  - destruct (opt_ident_eqb k k') eqn:E.
    + apply opt_ident_eqb_eq in E. subst k'. exfalso. apply Hnot.
      now apply (in_map fst) in Hin.
    + now rewrite IH.
Qed.

Lemma append_match_held comp_id entry (cs : buckets) (k : option ident) :
  has_bucket comp_id cs = true ->
  held k (append_match comp_id entry cs)
  = (held k cs + (if opt_ident_eqb k comp_id then 1 else 0))%nat.
Proof.
  unfold held. induction cs as [|[k' d] cs IH]; simpl; [discriminate|].
  intros Hhas. destruct (opt_ident_eqb comp_id k') eqn:E; simpl.
  - apply opt_ident_eqb_eq in E. subst k'.
    destruct (opt_ident_eqb k comp_id); [|lia].
    rewrite length_app. simpl. lia.
  - simpl in Hhas. rewrite IH by exact Hhas. lia.
Qed.

(** One match: the keys gain the id if it is new, and the bucket of that id
    gains one match. *)
Lemma group_match_step (cs cs' : buckets) (m : Match) :
  group_match iso_instant team_id cs m = Some cs' ->
  map fst cs' = note_id (map fst cs) (comp_id_of m) /\
  forall k, held k cs'
            = (held k cs
               + (if opt_ident_eqb (comp_id_of m) k then 1 else 0))%nat.
Proof.
  unfold group_match. fold (comp_id_of m). intros Hg.
  destruct (utcDate m) as [s|]; [|discriminate].
  destruct (iso_instant s) as [match_date|]; [|discriminate].
  injection Hg as <-.
  assert (Hsym : forall a b, opt_ident_eqb a b = opt_ident_eqb b a).
  { intros a b. destruct (opt_ident_eqb a b) eqn:E1,
                         (opt_ident_eqb b a) eqn:E2; try reflexivity.
    - apply opt_ident_eqb_eq in E1. subst.
      assert (opt_ident_eqb b b = true) by now apply opt_ident_eqb_eq.
      congruence.
    - apply opt_ident_eqb_eq in E2. subst.
      assert (opt_ident_eqb a a = true) by now apply opt_ident_eqb_eq.
      congruence. }
  assert (Hnote : existsb (opt_ident_eqb (comp_id_of m)) (map fst cs)
                  = has_bucket (comp_id_of m) cs).
  { unfold has_bucket. clear. induction cs as [|[k d] cs IH]; simpl;
      [reflexivity | now rewrite IH]. }
  unfold note_id. rewrite Hnote.
  destruct (has_bucket (comp_id_of m) cs) eqn:Hhas.
  - split; [apply append_match_keys|].
    intros k. rewrite append_match_held by exact Hhas.
    now rewrite (Hsym k).
  - rewrite append_match_fresh by exact Hhas. split.
    + now rewrite map_app.
    + intros k. rewrite held_app. unfold held at 2. simpl.
      rewrite (Hsym k).
      destruct (opt_ident_eqb (comp_id_of m) k); lia.
Qed.

Lemma group_matches_steps (ms : list Match) (cs cs' : buckets) :
  group_matches iso_instant team_id cs ms = Some cs' ->
  map fst cs' = fold_left note_id (map comp_id_of ms) (map fst cs) /\
  forall k, held k cs' = (held k cs + matches_of k ms)%nat.
Proof.
  revert cs. induction ms as [|m ms IH]; simpl; intros cs Hg.
  - injection Hg as <-. split; [reflexivity|].
    intros k. unfold matches_of. simpl. lia.
  - destruct (group_match iso_instant team_id cs m) as [cs1|] eqn:H1;
      [|discriminate].
    destruct (group_match_step _ _ _ H1) as (Hk1 & Hh1).
    destruct (IH _ Hg) as (Hk & Hh).
    split; [now rewrite Hk, Hk1|].
    intros k. rewrite Hh, Hh1. unfold matches_of. simpl.
    destruct (opt_ident_eqb (comp_id_of m) k); simpl; lia.
Qed.

(** Grouping returns only when every kickoff time can be read. *)
Lemma group_matches_readable (ms : list Match) (cs cs' : buckets) :
  group_matches iso_instant team_id cs ms = Some cs' ->
  Forall (readable iso_instant) ms.
Proof.
  revert cs. induction ms as [|m ms IH]; simpl; intros cs Hg; [constructor|].
  destruct (group_match iso_instant team_id cs m) as [cs1|] eqn:H1;
    [|discriminate].
  constructor; [|now apply (IH cs1)].
  unfold group_match in H1. unfold readable.
  destruct (utcDate m) as [s|]; [|discriminate].
  destruct (iso_instant s) as [t|] eqn:Ht; [|discriminate].
  exists s, t. split; [reflexivity | exact Ht].
Qed.

(** The analysis of one bucket sorts its matches and fills in the fields
    from the two filters. *)
Lemma analyze_bucket_fields (d d' : CompData) (out out' : Lists) :
  analyze_bucket current_date d out = (d', out') ->
  cd_matches d <> [] ->
  let upcoming_matches := filter (is_upcoming current_date) (cd_matches d') in
  let recent_matches := filter (is_recent current_date) (cd_matches d') in
  cd_matches d' = Py.sort date_leb (cd_matches d) /\
  cd_next_match d' = hd_error upcoming_matches /\
  cd_last_match d' = last_of recent_matches /\
  (cd_status d' = "upcoming" ->
   cd_starts d' = option_map cm_date (hd_error upcoming_matches) /\
   upcoming_matches <> []) /\
  (cd_status d' = "completed" ->
   cd_ended d' = option_map cm_date (last_of recent_matches) /\
   recent_matches <> []) /\
  (cd_status d' = "active" ->
   cd_matches_played d' = Some (List.length recent_matches) /\
   cd_matches_remaining d' = Some (List.length upcoming_matches) /\
   upcoming_matches <> [] /\ recent_matches <> []).
Proof.
  unfold analyze_bucket. intros Ha Hne.
  destruct (cd_matches d) as [|m0 ms0] eqn:Hms; [congruence|].
  set (matches := Py.sort date_leb (m0 :: ms0)) in *.
  destruct (filter (is_upcoming current_date) matches) as [|u us] eqn:Hup;
    destruct (filter (is_recent current_date) matches) as [|r rs] eqn:Hrc;
    injection Ha as <- <-;
    cbn [cd_matches cd_status cd_next_match cd_last_match cd_starts cd_ended
         cd_matches_played cd_matches_remaining];
    cbv zeta; rewrite Hup, Hrc;
    repeat split; try reflexivity; try discriminate;
    intros Hst; discriminate Hst.
Qed.

Lemma analyze_buckets_fields (cs cs' : buckets) (out out' : Lists) :
  analyze_buckets current_date cs out = (cs', out') ->
  Forall2 (fun kv kv' =>
             fst kv' = fst kv /\
             exists o o', analyze_bucket current_date (snd kv) o
                          = (snd kv', o')) cs cs'.
Proof.
  revert cs' out out'. induction cs as [|[k d] cs IH]; intros cs' out out'.
  - simpl. intros [= <- <-]. constructor.
  - simpl.
    destruct (analyze_bucket current_date d out) as [d1 out1] eqn:H1.
    destruct (analyze_buckets current_date cs out1) as [cs2 out2] eqn:H2.
    intros [= <- <-]. constructor.
    + simpl. split; [reflexivity|]. eauto.
    + now apply (IH cs2 out1 out2).
Qed.

Lemma analyze_bucket_length (d d' : CompData) (out out' : Lists) :
  analyze_bucket current_date d out = (d', out') ->
  List.length (cd_matches d') = List.length (cd_matches d).
Proof.
  intros Ha. destruct (cd_matches d) as [|m0 ms0] eqn:Hms.
  - unfold analyze_bucket in Ha. rewrite Hms in Ha.
    injection Ha as <- <-. now rewrite Hms.
  - destruct (analyze_bucket_fields d d' out out' Ha) as (Hm & _);
      [congruence|].
    rewrite Hm, sort_length. now rewrite Hms.
Qed.

Lemma analyze_buckets_held (cs cs' : buckets) (out out' : Lists) (k : option ident) :
  analyze_buckets current_date cs out = (cs', out') ->
  held k cs' = held k cs.
Proof.
  intros Ha. apply analyze_buckets_fields in Ha.
  unfold held. induction Ha as [|[k1 d1] [k2 d2] cs cs' (Hk & o & o' & Hb) _ IH];
    simpl; [reflexivity|].
  simpl in Hk, Hb. subst k2. rewrite IH.
  now rewrite (analyze_bucket_length _ _ _ _ Hb).
Qed.

Lemma date_sorted (l : list CompMatch) :
  StronglySorted (fun x y => cm_date x <= cm_date y) (Py.sort date_leb l).
Proof.
  apply Sorted_StronglySorted; [intros x y z; lia|].
  apply Sorted_weaken with (R := fun x y => date_leb x y = true).
  - intros x y. unfold date_leb. apply Z.leb_le.
  - apply sort_Sorted. intros x y. unfold date_leb.
    rewrite Z.leb_gt, Z.leb_le. lia.
Qed.

(** The last element of a sorted list is the greatest. *)
Lemma last_of_greatest (l : list CompMatch) (x : CompMatch) :
  StronglySorted (fun a b => cm_date a <= cm_date b) l ->
  last_of l = Some x ->
  In x l /\ forall m, In m l -> cm_date m <= cm_date x.
Proof.
  unfold last_of. intros Hs Hl.
  destruct (rev l) as [|y r] eqn:Hr; [discriminate|]. injection Hl as ->.
  assert (Hl : l = rev r ++ [x]).
  { rewrite <- (rev_involutive l), Hr. reflexivity. }
  subst l. split; [apply in_or_app; right; now left|].
  intros m Hm. apply in_app_or in Hm as [Hm|[<-|[]]]; [|lia].
  apply (StronglySorted_app_cross (fun a b => cm_date a <= cm_date b)
           (rev r) [x] m x Hs Hm). now left.
Qed.



(** The analysed buckets, seen from the input: their keys are the distinct
    competition ids in order of first appearance, and each holds as many
    matches as the input has of its competition, in ascending date order. *)
Lemma analysed_buckets_shape (ms : list Match) (cs : buckets) (out : Lists) :
  analysed_buckets iso_instant current_date team_id ms = Some (cs, out) ->
  map fst cs = first_seen (map comp_id_of ms) /\
  NoDup (map fst cs) /\
  forall k d, In (k, d) cs ->
    List.length (cd_matches d) = matches_of k ms /\
    StronglySorted (fun x y => cm_date x <= cm_date y) (cd_matches d) /\
    exists d0 o o', cd_matches d0 <> [] /\
                    analyze_bucket current_date d0 o = (d, o').
Proof.
  unfold analysed_buckets. intros Ha.
  destruct (group_matches iso_instant team_id [] ms) as [cs0|] eqn:Hg;
    [|discriminate].
  injection Ha as Ha.
  destruct (group_matches_steps ms [] cs0 Hg) as (Hkeys & Hheld).
  destruct (group_matches_invariant iso_instant team_id ms [] cs0 Hg)
    as (Hnd0 & Hpop0); [constructor | constructor |].
  destruct (analyze_buckets_spec current_date cs0 cs _ out Hpop0 Ha)
    as (Hk & _).
  pose proof (analyze_buckets_fields cs0 cs _ out Ha) as Hf2.
  split; [rewrite Hk; exact Hkeys|].
  split; [rewrite Hk; exact Hnd0|].
  intros k d Hin.
  assert (Hnd : NoDup (map fst cs)) by (rewrite Hk; exact Hnd0).
  split.
  - rewrite <- (held_unique k d cs Hnd Hin).
    rewrite (analyze_buckets_held cs0 cs _ out k Ha), Hheld.
    unfold held. simpl. reflexivity.
  - assert (Hsrc : exists d0 o o', cd_matches d0 <> [] /\
                     analyze_bucket current_date d0 o = (d, o')).
    { clear - Hf2 Hin Hpop0. induction Hf2 as [|[k1 d1] [k2 d2] l l' Hx _ IH];
        [contradiction|].
      inversion Hpop0 as [|? ? Hp Hps]; subst.
      destruct Hin as [[= -> ->]|Hin]; [|now apply IH].
      destruct Hx as (_ & o & o' & Hb). simpl in Hb, Hp. eauto. }
    split; [|exact Hsrc].
    destruct Hsrc as (d0 & o & o' & Hne & Hb).
    destruct (analyze_bucket_fields d0 d o o' Hb Hne) as (Hm & _).
    rewrite Hm. apply date_sorted.
Qed.

End CompetitionsMore.

(** X7.  The analysis returns a result exactly when every match carries a
    kickoff time that can be read; one missing or unreadable [utcDate]
    makes the whole call fail. *)
Theorem analysis_returns_iff_readable
    (iso_instant : string -> option Z) (current_date team_id : Z)
    (ms : list Match) :
  (exists r,
      Competitions.analyze_team_competitions iso_instant current_date team_id ms
      = Some r)
  <-> Forall (LifecycleSpec.readable iso_instant) ms.
Proof.
  unfold Competitions.analyze_team_competitions, Competitions.analysed_buckets.
  split.
  - intros [r Hr].
    destruct (Competitions.group_matches iso_instant team_id [] ms)
      as [cs0|] eqn:Hg; [|discriminate].
    now apply (group_matches_readable iso_instant team_id ms [] cs0).
  - intros Hall.
    destruct (group_matches_returns iso_instant team_id ms [] Hall)
      as [cs0 Hg].
    rewrite Hg.
    destruct (Competitions.analyze_buckets current_date cs0
                (Competitions.mkLists [] [] [])) as [cs out].
    eexists. reflexivity.
Qed.

Lemma analysis_returns_iff_readable_witness :
  exists r,
    Competitions.analyze_team_competitions
      RefDates.iso_instant Samples.noon_march_10 66
      [Samples.league_played; Samples.postponed_match; Samples.league_to_come]
    = Some r.
Proof.
  apply (proj2 (analysis_returns_iff_readable
                  RefDates.iso_instant Samples.noon_march_10 66
                  [Samples.league_played; Samples.postponed_match;
                   Samples.league_to_come])).
  repeat constructor; eexists; eexists; split; reflexivity.
Defined.

(** X8.  There is one bucket per distinct competition id of the input, in
    order of first appearance; each bucket holds as many matches as the
    input has of that competition, in ascending order of kickoff; and
    [total_competitions] is the number of distinct ids. *)
Theorem buckets_follow_input
    (iso_instant : string -> option Z) (current_date team_id : Z)
    (ms : list Match) (cs : Competitions.buckets) (out : Competitions.Lists) :
  Competitions.analysed_buckets iso_instant current_date team_id ms
  = Some (cs, out) ->
  map fst cs = LifecycleSpec.first_seen (map LifecycleSpec.comp_id_of ms) /\
  NoDup (map fst cs) /\
  (forall k d, In (k, d) cs ->
     List.length (Competitions.cd_matches d) = LifecycleSpec.matches_of k ms /\
     StronglySorted
       (fun x y => Competitions.cm_date x <= Competitions.cm_date y)
       (Competitions.cd_matches d)) /\
  (forall r,
     Competitions.analyze_team_competitions iso_instant current_date team_id ms
     = Some r ->
     Competitions.total_competitions r
     = List.length
         (LifecycleSpec.first_seen (map LifecycleSpec.comp_id_of ms))).
Proof.
  intros Ha.
  destruct (analysed_buckets_shape iso_instant current_date team_id ms cs out Ha)
    as (Hkeys & Hnd & Hb).
  split; [exact Hkeys|]. split; [exact Hnd|]. split.
  - intros k d Hin. destruct (Hb k d Hin) as (Hl & Hs & _). auto.
  - intros r Hr. unfold Competitions.analyze_team_competitions in Hr.
    rewrite Ha in Hr. injection Hr as <-. simpl.
    now rewrite <- Hkeys, length_map.
Qed.

Lemma buckets_follow_input_witness :
  exists cs out,
    Competitions.analysed_buckets RefDates.iso_instant Samples.noon_march_10 66
      [Samples.league_played; Samples.postponed_match; Samples.league_to_come]
    = Some (cs, out) /\
    NoDup (map fst cs).
Proof.
  eexists. eexists. split; [reflexivity|].
  exact (proj1 (proj2 (buckets_follow_input
                         RefDates.iso_instant Samples.noon_march_10 66
                         [Samples.league_played; Samples.postponed_match;
                          Samples.league_to_come] _ _ eq_refl))).
Defined.



(** X10.  In each bucket the next match is the earliest upcoming match
    and the last match the latest recent one.  An upcoming competition
    starts at its next match's kickoff, which lies in the future; a
    completed one ended at its last match's kickoff, which does not; an
    active one has at least one match played and one remaining, together
    no more than the bucket holds. *)
Theorem bucket_milestones
    (iso_instant : string -> option Z) (current_date team_id : Z)
    (ms : list Match) (cs : Competitions.buckets) (out : Competitions.Lists)
    (k : option ident) (d : Competitions.CompData) :
  Competitions.analysed_buckets iso_instant current_date team_id ms
  = Some (cs, out) ->
  In (k, d) cs ->
  (forall n, Competitions.cd_next_match d = Some n ->
     In n (Competitions.cd_matches d) /\
     Competitions.is_upcoming current_date n = true /\
     forall m, In m (Competitions.cd_matches d) ->
               Competitions.is_upcoming current_date m = true ->
               Competitions.cm_date n <= Competitions.cm_date m) /\
  (forall l, Competitions.cd_last_match d = Some l ->
     In l (Competitions.cd_matches d) /\
     Competitions.is_recent current_date l = true /\
     forall m, In m (Competitions.cd_matches d) ->
               Competitions.is_recent current_date m = true ->
               Competitions.cm_date m <= Competitions.cm_date l) /\
  (Competitions.cd_status d = "upcoming" ->
   exists n, Competitions.cd_next_match d = Some n /\
             Competitions.cd_starts d = Some (Competitions.cm_date n) /\
             current_date < Competitions.cm_date n) /\
  (Competitions.cd_status d = "completed" ->
   exists l, Competitions.cd_last_match d = Some l /\
             Competitions.cd_ended d = Some (Competitions.cm_date l) /\
             Competitions.cm_date l <= current_date) /\
  (Competitions.cd_status d = "active" ->
   exists p q, Competitions.cd_matches_played d = Some p /\
               Competitions.cd_matches_remaining d = Some q /\
               (1 <= p)%nat /\ (1 <= q)%nat /\
               (p + q <= List.length (Competitions.cd_matches d))%nat).
Proof.
  intros Ha Hin.
  destruct (analysed_buckets_shape iso_instant current_date team_id ms cs out Ha)
    as (_ & _ & Hb).
  destruct (Hb k d Hin) as (_ & Hsorted & d0 & o & o' & Hne & Hbucket).
  destruct (analyze_bucket_fields current_date d0 d o o' Hbucket Hne)
    as (_ & Hnext & Hlast & Hup & Hcomp & Hact).
  set (ups := filter (Competitions.is_upcoming current_date)
                     (Competitions.cd_matches d)) in *.
  set (rcs := filter (Competitions.is_recent current_date)
                     (Competitions.cd_matches d)) in *.
  assert (Sups : StronglySorted
                   (fun x y => Competitions.cm_date x <= Competitions.cm_date y)
                   ups) by now apply StronglySorted_filter.
  assert (Srcs : StronglySorted
                   (fun x y => Competitions.cm_date x <= Competitions.cm_date y)
                   rcs) by now apply StronglySorted_filter.
  assert (Hfirst : forall n, hd_error ups = Some n ->
            In n (Competitions.cd_matches d) /\
            Competitions.is_upcoming current_date n = true /\
            forall m, In m (Competitions.cd_matches d) ->
                      Competitions.is_upcoming current_date m = true ->
                      Competitions.cm_date n <= Competitions.cm_date m).
  { intros n Hn. destruct ups as [|u us] eqn:Hups; [discriminate|].
    injection Hn as ->.
    assert (Hmem : In n ups) by (rewrite Hups; now left).
    apply filter_In in Hmem as [Hmem Hu]. split; [exact Hmem|].
    split; [exact Hu|]. intros m Hm Hmu.
    assert (Hm' : In m (n :: us))
      by (rewrite <- Hups; apply filter_In; auto).
    destruct Hm' as [<-|Hm']; [lia|].
    apply StronglySorted_inv in Sups as [_ Hall].
    rewrite Forall_forall in Hall. now apply Hall. }
  assert (Hfinal : forall l, Competitions.last_of rcs = Some l ->
            In l (Competitions.cd_matches d) /\
            Competitions.is_recent current_date l = true /\
            forall m, In m (Competitions.cd_matches d) ->
                      Competitions.is_recent current_date m = true ->
                      Competitions.cm_date m <= Competitions.cm_date l).
  { intros l Hl. destruct (last_of_greatest rcs l Srcs Hl) as [Hmem Hmax].
    apply filter_In in Hmem as [Hmem Hr]. split; [exact Hmem|].
    split; [exact Hr|]. intros m Hm Hmr. apply Hmax. apply filter_In. auto. }
  split; [intros n Hn; apply Hfirst; now rewrite <- Hnext|].
  split; [intros l Hl; apply Hfinal; now rewrite <- Hlast|].
  split; [|split].
  - intros Hst. destruct (Hup Hst) as (Hstarts & Hne').
    destruct (hd_error ups) as [n|] eqn:Hn;
      [|destruct ups; [congruence | discriminate]].
    exists n. split; [now rewrite Hnext|]. split; [exact Hstarts|].
    destruct (Hfirst n eq_refl) as (_ & Hu & _).
    unfold Competitions.is_upcoming in Hu.
    apply andb_true_iff in Hu as [Hu _]. now apply Z.ltb_lt.
  - intros Hst. destruct (Hcomp Hst) as (Hended & Hne').
    destruct (Competitions.last_of rcs) as [l|] eqn:Hl.
    + exists l. split; [now rewrite Hlast|]. split; [exact Hended|].
      destruct (Hfinal l eq_refl) as (_ & Hr & _).
      unfold Competitions.is_recent in Hr.
      apply andb_true_iff in Hr as [Hr _]. now apply Z.leb_le.
    + exfalso. unfold Competitions.last_of in Hl.
      destruct (rev rcs) eqn:Hrev; [|discriminate].
      apply (f_equal (@rev _)) in Hrev. rewrite rev_involutive in Hrev.
      simpl in Hrev. congruence.
  - intros Hst. destruct (Hact Hst) as (Hp & Hq & Hu & Hr).
    exists (List.length rcs), (List.length ups).
    split; [exact Hp|]. split; [exact Hq|].
    split; [destruct rcs; [congruence | simpl; lia]|].
    split; [destruct ups; [congruence | simpl; lia]|].
    rewrite Nat.add_comm. apply exclusive_filters_length.
    intros m Hm. unfold Competitions.is_upcoming in Hm.
    apply andb_true_iff in Hm as [Hm _]. apply Z.ltb_lt in Hm.
    unfold Competitions.is_recent.
    destruct (Z.leb_spec (Competitions.cm_date m) current_date); [lia|].
    reflexivity.
Qed.

Lemma bucket_milestones_witness :
  exists cs out k d,
    Competitions.analysed_buckets RefDates.iso_instant Samples.noon_march_10 66
      [Samples.league_played; Samples.postponed_match; Samples.league_to_come]
    = Some (cs, out) /\
    In (k, d) cs /\
    (Competitions.cd_status d = "active" ->
     exists p q, Competitions.cd_matches_played d = Some p /\
                 Competitions.cd_matches_remaining d = Some q /\
                 (1 <= p)%nat /\ (1 <= q)%nat /\
                 (p + q <= List.length (Competitions.cd_matches d))%nat).
Proof.
  eexists. eexists. eexists. eexists.
  split; [reflexivity|]. split; [left; reflexivity|].
  exact (proj2 (proj2 (proj2 (proj2
           (bucket_milestones RefDates.iso_instant Samples.noon_march_10 66
              [Samples.league_played; Samples.postponed_match;
               Samples.league_to_come] _ _ _ _ eq_refl
              (or_introl eq_refl)))))).
Defined.

(** ** Formation inference *)

Section FormationFacts.
Import Squad Formation SquadSpec.

(** The players filed under key [k]. *)
Let content (k : string) (positions : positions_dict) : list Player :=
  match find (fun kv => String.eqb k (fst kv)) positions with
  | Some kv => snd kv
  | None => []
  end.

Lemma content_add_player (k pos : string) (p : Player) (positions : positions_dict) :
  content k (add_player pos p positions)
  = content k positions ++ (if String.eqb pos k then [p] else []).
Proof.
  unfold content. induction positions as [|[k' ps] rest IH]; simpl.
  - destruct (String.eqb_spec k pos), (String.eqb_spec pos k); subst;
      try congruence; reflexivity.
  - destruct (String.eqb_spec pos k'); simpl;
      destruct (String.eqb_spec k k'); subst; simpl.
    + now rewrite String.eqb_refl.
    + destruct (String.eqb_spec k' k); [congruence|]. now rewrite app_nil_r.
    + destruct (String.eqb_spec pos k'); [congruence|]. now rewrite app_nil_r.
    + exact IH.
Qed.

Lemma add_player_keys (pos : string) (p : Player) (positions : positions_dict) :
  map fst (add_player pos p positions)
  = if existsb (String.eqb pos) (map fst positions)
    then map fst positions else map fst positions ++ [pos].
Proof.
  induction positions as [|[k' ps] rest IH]; simpl; [reflexivity|].
  destruct (String.eqb pos k'); simpl; [reflexivity|].
  rewrite IH. now destruct (existsb _ _).
Qed.

Lemma add_player_NoDup (pos : string) (p : Player) (positions : positions_dict) :
  NoDup (map fst positions) -> NoDup (map fst (add_player pos p positions)).
Proof.
  intros Hnd. rewrite add_player_keys.
  destruct (existsb (String.eqb pos) (map fst positions)) eqn:Hex;
    [exact Hnd|].
  apply NoDup_app; [exact Hnd | repeat constructor; intros [] |].
  intros k Hk [Heq|[]]. subst k.
  assert (Ht : existsb (String.eqb pos) (map fst positions) = true).
  { apply existsb_exists. exists pos. split; [exact Hk|].
    apply String.eqb_refl. }
  congruence.
Qed.

Lemma add_player_nonempty (pos : string) (p : Player) (positions : positions_dict) :
  Forall (fun kv => snd kv <> []) positions ->
  Forall (fun kv => snd kv <> []) (add_player pos p positions).
Proof.
  induction 1 as [|[k' ps] rest Hk Hrest IH]; simpl.
  - repeat constructor. discriminate.
  - destruct (String.eqb pos k'); constructor; auto. simpl.
    intros H. now apply app_eq_nil in H as [_ H].
Qed.

Lemma add_player_perm (pos : string) (p : Player) (positions : positions_dict) :
  Permutation (List.concat (map snd (add_player pos p positions)))
              (p :: List.concat (map snd positions)).
Proof.
  induction positions as [|[k' ps] rest IH]; simpl; [reflexivity|].
  destruct (String.eqb pos k'); simpl.
  - rewrite <- app_assoc. simpl.
    now rewrite <- Permutation_middle.
  - rewrite IH. now rewrite <- Permutation_middle.
Qed.

Lemma group_fold (squad : list Player) (acc : positions_dict) :
  let positions :=
    fold_left (fun positions player =>
                 add_player (raw_position player) player positions)
              squad acc in
  (NoDup (map fst acc) -> NoDup (map fst positions)) /\
  (Forall (fun kv => snd kv <> []) acc ->
   Forall (fun kv => snd kv <> []) positions) /\
  (forall k, content k positions = content k acc ++ holding k squad) /\
  Permutation (List.concat (map snd positions)) (List.concat (map snd acc) ++ squad).
Proof.
  revert acc. induction squad as [|p squad IH]; intros acc; cbv zeta.
  - simpl. split; [auto|]. split; [auto|].
    split; [intros k; unfold holding; simpl; now rewrite app_nil_r|].
    now rewrite app_nil_r.
  - cbn [fold_left]. cbv zeta in IH.
    destruct (IH (add_player (raw_position p) p acc)) as (Hnd & Hne & Hc & Hp).
    split; [intros H; apply Hnd; now apply add_player_NoDup|].
    split; [intros H; apply Hne; now apply add_player_nonempty|].
    split.
    + intros k. rewrite Hc, content_add_player. unfold holding. simpl.
      rewrite <- app_assoc. now destruct (String.eqb (raw_position p) k).
    + rewrite Hp, add_player_perm. simpl. now rewrite <- Permutation_middle.
Qed.

Lemma content_of_member (k : string) (ps : list Player) (positions : positions_dict) :
  NoDup (map fst positions) -> In (k, ps) positions -> content k positions = ps.
Proof.
  unfold content. induction positions as [|[k' ps'] rest IH]; simpl;
    intros Hnd Hin; [contradiction|].
  inversion Hnd as [|? ? Hnot Hnd']; subst.
  destruct Hin as [[= -> ->]|Hin]; [now rewrite String.eqb_refl|].
  destruct (String.eqb k k') eqn:E; [|now apply IH].
  apply String.eqb_eq in E. subst k'. exfalso. apply Hnot.
  now apply (in_map fst) in Hin.
Qed.

Lemma count_position_content (positions : positions_dict) (k : string) :
  count_position positions k = List.length (content k positions).
Proof.
  unfold content. induction positions as [|[k' ps] rest IH]; simpl;
    [reflexivity|].
  now destruct (String.eqb k k').
Qed.

(** The grouping, seen from the squad. *)
Lemma group_players_shape (squad : list Player) :
  NoDup (map fst (group_players squad)) /\
  (forall k ps, In (k, ps) (group_players squad) ->
                ps <> [] /\ ps = holding k squad) /\
  (forall k, count_position (group_players squad) k
             = List.length (holding k squad)) /\
  Permutation (List.concat (map snd (group_players squad))) squad.
Proof.
  destruct (group_fold squad []) as (Hnd & Hne & Hc & Hp).
  fold (group_players squad) in Hnd, Hne, Hc, Hp.
  specialize (Hnd (NoDup_nil _)). specialize (Hne (Forall_nil _)).
  split; [exact Hnd|]. split; [|split; [|exact Hp]].
  - intros k ps Hin. split.
    + rewrite Forall_forall in Hne. exact (Hne _ Hin).
    + rewrite <- (content_of_member k ps _ Hnd Hin). now rewrite Hc.
  - intros k. rewrite count_position_content, Hc. reflexivity.
Qed.

End FormationFacts.

(** X11.  [analyze_squad_formation] files every player under exactly one
    key, the raw position string: the keys are distinct, each group is
    non-empty and holds the players of that position in squad order, and
    the groups together are a rearrangement of the squad. *)
Theorem formation_positions_partition (squad : list Squad.Player) :
  let positions := Formation.positions (Formation.analyze_squad_formation squad) in
  NoDup (map fst positions) /\
  (forall k ps, In (k, ps) positions ->
                ps <> [] /\ ps = SquadSpec.holding k squad) /\
  Permutation (List.concat (map snd positions)) squad.
Proof.
  destruct squad as [|p squad].
  - simpl. split; [constructor|]. split; [intros k ps []|constructor].
  - destruct (group_players_shape (p :: squad)) as (Hnd & Hg & _ & Hp).
    cbv zeta. cbn [Formation.analyze_squad_formation Formation.positions].
    auto.
Qed.

Lemma formation_positions_partition_witness :
  Samples.squad = SquadSpec.holding "Midfield" Samples.squad.
Proof.
  pose proof (formation_positions_partition Samples.squad) as H.
  cbv zeta in H. destruct H as (_ & H & _).
  exact (proj2 (H "Midfield" Samples.squad (or_introl eq_refl))).
Defined.

(** X12.  The formation is "Unknown" exactly when fewer than ten players
    carry exactly one of the position strings "Defender", "Midfielder"
    or "Attacker" (so always for a squad under ten), and otherwise one
    of the four named formations.  The counts returned are the numbers
    of players whose position is exactly the counted string. *)
Theorem formation_unknown_iff_few_outfield (squad : list Squad.Player) :
  let fd := Formation.analyze_squad_formation squad in
  let number k := List.length (SquadSpec.holding k squad) in
  let outfield :=
    (number "Defender" + number "Midfielder" + number "Attacker")%nat in
  (Formation.formation fd = "Unknown" <-> (outfield < 10)%nat) /\
  ((10 <= outfield)%nat ->
     Formation.formation fd = "4-3-3" \/ Formation.formation fd = "4-4-2" \/
     Formation.formation fd = "3-5-2" \/ Formation.formation fd = "5-3-2") /\
  ((List.length squad < 10)%nat -> Formation.formation fd = "Unknown") /\
  (forall c, Formation.count fd = Some c ->
     Formation.goalkeepers c = number "Goalkeeper" /\
     Formation.defenders c = number "Defender" /\
     Formation.midfielders c = number "Midfielder" /\
     Formation.attackers c = number "Attacker").
Proof.
  intros fd number outfield.
  assert (Hform : Formation.formation fd
                  = Formation.suggest_formation
                      (number "Defender") (number "Midfielder")
                      (number "Attacker")).
  { unfold fd. destruct squad as [|p squad]; [reflexivity|].
    destruct (group_players_shape (p :: squad)) as (_ & _ & Hc & _).
    cbn [Formation.analyze_squad_formation Formation.formation].
    now rewrite !Hc. }
  assert (Hrule : (Formation.formation fd = "Unknown" <-> (outfield < 10)%nat)
                  /\ ((10 <= outfield)%nat ->
                      Formation.formation fd = "4-3-3" \/
                      Formation.formation fd = "4-4-2" \/
                      Formation.formation fd = "3-5-2" \/
                      Formation.formation fd = "5-3-2")).
  { rewrite Hform. unfold Formation.suggest_formation. fold outfield.
    destruct (Nat.leb_spec 10 outfield) as [Hge|Hlt].
    - split.
      + split; [|lia].
        destruct (_ && _ && _); [discriminate|].
        destruct (_ && _ && _); [discriminate|].
        destruct (_ && _ && _); [discriminate|].
        destruct (_ && _ && _); discriminate.
      + intros _.
        destruct (_ && _ && _); [auto|].
        destruct (_ && _ && _); [auto|].
        destruct (_ && _ && _); [auto|].
        destruct (_ && _ && _); auto.
    - split; [split; [intros _; exact Hlt | reflexivity] | lia]. }
  destruct Hrule as (Hiff & Hnamed).
  split; [exact Hiff|]. split; [exact Hnamed|]. split.
  - intros Hlen. apply Hiff.
    assert (Hsum : (outfield <= List.length squad)%nat).
    { unfold outfield, number, SquadSpec.holding. clear.
      induction squad as [|p squad IH]; simpl; [lia|].
      destruct (String.eqb_spec (SquadSpec.raw_position p) "Defender") as [E|E];
        [rewrite E; simpl; lia|].
      destruct (String.eqb_spec (SquadSpec.raw_position p) "Midfielder") as [E1|E1];
        [rewrite E1; simpl; lia|].
      destruct (String.eqb (SquadSpec.raw_position p) "Attacker"); simpl; lia. }
    lia.
  - intros c Hc. unfold fd in Hc. destruct squad as [|p squad];
      [discriminate|].
    destruct (group_players_shape (p :: squad)) as (_ & _ & Hcount & _).
    cbn [Formation.analyze_squad_formation Formation.count] in Hc.
    injection Hc as <-. cbn. unfold number. now rewrite !Hcount.
Qed.

Lemma formation_unknown_iff_few_outfield_witness :
  Formation.formation (Formation.analyze_squad_formation Samples.squad)
  = "Unknown".
Proof.
  pose proof (formation_unknown_iff_few_outfield Samples.squad) as H.
  cbv zeta in H. destruct H as (_ & _ & H & _).
  exact (H (proj1 (Nat.ltb_lt (List.length Samples.squad) 10) eq_refl)).
Defined.


(** ** Squad analytics: position groups, age groups, nationalities *)

Section SquadMoreFacts.
Import Squad SquadMore SquadSpec.

Lemma position_group_cases (pos : string) :
  position_group pos = "Goalkeepers" \/ position_group pos = "Defenders" \/
  position_group pos = "Midfielders" \/ position_group pos = "Attackers" \/
  position_group pos = "Other".
Proof.
  unfold position_group.
  destruct (Py.str_contains "Goalkeeper" pos); [auto|].
  destruct (Py.any_contained ["Back"; "Defence"] pos); [auto|].
  destruct (Py.any_contained ["Midfield"] pos); [auto|].
  destruct (Py.any_contained _ pos); auto 6.
Qed.

(** One player goes to the list of its group and to no other. *)
Lemma place_spec (groups : PositionGroups) (p : PlayerData) :
  Goalkeepers (place groups p)
  = Goalkeepers groups ++ filter (in_group "Goalkeepers") [p] /\
  Defenders (place groups p)
  = Defenders groups ++ filter (in_group "Defenders") [p] /\
  Midfielders (place groups p)
  = Midfielders groups ++ filter (in_group "Midfielders") [p] /\
  Attackers (place groups p)
  = Attackers groups ++ filter (in_group "Attackers") [p] /\
  Other (place groups p) = Other groups ++ filter (in_group "Other") [p].
Proof.
  unfold place, in_group. cbn [filter].
  destruct (position_group_cases (pd_position p)) as [H|[H|[H|[H|H]]]];
    rewrite H; cbn; rewrite ?app_nil_r; auto.
Qed.

Lemma place_fold (players : list PlayerData) (acc : PositionGroups) :
  let groups := fold_left place players acc in
  Goalkeepers groups
  = Goalkeepers acc ++ filter (in_group "Goalkeepers") players /\
  Defenders groups = Defenders acc ++ filter (in_group "Defenders") players /\
  Midfielders groups
  = Midfielders acc ++ filter (in_group "Midfielders") players /\
  Attackers groups = Attackers acc ++ filter (in_group "Attackers") players /\
  Other groups = Other acc ++ filter (in_group "Other") players.
Proof.
  revert acc. induction players as [|p players IH]; intros acc; cbv zeta.
  - simpl. rewrite !app_nil_r. auto.
  - cbn [fold_left]. cbv zeta in IH.
    destruct (IH (place acc p)) as (H1 & H2 & H3 & H4 & H5).
    destruct (place_spec acc p) as (P1 & P2 & P3 & P4 & P5).
    rewrite H1, H2, H3, H4, H5, P1, P2, P3, P4, P5.
    change (p :: players) with ([p] ++ players).
    rewrite !filter_app, !app_assoc. auto.
Qed.

(** The five groups share out any list of players. *)
Lemma five_groups_partition (players : list PlayerData) :
  Permutation
    (filter (in_group "Goalkeepers") players
     ++ filter (in_group "Defenders") players
     ++ filter (in_group "Midfielders") players
     ++ filter (in_group "Attackers") players
     ++ filter (in_group "Other") players)
    players.
Proof.
  induction players as [|p players IH]; [constructor|].
  cbn [filter].
  assert (Hs : forall g,
            in_group g p = String.eqb (position_group (pd_position p)) g)
    by reflexivity.
  rewrite !Hs.
  destruct (position_group_cases (pd_position p)) as [H|[H|[H|[H|H]]]];
    rewrite H;
    repeat match goal with
    | |- context [String.eqb ?a ?b] =>
        let v := eval vm_compute in (String.eqb a b) in
        change (String.eqb a b) with v
    end; cbv iota.
  - cbn [app]. now apply perm_skip.
  - cbn [app]. symmetry. apply Permutation_cons_app. now symmetry.
  - cbn [app]. rewrite !app_assoc. symmetry. apply Permutation_cons_app.
    rewrite <- !app_assoc. now symmetry.
  - cbn [app]. rewrite !app_assoc. symmetry. apply Permutation_cons_app.
    rewrite <- !app_assoc. now symmetry.
  - cbn [app]. rewrite !app_assoc. symmetry. apply Permutation_cons_app.
    rewrite <- !app_assoc. now symmetry.
Qed.

Lemma by_group_age_sorted (l : list PlayerData) :
  StronglySorted (fun x y => group_age_key x <= group_age_key y)
                 (Py.sort by_group_age l).
Proof.
  apply Sorted_StronglySorted; [intros x y z; lia|].
  apply Sorted_weaken with (R := fun x y => by_group_age x y = true).
  - intros x y. unfold by_group_age. apply Z.leb_le.
  - apply sort_Sorted. intros x y. unfold by_group_age.
    rewrite Z.leb_gt, Z.leb_le. lia.
Qed.

(** Ages. *)
Lemma experienced_ages (players : list PlayerData) :
  List.length (filter (fun a => 30 <=? a) (ages_of players))
  = List.length (filter is_experienced players).
Proof.
  unfold ages_of. induction players as [|p players IH]; [reflexivity|].
  cbn [flat_map filter]. unfold is_experienced at 1.
  destruct (pd_age p) as [a|]; [|exact IH].
  cbn [app filter]. destruct (30 <=? a); simpl; now rewrite IH.
Qed.

Lemma young_ages (players : list PlayerData) :
  (List.length (filter is_young players)
   <= List.length (filter (fun a => (a <? 20)%Z) (ages_of players))
      + List.length (filter (fun a => ((20 <=? a) && (a <=? 24))%Z)
                            (ages_of players)))%nat.
Proof.
  unfold ages_of. induction players as [|p players IH]; [simpl; lia|].
  cbn [flat_map filter]. unfold is_young at 1.
  destruct (pd_age p) as [a|]; [|exact IH].
  cbn [app filter].
  destruct (Z.ltb_spec a 23), (Z.ltb_spec a 20), (Z.leb_spec 20 a),
           (Z.leb_spec a 24); simpl; lia.
Qed.

Lemma ages_count (players : list PlayerData) :
  List.length (ages_of players) = List.length (filter has_age players).
Proof.
  unfold ages_of. induction players as [|p players IH]; [reflexivity|].
  cbn [flat_map filter]. unfold has_age at 1.
  destruct (pd_age p); simpl; now rewrite IH.
Qed.

Lemma fold_min_spec (l : list Z) (a : Z) :
  fold_left Z.min l a <= a /\
  (forall x, In x l -> fold_left Z.min l a <= x) /\
  (fold_left Z.min l a = a \/ In (fold_left Z.min l a) l).
Proof.
  revert a. induction l as [|y l IH]; intros a; simpl.
  - split; [lia|]. split; [intros x []|now left].
  - destruct (IH (Z.min a y)) as (H1 & H2 & H3).
    split; [lia|]. split.
    + intros x [<-|Hx]; [lia | now apply H2].
    + destruct H3 as [H3|H3]; [|right; now right].
      destruct (Z.min_spec a y) as [[_ E]|[_ E]]; rewrite E in *;
        [now left | right; left; congruence].
Qed.

Lemma fold_max_spec (l : list Z) (a : Z) :
  a <= fold_left Z.max l a /\
  (forall x, In x l -> x <= fold_left Z.max l a) /\
  (fold_left Z.max l a = a \/ In (fold_left Z.max l a) l).
Proof.
  revert a. induction l as [|y l IH]; intros a; simpl.
  - split; [lia|]. split; [intros x []|now left].
  - destruct (IH (Z.max a y)) as (H1 & H2 & H3).
    split; [lia|]. split.
    + intros x [<-|Hx]; [lia | now apply H2].
    + destruct H3 as [H3|H3]; [|right; now right].
      destruct (Z.max_spec a y) as [[_ E]|[_ E]]; rewrite E in *;
        [right; left; congruence | now left].
Qed.

(** Nationalities. *)
Let tally (n : string) (counts : list (string * nat)) : nat :=
  match find (fun kv => String.eqb n (fst kv)) counts with
  | Some kv => snd kv
  | None => 0%nat
  end.

Lemma tally_bump (k n : string) (counts : list (string * nat)) :
  tally k (bump n counts)
  = (tally k counts + (if String.eqb n k then 1 else 0))%nat.
Proof.
  unfold tally. induction counts as [|[k' c] rest IH]; simpl.
  - destruct (String.eqb_spec k n), (String.eqb_spec n k); subst;
      try congruence; reflexivity.
  - destruct (String.eqb_spec n k'); simpl;
      destruct (String.eqb_spec k k'); subst; simpl.
    + rewrite String.eqb_refl. lia.
    + destruct (String.eqb_spec k' k); [congruence | lia].
    + destruct (String.eqb_spec n k'); [congruence | lia].
    + exact IH.
Qed.

Lemma bump_keys (n : string) (counts : list (string * nat)) :
  map fst (bump n counts)
  = if existsb (String.eqb n) (map fst counts)
    then map fst counts else map fst counts ++ [n].
Proof.
  induction counts as [|[k' c] rest IH]; simpl; [reflexivity|].
  destruct (String.eqb n k'); simpl; [reflexivity|].
  rewrite IH. now destruct (existsb _ _).
Qed.

Lemma bump_NoDup (n : string) (counts : list (string * nat)) :
  NoDup (map fst counts) -> NoDup (map fst (bump n counts)).
Proof.
  intros Hnd. rewrite bump_keys.
  destruct (existsb (String.eqb n) (map fst counts)) eqn:Hex; [exact Hnd|].
  apply NoDup_app; [exact Hnd | repeat constructor; intros [] |].
  intros k Hk [Heq|[]]. subst k.
  assert (Ht : existsb (String.eqb n) (map fst counts) = true).
  { apply existsb_exists. exists n. split; [exact Hk|]. apply String.eqb_refl. }
  congruence.
Qed.

Lemma bump_keys_In (n k : string) (counts : list (string * nat)) :
  In k (map fst (bump n counts)) <-> k = n \/ In k (map fst counts).
Proof.
  rewrite bump_keys.
  destruct (existsb (String.eqb n) (map fst counts)) eqn:Hex.
  - apply existsb_exists in Hex as (z & Hz & Heq).
    apply String.eqb_eq in Heq. subst z. split; [auto|].
    intros [->|H]; auto.
  - rewrite in_app_iff. simpl. split; [intros [H|[H|[]]]; auto|].
    intros [->|H]; auto.
Qed.

Lemma bump_sum (n : string) (counts : list (string * nat)) :
  list_sum (map snd (bump n counts)) = S (list_sum (map snd counts)).
Proof.
  induction counts as [|[k' c] rest IH]; simpl; [reflexivity|].
  destruct (String.eqb n k'); simpl; [reflexivity|]. rewrite IH. lia.
Qed.

Lemma counts_fold (players : list PlayerData) (acc : list (string * nat)) :
  let counts :=
    fold_left
      (fun counts player =>
         if String.eqb (pd_nationality player) "Unknown" then counts
         else bump (pd_nationality player) counts)
      players acc in
  (NoDup (map fst acc) -> NoDup (map fst counts)) /\
  (forall k, In k (map fst counts) ->
             In k (map fst acc) \/
             (k <> "Unknown" /\ exists p, In p players /\ pd_nationality p = k)) /\
  (forall k, k <> "Unknown" ->
             tally k counts
             = (tally k acc + List.length (filter (of_nation k) players))%nat) /\
  list_sum (map snd counts)
  = (list_sum (map snd acc) + List.length (filter nation_known players))%nat.
Proof.
  revert acc. induction players as [|p players IH]; intros acc; cbv zeta.
  - simpl. split; [auto|]. split; [auto|]. split; [intros; lia | lia].
  - cbn [fold_left]. cbv zeta in IH. unfold nation_known, of_nation in *.
    cbn [filter].
    destruct (String.eqb_spec (pd_nationality p) "Unknown") as [Hu|Hk].
    + destruct (IH acc) as (Hnd & Hin & Ht & Hs).
      split; [exact Hnd|]. split; [|split].
      * intros k Hk'. destruct (Hin k Hk') as [H|(Hne & q & Hq & Hn)];
          [now left|]. right. split; [exact Hne|]. exists q. simpl. auto.
      * intros k Hne. rewrite Ht by exact Hne.
        destruct (String.eqb_spec (pd_nationality p) k); [congruence|].
        reflexivity.
      * simpl. exact Hs.
    + destruct (IH (bump (pd_nationality p) acc)) as (Hnd & Hin & Ht & Hs).
      split; [intros H; apply Hnd; now apply bump_NoDup|]. split; [|split].
      * intros k Hk'. destruct (Hin k Hk') as [H|(Hne & q & Hq & Hn)].
        -- apply bump_keys_In in H as [->|H]; [|now left].
           right. split; [exact Hk|]. exists p. simpl. auto.
        -- right. split; [exact Hne|]. exists q. simpl. auto.
      * intros k Hne. rewrite Ht by exact Hne. rewrite tally_bump.
        destruct (String.eqb (pd_nationality p) k); simpl; lia.
      * rewrite Hs, bump_sum. simpl. lia.
Qed.

Lemma tally_of_member (k : string) (c : nat) (counts : list (string * nat)) :
  NoDup (map fst counts) -> In (k, c) counts -> tally k counts = c.
Proof.
  unfold tally. induction counts as [|[k' c'] rest IH]; simpl;
    intros Hnd Hin; [contradiction|].
  inversion Hnd as [|? ? Hnot Hnd']; subst.
  destruct Hin as [[= -> ->]|Hin]; [now rewrite String.eqb_refl|].
  destruct (String.eqb_spec k k'); [|now apply IH].
  subst k'. exfalso. apply Hnot. now apply (in_map fst) in Hin.
Qed.

(** The tally of nationalities, seen from the players. *)
Lemma nationality_counts_shape (players : list PlayerData) :
  NoDup (map fst (nationality_counts players)) /\
  ~ In "Unknown" (map fst (nationality_counts players)) /\
  (forall n c, In (n, c) (nationality_counts players) ->
               c = List.length (filter (of_nation n) players)) /\
  list_sum (map snd (nationality_counts players))
  = List.length (filter nation_known players).
Proof.
  destruct (counts_fold players []) as (Hnd & Hin & Ht & Hs).
  fold (nationality_counts players) in Hnd, Hin, Ht, Hs.
  specialize (Hnd (NoDup_nil _)).
  assert (Hno : ~ In "Unknown" (map fst (nationality_counts players))).
  { intros H. destruct (Hin _ H) as [[]|(Hne & _)]. congruence. }
  split; [exact Hnd|]. split; [exact Hno|]. split; [|exact Hs].
  intros n c Hmem.
  assert (Hn : n <> "Unknown").
  { intros ->. apply Hno. now apply (in_map fst) in Hmem. }
  rewrite <- (tally_of_member n c _ Hnd Hmem). rewrite (Ht n Hn).
  reflexivity.
Qed.

Lemma by_count_desc_sorted (l : list (string * nat)) :
  StronglySorted (fun x y => (snd y <= snd x)%nat) (Py.sort by_count_desc l).
Proof.
  apply Sorted_StronglySorted; [intros x y z; lia|].
  apply Sorted_weaken with (R := fun x y => by_count_desc x y = true).
  - intros x y. unfold by_count_desc. apply Nat.leb_le.
  - apply sort_Sorted. intros x y. unfold by_count_desc.
    rewrite Nat.leb_gt, Nat.leb_le. lia.
Qed.

End SquadMoreFacts.

Lemma nationality_keys_present (players : list Squad.PlayerData) (k : string) :
  In k (map fst (SquadMore.nationality_counts players)) ->
  exists p, In p players /\ Squad.pd_nationality p = k.
Proof.
  intros Hk. destruct (counts_fold players []) as (_ & Hin & _).
  fold (SquadMore.nationality_counts players) in Hin.
  destruct (Hin k Hk) as [[]|(_ & p & Hp & Hn)]. eauto.
Qed.

(** X13.  Every player is filed in exactly one of the five position groups,
    the one its position string selects; each group lists its players in
    ascending order of age, players without an age counting as 999. *)
Theorem position_groups_partition (players : list Squad.PlayerData) :
  let g := SquadMore.full_squad_by_position players in
  let sorted :=
    StronglySorted
      (fun x y => SquadMore.group_age_key x <= SquadMore.group_age_key y) in
  Permutation (SquadMore.Goalkeepers g)
              (filter (SquadSpec.in_group "Goalkeepers") players) /\
  Permutation (SquadMore.Defenders g)
              (filter (SquadSpec.in_group "Defenders") players) /\
  Permutation (SquadMore.Midfielders g)
              (filter (SquadSpec.in_group "Midfielders") players) /\
  Permutation (SquadMore.Attackers g)
              (filter (SquadSpec.in_group "Attackers") players) /\
  Permutation (SquadMore.Other g)
              (filter (SquadSpec.in_group "Other") players) /\
  Permutation (SquadMore.Goalkeepers g ++ SquadMore.Defenders g
               ++ SquadMore.Midfielders g ++ SquadMore.Attackers g
               ++ SquadMore.Other g) players /\
  sorted (SquadMore.Goalkeepers g) /\ sorted (SquadMore.Defenders g) /\
  sorted (SquadMore.Midfielders g) /\ sorted (SquadMore.Attackers g) /\
  sorted (SquadMore.Other g).
Proof.
  intros g sorted.
  destruct (place_fold players (SquadMore.mkPositionGroups [] [] [] [] []))
    as (H1 & H2 & H3 & H4 & H5).
  cbn [SquadMore.Goalkeepers SquadMore.Defenders SquadMore.Midfielders
       SquadMore.Attackers SquadMore.Other app] in H1, H2, H3, H4, H5.
  unfold g, SquadMore.full_squad_by_position.
  cbn [SquadMore.Goalkeepers SquadMore.Defenders SquadMore.Midfielders
       SquadMore.Attackers SquadMore.Other].
  rewrite H1, H2, H3, H4, H5.
  assert (P : forall l, Permutation (Py.sort SquadMore.by_group_age l) l)
    by (intros l; symmetry; apply sort_perm).
  split; [apply P|]. split; [apply P|]. split; [apply P|].
  split; [apply P|]. split; [apply P|].
  split; [rewrite !P; apply five_groups_partition|].
  unfold sorted. repeat split; apply by_group_age_sorted.
Qed.

(** X14.  The four age bands share out the players that have an age; the
    youngest and oldest ages bound every age; the experienced list holds
    the 30-plus band up to its cap of eight, and the young talents never
    outnumber the two bands below 25. *)
Theorem age_bands_partition
    (strptime_ymd : string -> option Squad.Date) (today : Squad.Date)
    (squad : list Squad.Player) :
  let players := Squad.squad_with_ages strptime_ymd today squad in
  let ages := SquadMore.ages_of players in
  let bands := SquadMore.age_groups ages in
  let r := Squad.get_top_performers strptime_ymd today squad in
  (SquadMore.under_20 bands + SquadMore.age_20_24 bands
   + SquadMore.age_25_29 bands + SquadMore.age_30_plus bands
   = List.length ages)%nat /\
  List.length ages
  = List.length (Squad.players_with_ages strptime_ymd today squad) /\
  (forall a, In a ages ->
             SquadMore.youngest_age ages <= a <= SquadMore.oldest_age ages) /\
  List.length (Squad.experienced_players r)
  = Nat.min 8 (SquadMore.age_30_plus bands) /\
  (List.length (Squad.young_talents r)
   <= SquadMore.under_20 bands + SquadMore.age_20_24 bands)%nat.
Proof.
  intros players ages bands r.
  destruct (get_top_performers_closed strptime_ymd today squad) as [Hy He].
  fold r in Hy, He. fold players in Hy, He.
  split.
  { unfold bands, SquadMore.age_groups.
    cbn [SquadMore.under_20 SquadMore.age_20_24 SquadMore.age_25_29
         SquadMore.age_30_plus].
    clear. induction ages as [|a ages IH]; [reflexivity|]. cbn [filter].
    destruct (Z.ltb_spec a 20), (Z.leb_spec 20 a), (Z.leb_spec a 24),
             (Z.leb_spec 25 a), (Z.leb_spec a 29), (Z.leb_spec 30 a);
      try lia; cbn [andb List.length]; lia. }
  split; [apply ages_count|].
  split.
  { intros a Ha. unfold SquadMore.youngest_age, SquadMore.oldest_age.
    destruct ages as [|a0 rest]; [contradiction|].
    destruct (fold_min_spec rest a0) as (M1 & M2 & _).
    destruct (fold_max_spec rest a0) as (X1 & X2 & _).
    destruct Ha as [<-|Ha]; [lia|].
    specialize (M2 a Ha). specialize (X2 a Ha). lia. }
  split.
  { rewrite He, length_firstn, sort_length.
    unfold bands, SquadMore.age_groups. cbn [SquadMore.age_30_plus].
    unfold ages. now rewrite experienced_ages. }
  rewrite Hy, length_firstn. etransitivity; [apply Nat.le_min_r|].
  rewrite sort_length. unfold bands, SquadMore.age_groups.
  cbn [SquadMore.under_20 SquadMore.age_20_24]. apply young_ages.
Qed.

Lemma age_bands_partition_witness :
  SquadMore.youngest_age
    (SquadMore.ages_of
       (Squad.squad_with_ages RefDates.strptime_ymd Samples.squad_day
          Samples.squad))
  <= 30.
Proof.
  pose proof (age_bands_partition RefDates.strptime_ymd Samples.squad_day
                Samples.squad) as H.
  cbv zeta in H. destruct H as (_ & _ & H & _).
  refine (proj1 (H 30 _)). right. right. left. reflexivity.
Defined.

(** X15.  The nationality tally has one entry per known nationality and
    none for "Unknown"; each entry counts the players of that
    nationality, and the entries add up to the number of players with a
    known nationality.  The sorted breakdown is a rearrangement of the
    tally, and the top nationality has the highest count, at most the
    squad size. *)
Theorem nationality_breakdown (players : list Squad.PlayerData) :
  let counts := SquadMore.nationality_counts players in
  NoDup (map fst counts) /\
  ~ In "Unknown" (map fst counts) /\
  (forall n c, In (n, c) counts ->
     (1 <= c)%nat /\
     c = List.length (filter (SquadSpec.of_nation n) players)) /\
  list_sum (map snd counts)
  = List.length (filter SquadSpec.nation_known players) /\
  Permutation (SquadMore.sorted_nationalities players) counts /\
  (forall n c, In (n, c) counts ->
     (c <= snd (SquadMore.top_nationality players))%nat) /\
  (snd (SquadMore.top_nationality players) <= List.length players)%nat.
Proof.
  intros counts.
  destruct (nationality_counts_shape players) as (Hnd & Hno & Hc & Hs).
  fold counts in Hnd, Hno, Hc, Hs.
  assert (Hperm : Permutation (SquadMore.sorted_nationalities players) counts)
    by (symmetry; apply sort_perm).
  assert (Hcount : forall n c, In (n, c) counts ->
            (1 <= c)%nat /\
            c = List.length (filter (SquadSpec.of_nation n) players)).
  { intros n c Hin. split; [|now apply Hc].
    rewrite (Hc n c Hin).
    destruct (nationality_keys_present players n) as (p & Hp & Hn).
    { now apply (in_map fst) in Hin. }
    assert (Hmem : In p (filter (SquadSpec.of_nation n) players)).
    { apply filter_In. split; [exact Hp|]. unfold SquadSpec.of_nation.
      rewrite Hn. apply String.eqb_refl. }
    destruct (filter (SquadSpec.of_nation n) players) as [|x l];
      [destruct Hmem | simpl; lia]. }
  split; [exact Hnd|]. split; [exact Hno|]. split; [exact Hcount|].
  split; [exact Hs|]. split; [exact Hperm|].
  pose proof (by_count_desc_sorted counts) as Hsorted.
  unfold SquadMore.top_nationality.
  unfold SquadMore.sorted_nationalities in *. fold counts in Hperm |- *.
  destruct (Py.sort SquadMore.by_count_desc counts) as [|[n0 c0] rest] eqn:Hsn.
  - split; [|simpl; lia]. intros n c Hin.
    apply (Permutation_in _ (Permutation_sym Hperm)) in Hin. contradiction.
  - split.
    + intros n c Hin.
      apply (Permutation_in _ (Permutation_sym Hperm)) in Hin.
      apply StronglySorted_inv in Hsorted as [_ Hall].
      rewrite Forall_forall in Hall.
      destruct Hin as [[= -> ->]|Hin]; [simpl; lia|].
      exact (Hall _ Hin).
    + simpl. assert (Hin0 : In (n0, c0) counts).
      { apply (Permutation_in _ Hperm). now left. }
      rewrite (Hc n0 c0 Hin0). apply filter_length_le.
Qed.

Lemma nationality_breakdown_witness :
  4%nat
  = List.length (filter (SquadSpec.of_nation "England")
                   MoreSamples.squad_data).
Proof.
  pose proof (nationality_breakdown MoreSamples.squad_data) as H.
  cbv zeta in H. destruct H as (_ & _ & H & _).
  exact (proj2 (H "England" 4%nat (or_introl eq_refl))).
Defined.

(** X16.  [calculate_age] computes the age that [get_top_performers]
    stores, and that age counts whole years: the birthday reached that many
    years on lies on or before today, the next one after today. *)
Theorem calculate_age_counts_birthdays
    (strptime_ymd : string -> option Squad.Date) (today : Squad.Date) :
  (forall p,
      Squad.player_age strptime_ymd today p
      = SquadMore.calculate_age strptime_ymd today (Squad.dateOfBirth p)) /\
  (forall date_of_birth n,
      SquadMore.calculate_age strptime_ymd today date_of_birth = Some n ->
      exists s birth_date,
        date_of_birth = Some s /\ s <> "" /\
        strptime_ymd s = Some birth_date /\
        SquadSpec.on_or_before (SquadSpec.anniversary n birth_date) today /\
        ~ SquadSpec.on_or_before
            (SquadSpec.anniversary (n + 1) birth_date) today).
Proof.
  split; [reflexivity|].
  intros dob n Hage. unfold SquadMore.calculate_age in Hage.
  destruct dob as [s|]; [|discriminate].
  destruct s as [|c s']; [discriminate|].
  destruct (strptime_ymd (String c s')) as [b|] eqn:Hb; [|discriminate].
  injection Hage as <-. exists (String c s'), b.
  split; [reflexivity|]. split; [discriminate|]. split; [exact Hb|].
  unfold SquadSpec.on_or_before, SquadSpec.anniversary, Squad.age_on,
    Squad.birthday_ahead. simpl.
  destruct (Z.ltb_spec (Squad.month today) (Squad.month b));
    destruct (Z.eqb_spec (Squad.month today) (Squad.month b));
    destruct (Z.ltb_spec (Squad.day today) (Squad.day b)); simpl; lia.
Qed.

Lemma calculate_age_counts_birthdays_witness :
  SquadSpec.on_or_before
    (SquadSpec.anniversary 23 (Squad.mkDate 2002 3 10)) Samples.squad_day.
Proof.
  destruct (proj2 (calculate_age_counts_birthdays
                     RefDates.strptime_ymd Samples.squad_day)
              (Some "2002-03-10") 23 eq_refl)
    as (s & b & Hs & _ & Hb & Hon & _).
  injection Hs as <-. vm_compute in Hb. injection Hb as <-. exact Hon.
Defined.

(** ** The matches-today response: stability, counts, consistency *)

Section StableSortFacts.
Context {A : Type} (leb : A -> A -> bool) (P : A -> bool).

(** [P] picks out elements that the order does not tell apart. *)
Hypothesis tied : forall x y, P x = true -> P y = true -> leb x y = true.

Lemma insert_filter (x : A) (l : list A) :
  filter P (Py.insert leb x l) = filter P (x :: l).
Proof.
  induction l as [|y l IH]; [reflexivity|]. cbn [Py.insert].
  destruct (leb x y) eqn:Hxy; [reflexivity|].
  cbn [filter] in *. rewrite IH.
  destruct (P x) eqn:Hx, (P y) eqn:Hy; try reflexivity.
  rewrite (tied x y Hx Hy) in Hxy. discriminate.
Qed.

(** The sort is stable: elements that tie keep their input order. *)
Lemma sort_filter (l : list A) : filter P (Py.sort leb l) = filter P l.
Proof.
  induction l as [|x l IH]; [reflexivity|]. cbn [Py.sort].
  rewrite insert_filter. cbn [filter]. now rewrite IH.
Qed.

End StableSortFacts.

Lemma filter_or_length {A : Type} (f g : A -> bool) (l : list A) :
  (forall x, f x = true -> g x = false) ->
  (List.length (filter f l) + List.length (filter g l)
   = List.length (filter (fun x => f x || g x) l))%nat.
Proof.
  intros Hex. induction l as [|x l IH]; [reflexivity|]. cbn [filter].
  destruct (f x) eqn:Hf; [rewrite (Hex x Hf)|destruct (g x)]; simpl; lia.
Qed.

Lemma importance_bounds (m : Match) :
  8 <= Importance.calculate_match_importance m <= 100.
Proof.
  pose proof (competition_points_bounds m).
  pose proof (club_points_bounds m).
  pose proof (status_points_bounds m).
  pose proof (stage_points_bounds m).
  unfold Importance.calculate_match_importance. lia.
Qed.

(** X17.  The sort is stable: among matches that tie on importance, days
    from today and kickoff string, the returned list keeps the order of
    today's matches followed by the future matches. *)
Theorem response_order_is_stable
    (iso_date : string -> option Z) (today : Z) (all_matches : list Match)
    (k : Z * Z * string) :
  let r := Classifier.get_matches_today iso_date today all_matches in
  filter (ResponseSpec.has_key k) (Classifier.matches r)
  = filter (ResponseSpec.has_key k)
           (Classifier.today_matches r ++ Classifier.future_matches r).
Proof.
  intros r.
  destruct (get_matches_today_closed iso_date today all_matches)
    as (_ & _ & Hm & _).
  fold r in Hm. rewrite Hm. apply sort_filter.
  intros x y Hx Hy. unfold ResponseSpec.has_key in Hx, Hy.
  unfold Classifier.match_leb.
  destruct k as [[a b] c].
  destruct (Classifier.sort_key x) as [[ax bx] cx].
  destruct (Classifier.sort_key y) as [[ay by'] cy].
  apply andb_true_iff in Hx as [Hx Hcx]. apply andb_true_iff in Hx as [Hax Hbx].
  apply andb_true_iff in Hy as [Hy Hcy]. apply andb_true_iff in Hy as [Hay Hby].
  apply Z.eqb_eq in Hax, Hbx, Hay, Hby. apply String.eqb_eq in Hcx, Hcy.
  subst. unfold Classifier.key_leb. rewrite !Z.ltb_irrefl.
  unfold Py.str_leb. now destruct (String.leb_total cy cy) as [-> | ->].
Qed.

(** X18.  The total and [total_unique] both equal the number of input
    records dated today or later, and with fewer than six of them the
    featured list is the whole list.  Every returned match stems from an
    input record, has a non-negative [days_from_today] that is 0 exactly
    for today's matches, and carries the importance (between 8 and 100),
    TV, attendance and rivalry values the scorer gives its record. *)
Theorem response_counts_and_labels
    (iso_date : string -> option Z) (today : Z) (all_matches : list Match) :
  let r := Classifier.get_matches_today iso_date today all_matches in
  Classifier.total_matches r
  = List.length (filter (ResponseSpec.kept iso_date today) all_matches) /\
  Classifier.total_unique r = Classifier.total_matches r /\
  Classifier.total_matches r = List.length (Classifier.matches r) /\
  ((Classifier.total_matches r < 6)%nat ->
   Classifier.featured_matches r = Classifier.matches r) /\
  (forall e,
      In e (Classifier.matches r) ->
      let info := Classifier.enhanced_info e in
      In (Classifier.base e) all_matches /\
      0 <= Classifier.days_from_today info /\
      (Classifier.days_from_today info = 0
       <-> In e (Classifier.today_matches r)) /\
      Classifier.importance_score info
      = Importance.calculate_match_importance (Classifier.base e) /\
      8 <= Classifier.importance_score info <= 100 /\
      Classifier.tv_coverage info
      = Importance.determine_tv_coverage (Classifier.base e) /\
      Classifier.attendance_estimate info
      = Importance.estimate_attendance (Classifier.base e) /\
      Classifier.rivalry_factor info
      = Importance.check_rivalry_factor (Classifier.base e)).
Proof.
  intros r.
  destruct (get_matches_today_closed iso_date today all_matches)
    as (Ht & Hf & Hm & Hfeat & _ & Htot & Huni).
  fold r in Ht, Hf, Hm, Hfeat, Htot, Huni.
  pose proof (today_matches_members iso_date today all_matches) as Htoday.
  pose proof (future_matches_members iso_date today all_matches) as Hfuture.
  fold r in Htoday, Hfuture.
  split.
  { rewrite Htot, Hm, sort_length, length_app, Ht, Hf.
    rewrite process_matches_partition. cbn [fst snd].
    rewrite !length_map.
    rewrite (filter_or_length (ClassifierSpec.on_day iso_date today)
                              (ClassifierSpec.after_day iso_date today)).
    - f_equal. apply filter_ext. intros m.
      unfold ClassifierSpec.on_day, ClassifierSpec.after_day,
        ResponseSpec.kept.
      destruct (Classifier.derive_match_date iso_date m) as [d|];
        [|reflexivity].
      destruct (Z.eqb_spec d today), (Z.ltb_spec today d),
               (Z.leb_spec today d); try lia; reflexivity.
    - intros m. unfold ClassifierSpec.on_day, ClassifierSpec.after_day.
      destruct (Classifier.derive_match_date iso_date m) as [d|];
        [|discriminate].
      intros Hd. apply Z.eqb_eq in Hd. subst d. apply Z.ltb_irrefl. }
  split; [now rewrite Huni, Htot|]. split; [exact Htot|]. split.
  { intros Hlt. rewrite Hfeat. apply firstn_all2. rewrite <- Htot. lia. }
  intros e He info.
  assert (Hin : In e (Classifier.today_matches r ++ Classifier.future_matches r))
    by (rewrite Hm in He; now apply sort_In in He).
  assert (Hcases :
            (In e (Classifier.today_matches r) /\
             exists m, In m all_matches /\ e = Classifier.enhance today m today)
            \/
            (exists m d, In m all_matches /\ today < d /\
                         e = Classifier.enhance today m d)).
  { apply in_app_or in Hin as [Hi|Hi].
    - left. split; [exact Hi|].
      destruct (Htoday e Hi) as (m & Hm' & _ & He'). eauto.
    - right. destruct (Hfuture e Hi) as (m & d & Hm' & _ & Hlt & He'). eauto. }
  destruct Hcases as [(Hi & m & Hm' & ->)|(m & d & Hm' & Hlt & ->)];
    unfold info; cbn [Classifier.enhance Classifier.base
                      Classifier.enhanced_info Classifier.days_from_today
                      Classifier.importance_score Classifier.tv_coverage
                      Classifier.attendance_estimate Classifier.rivalry_factor];
    pose proof (importance_bounds m).
  - repeat split; auto; try lia.
  - repeat split; auto; try lia.
    intros Hi. destruct (Htoday _ Hi) as (m' & _ & _ & He').
    apply (f_equal (fun x => Classifier.days_from_today
                               (Classifier.enhanced_info x))) in He'.
    simpl in He'. lia.
Qed.

Lemma response_counts_and_labels_witness :
  Classifier.featured_matches
    (Classifier.get_matches_today RefDates.iso_date Samples.march_10
       MoreSamples.two_days)
  = Classifier.matches
      (Classifier.get_matches_today RefDates.iso_date Samples.march_10
         MoreSamples.two_days).
Proof.
  pose proof (response_counts_and_labels RefDates.iso_date Samples.march_10
                MoreSamples.two_days) as H.
  cbv zeta in H. destruct H as (_ & _ & _ & H & _).
  apply H. vm_compute. lia.
Defined.

(** X19.  The importance of a match is never below 8.  The TV label is one
    of four: the league-based label "League Broadcasting" is never
    returned, and "Streaming/Regional" is the label exactly when the
    importance is below 30. *)
Theorem tv_coverage_labels (m : Match) :
  8 <= Importance.calculate_match_importance m /\
  Importance.determine_tv_coverage m <> "League Broadcasting" /\
  (Importance.determine_tv_coverage m = "Streaming/Regional"
   <-> Importance.calculate_match_importance m < 30) /\
  (Importance.determine_tv_coverage m = "Prime Time TV" \/
   Importance.determine_tv_coverage m = "Major Sports Networks" \/
   Importance.determine_tv_coverage m = "Sports Channels" \/
   Importance.determine_tv_coverage m = "Streaming/Regional").
Proof.
  pose proof (importance_bounds m) as Hb.
  pose proof (league_broadcasting_unreachable m) as Hnever.
  split; [lia|]. split; [exact Hnever|].
  unfold Importance.determine_tv_coverage in *.
  destruct (Z.leb_spec 70 (Importance.calculate_match_importance m));
    [split; [split; [discriminate | lia] | auto]|].
  destruct (Z.leb_spec 50 (Importance.calculate_match_importance m));
    [split; [split; [discriminate | lia] | auto]|].
  destruct (Z.leb_spec 30 (Importance.calculate_match_importance m));
    [split; [split; [discriminate | lia] | auto]|].
  destruct (Py.str_in_list _ _); [congruence|].
  split; [split; [intros _; lia | reflexivity] | auto].
Qed.

(** X20.  Going live is worth 20 points, up to the cap: of two matches
    that agree on competition, sides and stage, the one that is LIVE or
    IN_PLAY scores 20 more than the one whose status earns no bonus, or
    100 if that would exceed it. *)
Theorem live_bonus (live idle : Match) :
  competition_name_of live "" = competition_name_of idle "" ->
  home_team_name live = home_team_name idle ->
  away_team_name live = away_team_name idle ->
  Py.get_str (stage live) "" = Py.get_str (stage idle) "" ->
  Py.str_in_list (Py.get_str (status live) "") ["LIVE"; "IN_PLAY"] = true ->
  Py.str_in_list (Py.get_str (status idle) "") ["LIVE"; "IN_PLAY"] = false ->
  Py.get_str (status idle) "" <> "TIMED" ->
  Importance.calculate_match_importance live
  = Z.min (Importance.calculate_match_importance idle + 20) 100 /\
  Importance.calculate_match_importance idle
  <= Importance.calculate_match_importance live.
Proof.
  intros Hc Hh Ha Hs Hlive Hidle Htimed.
  unfold Importance.calculate_match_importance,
    Importance.competition_points, Importance.club_points,
    Importance.status_points, Importance.stage_points.
  rewrite Hc, Hh, Ha, Hs, Hlive, Hidle.
  apply String.eqb_neq in Htimed. rewrite Htimed. lia.
Qed.

Lemma live_bonus_witness :
  Importance.calculate_match_importance Samples.derby_at_old_trafford
  = Z.min (Importance.calculate_match_importance MoreSamples.derby_scheduled
           + 20) 100.
Proof.
  refine (proj1 (live_bonus Samples.derby_at_old_trafford
                   MoreSamples.derby_scheduled
                   eq_refl eq_refl eq_refl eq_refl eq_refl eq_refl _)).
  discriminate.
Defined.

(** ** Daily statistics *)

Lemma fold_counter {A St : Type} (step : St -> A -> St) (proj : St -> nat)
    (f : A -> bool) :
  (forall s a, proj (step s a) = if f a then S (proj s) else proj s) ->
  forall l s,
    proj (fold_left step l s) = (proj s + DailySpec.how_many f l)%nat.
Proof.
  intros H l. unfold DailySpec.how_many.
  induction l as [|a l IH]; intros s; simpl; [lia|].
  rewrite IH, H. destruct (f a); simpl; lia.
Qed.

Lemma fold_proj {A St T : Type} (step : St -> A -> St) (proj : St -> T)
    (g : T -> A -> T) :
  (forall s a, proj (step s a) = g (proj s) a) ->
  forall l s, proj (fold_left step l s) = fold_left g l (proj s).
Proof.
  intros H l. induction l as [|a l IH]; intros s; simpl; [reflexivity|].
  now rewrite IH, H.
Qed.

Lemma how_many_map {A B : Type} (f : B -> bool) (g : A -> B) (l : list A) :
  DailySpec.how_many f (map g l) = DailySpec.how_many (fun x => f (g x)) l.
Proof.
  unfold DailySpec.how_many. induction l as [|a l IH]; simpl; [reflexivity|].
  destruct (f (g a)); simpl; now rewrite IH.
Qed.

Lemma how_many_ext {A : Type} (f g : A -> bool) (l : list A) :
  (forall x, f x = g x) -> DailySpec.how_many f l = DailySpec.how_many g l.
Proof.
  intros H. unfold DailySpec.how_many. now rewrite (filter_ext f g H).
Qed.

Lemma how_many_app {A : Type} (f : A -> bool) (l l' : list A) :
  DailySpec.how_many f (l ++ l')
  = (DailySpec.how_many f l + DailySpec.how_many f l')%nat.
Proof. unfold DailySpec.how_many. now rewrite filter_app, length_app. Qed.

Lemma how_many_perm {A : Type} (f : A -> bool) (l l' : list A) :
  Permutation l l' -> DailySpec.how_many f l = DailySpec.how_many f l'.
Proof.
  unfold DailySpec.how_many.
  induction 1 as [|x l l' _ IH|x y l|l l' l'' _ IH1 _ IH2]; simpl;
    [reflexivity| |now destruct (f x), (f y)|congruence].
  destruct (f x); simpl; now rewrite IH.
Qed.

Lemma how_many_le {A : Type} (f : A -> bool) (l : list A) :
  (DailySpec.how_many f l <= List.length l)%nat.
Proof. apply filter_length_le. Qed.

Lemma how_many_filter {A : Type} (f g : A -> bool) (l : list A) :
  DailySpec.how_many f (filter g l)
  = DailySpec.how_many (fun x => g x && f x) l.
Proof.
  unfold DailySpec.how_many. induction l as [|a l IH]; simpl; [reflexivity|].
  destruct (g a); simpl; [destruct (f a); simpl|]; now rewrite IH.
Qed.

(** Four tests that exclude one another split what their disjunction
    counts. *)
Lemma how_many_split4 {A : Type} (f1 f2 f3 f4 g : A -> bool) (l : list A) :
  (forall x, (Nat.b2n (f1 x) + Nat.b2n (f2 x) + Nat.b2n (f3 x)
              + Nat.b2n (f4 x))%nat = Nat.b2n (g x)) ->
  (DailySpec.how_many f1 l + DailySpec.how_many f2 l
   + DailySpec.how_many f3 l + DailySpec.how_many f4 l)%nat
  = DailySpec.how_many g l.
Proof.
  intros H. unfold DailySpec.how_many.
  induction l as [|a l IH]; simpl; [reflexivity|].
  specialize (H a).
  destruct (f1 a), (f2 a), (f3 a), (f4 a), (g a); simpl in *;
    try discriminate; lia.
Qed.

Section TallyFacts.
Context {A : Type} (key : A -> string).

Let tally (n : string) (counts : list (string * nat)) : nat :=
  match find (fun kv => String.eqb n (fst kv)) counts with
  | Some kv => snd kv
  | None => 0%nat
  end.

Let share (P : string -> bool) (kv : string * nat) : nat :=
  if P (fst kv) then snd kv else 0%nat.

Lemma bump_share (P : string -> bool) (n : string)
    (counts : list (string * nat)) :
  list_sum (map (share P) (SquadMore.bump n counts))
  = (list_sum (map (share P) counts) + Nat.b2n (P n))%nat.
Proof.
  unfold share.
  induction counts as [|[k c] rest IH]; simpl.
  - destruct (P n); simpl; lia.
  - destruct (String.eqb_spec n k); simpl.
    + subst k. destruct (P n); simpl; lia.
    + rewrite IH. lia.
Qed.

(** The dict built by [d[k] = d.get(k, 0) + 1] over the keys of a list. *)
Lemma bump_fold (l : list A) (acc : list (string * nat)) :
  let counts :=
    fold_left (fun c a => SquadMore.bump (key a) c) l acc in
  (NoDup (map fst acc) -> NoDup (map fst counts)) /\
  (forall k, In k (map fst counts)
             <-> In k (map fst acc) \/ exists a, In a l /\ key a = k) /\
  (forall k, tally k counts
             = (tally k acc
                + DailySpec.how_many (fun a => String.eqb (key a) k) l)%nat) /\
  list_sum (map snd counts) = (list_sum (map snd acc) + List.length l)%nat /\
  (forall P, list_sum (map (share P) counts)
             = (list_sum (map (share P) acc)
                + DailySpec.how_many (fun a => P (key a)) l)%nat).
Proof.
  revert acc. unfold DailySpec.how_many.
  induction l as [|a l IH]; intros acc; cbn [fold_left].
  - cbv zeta. simpl. repeat split; auto; try lia.
    + intros [H|(a & [] & _)]. exact H.
  - destruct (IH (SquadMore.bump (key a) acc)) as (Hnd & Hin & Ht & Hs & Hp).
    cbv zeta. repeat split.
    + intros H. apply Hnd. now apply bump_NoDup.
    + intros H. apply Hin in H as [H|(b & Hb & Hk)].
      * apply bump_keys_In in H as [->|H]; [right; exists a; simpl|]; auto.
      * right. exists b. simpl. auto.
    + intros [H|(b & [<-|Hb] & Hk)]; apply Hin.
      * left. apply bump_keys_In. auto.
      * left. apply bump_keys_In. auto.
      * right. eauto.
    + intros k. rewrite Ht. unfold tally. rewrite tally_bump. simpl.
      destruct (String.eqb (key a) k); simpl; lia.
    + rewrite Hs, bump_sum. simpl. lia.
    + intros P. rewrite Hp, bump_share. simpl.
      destruct (P (key a)); simpl; lia.
Qed.

End TallyFacts.

Section DailyFacts.
Variable iso_hour : string -> option Z.

Let step := DailyStats.analyze_match iso_hour.
Let filed (e : Classifier.EnhancedMatch) : string :=
  DailySpec.filed_under (Classifier.base e).

Lemma daily_total (ms : list Classifier.EnhancedMatch) s :
  DailyStats.total_matches (fold_left step ms s) = DailyStats.total_matches s.
Proof.
  revert s. induction ms as [|e ms IH]; intros s; simpl; [reflexivity|].
  now rewrite IH.
Qed.

Lemma daily_by_competition (ms : list Classifier.EnhancedMatch) s :
  DailyStats.by_competition (fold_left step ms s)
  = fold_left (fun c e => SquadMore.bump (filed e) c) ms
      (DailyStats.by_competition s).
Proof. apply (fold_proj step DailyStats.by_competition). reflexivity. Qed.

Lemma daily_slots (ms : list Classifier.EnhancedMatch) s :
  DailyStats.by_time_slots (fold_left step ms s)
  = fold_left (fun t e => DailyStats.count_time_slot iso_hour t
                            (Classifier.base e)) ms
      (DailyStats.by_time_slots s).
Proof. apply (fold_proj step DailyStats.by_time_slots). reflexivity. Qed.

Lemma slot_counts (ms : list Classifier.EnhancedMatch) t :
  let slots :=
    fold_left (fun t e => DailyStats.count_time_slot iso_hour t
                            (Classifier.base e)) ms t in
  let on f := DailySpec.how_many (fun e => f (Classifier.base e)) ms in
  DailyStats.morning slots
  = (DailyStats.morning t + on (DailySpec.kicks_off_in iso_hour 6 12))%nat /\
  DailyStats.afternoon slots
  = (DailyStats.afternoon t + on (DailySpec.kicks_off_in iso_hour 12 18))%nat /\
  DailyStats.evening slots
  = (DailyStats.evening t + on (DailySpec.kicks_off_in iso_hour 18 24))%nat /\
  DailyStats.late_night slots
  = (DailyStats.late_night t
     + on (DailySpec.kicks_off_outside iso_hour 6 24))%nat.
Proof.
  cbv zeta.
  repeat split;
    apply (fold_counter
             (fun t e => DailyStats.count_time_slot iso_hour t
                           (Classifier.base e)));
    intros s e;
    unfold DailyStats.count_time_slot, DailySpec.kicks_off_in,
      DailySpec.kicks_off_outside, DailySpec.hour_of;
    destruct (utcDate (Classifier.base e)) as [u|]; try reflexivity;
    destruct (iso_hour u) as [h|]; try reflexivity;
    destruct (Z.leb_spec 6 h), (Z.ltb_spec h 12), (Z.leb_spec 12 h),
             (Z.ltb_spec h 18), (Z.leb_spec 18 h), (Z.ltb_spec h 24);
    try lia; reflexivity.
Qed.

Lemma daily_live (ms : list Classifier.EnhancedMatch) s :
  DailyStats.live_matches (fold_left step ms s)
  = (DailyStats.live_matches s
     + DailySpec.how_many (fun e => DailySpec.is_live (Classifier.base e))
         ms)%nat.
Proof.
  apply (fold_counter step DailyStats.live_matches). intros st e.
  unfold step, DailyStats.analyze_match, DailySpec.is_live.
  cbn [DailyStats.live_matches].
  destruct (status (Classifier.base e)) as [u|]; [|reflexivity].
  unfold Py.str_in_list. cbn [existsb]. now rewrite orb_false_r.
Qed.

Lemma daily_high_importance (ms : list Classifier.EnhancedMatch) s :
  DailyStats.high_importance (fold_left step ms s)
  = (DailyStats.high_importance s
     + DailySpec.how_many
         (fun e => (60 <=? Classifier.importance_score
                             (Classifier.enhanced_info e))%Z) ms)%nat.
Proof.
  apply (fold_counter step DailyStats.high_importance). reflexivity.
Qed.

Lemma daily_rivalries (ms : list Classifier.EnhancedMatch) s :
  DailyStats.rivalries (fold_left step ms s)
  = (DailyStats.rivalries s
     + DailySpec.how_many
         (fun e => DailyStats.truthy
                     (Classifier.rivalry_factor (Classifier.enhanced_info e)))
         ms)%nat.
Proof. apply (fold_counter step DailyStats.rivalries). reflexivity. Qed.

Lemma daily_major (ms : list Classifier.EnhancedMatch) s :
  DailyStats.major_leagues (fold_left step ms s)
  = (DailyStats.major_leagues s
     + DailySpec.how_many
         (fun e => DailySpec.in_major_league (Classifier.base e)) ms)%nat.
Proof. apply (fold_counter step DailyStats.major_leagues). reflexivity. Qed.

(** The competition breakdown, seen from the matches. *)
Lemma breakdown_shape (ms : list Classifier.EnhancedMatch) :
  let counts :=
    DailyStats.by_competition (DailyStats.analyze_daily_matches iso_hour ms) in
  NoDup (map fst counts) /\
  (forall k, In k (map fst counts) <-> exists e, In e ms /\ filed e = k) /\
  (forall n c, In (n, c) counts ->
     c = DailySpec.how_many (fun e => String.eqb (filed e) n) ms) /\
  list_sum (map snd counts) = List.length ms /\
  list_sum (map DailySpec.major_share counts)
  = DailySpec.how_many
      (fun e => DailySpec.in_major_league (Classifier.base e)) ms.
Proof.
  cbv zeta. unfold DailyStats.analyze_daily_matches.
  fold step. rewrite daily_by_competition. cbn [DailyStats.by_competition].
  destruct (bump_fold filed ms []) as (Hnd & Hin & Ht & Hs & Hp).
  specialize (Hnd (NoDup_nil _)).
  split; [exact Hnd|]. split.
  { intros k. rewrite Hin. simpl. tauto. }
  split.
  { intros n c Hmem. rewrite <- (tally_of_member n c _ Hnd Hmem).
    rewrite Ht. reflexivity. }
  split; [exact Hs|].
  exact (Hp (fun n => Py.str_in_list n DailyStats.major_league_names)).
Qed.

(** The four slots together count the matches with a readable kickoff. *)
Lemma slots_total (ms : list Classifier.EnhancedMatch) :
  let slots :=
    DailyStats.by_time_slots (DailyStats.analyze_daily_matches iso_hour ms) in
  (DailyStats.morning slots + DailyStats.afternoon slots
   + DailyStats.evening slots + DailyStats.late_night slots)%nat
  = DailySpec.how_many
      (fun e => DailySpec.timed iso_hour (Classifier.base e)) ms.
Proof.
  cbv zeta. unfold DailyStats.analyze_daily_matches. fold step.
  rewrite daily_slots. cbn [DailyStats.by_time_slots].
  destruct (slot_counts ms (DailyStats.mkTimeSlots 0 0 0 0))
    as (H1 & H2 & H3 & H4).
  rewrite H1, H2, H3, H4. simpl.
  apply (how_many_split4
           (fun e => DailySpec.kicks_off_in iso_hour 6 12 (Classifier.base e))
           (fun e => DailySpec.kicks_off_in iso_hour 12 18 (Classifier.base e))
           (fun e => DailySpec.kicks_off_in iso_hour 18 24 (Classifier.base e))
           (fun e => DailySpec.kicks_off_outside iso_hour 6 24
                       (Classifier.base e))).
  intros e.
  unfold DailySpec.kicks_off_in, DailySpec.kicks_off_outside,
    DailySpec.timed.
  destruct (DailySpec.hour_of iso_hour (Classifier.base e)) as [h|];
    [|reflexivity].
  destruct (Z.leb_spec 6 h), (Z.ltb_spec h 12), (Z.leb_spec 12 h),
           (Z.ltb_spec h 18), (Z.leb_spec 18 h), (Z.ltb_spec h 24);
    try lia; reflexivity.
Qed.

End DailyFacts.

(** X21.  The competition breakdown has one entry per competition name
    that occurs ("Unknown" for a record without one); each entry counts
    the matches filed under its name and the entries add up to the
    total.  The major-league counter equals the sum of the entries of
    the six major-league names. *)
Theorem daily_competition_breakdown
    (iso_hour : string -> option Z) (ms : list Classifier.EnhancedMatch) :
  let st := DailyStats.analyze_daily_matches iso_hour ms in
  let records := map Classifier.base ms in
  DailyStats.total_matches st = List.length ms /\
  NoDup (map fst (DailyStats.by_competition st)) /\
  (forall m, In m records ->
     In (DailySpec.filed_under m) (map fst (DailyStats.by_competition st))) /\
  (forall n c, In (n, c) (DailyStats.by_competition st) ->
     (1 <= c)%nat /\
     c = DailySpec.how_many (DailySpec.in_competition n) records) /\
  list_sum (map snd (DailyStats.by_competition st))
  = DailyStats.total_matches st /\
  DailyStats.major_leagues st
  = list_sum (map DailySpec.major_share (DailyStats.by_competition st)) /\
  DailyStats.major_leagues st
  = DailySpec.how_many DailySpec.in_major_league records.
Proof.
  intros st records.
  destruct (breakdown_shape iso_hour ms) as (Hnd & Hin & Hc & Hs & Hp).
  fold st in Hnd, Hin, Hc, Hs, Hp.
  assert (Htot : DailyStats.total_matches st = List.length ms).
  { unfold st, DailyStats.analyze_daily_matches. now rewrite daily_total. }
  assert (Hmaj : DailyStats.major_leagues st
                 = DailySpec.how_many
                     (fun e => DailySpec.in_major_league (Classifier.base e))
                     ms).
  { unfold st, DailyStats.analyze_daily_matches. now rewrite daily_major. }
  split; [exact Htot|]. split; [exact Hnd|]. split.
  { intros m Hm. apply in_map_iff in Hm as (e & <- & He).
    apply Hin. now exists e. }
  split.
  { intros n c Hmem. specialize (Hc n c Hmem).
    assert (Hk : In n (map fst (DailyStats.by_competition st)))
      by now apply (in_map fst) in Hmem.
    apply Hin in Hk as (e & He & Hn).
    unfold records. rewrite how_many_map.
    split; [|exact Hc]. rewrite Hc. unfold DailySpec.how_many.
    assert (Hf : In e (filter
                         (fun e0 => String.eqb
                                      (DailySpec.filed_under
                                         (Classifier.base e0)) n) ms)).
    { apply filter_In. split; [exact He|]. rewrite Hn.
      apply String.eqb_refl. }
    destruct (filter _ ms); [destruct Hf | simpl; lia]. }
  split; [now rewrite Htot|]. split; [now rewrite Hmaj, Hp|].
  unfold records. now rewrite how_many_map.
Qed.

Lemma daily_competition_breakdown_witness :
  In "Friendlies"
     (map fst (DailyStats.by_competition
                 (DailyStats.analyze_daily_matches MoreSamples.iso_hour
                    [ClassifierSpec.enhanced RefDates.iso_date Samples.march_10
                       Samples.plain_match]))).
Proof.
  pose proof (daily_competition_breakdown MoreSamples.iso_hour
                [ClassifierSpec.enhanced RefDates.iso_date Samples.march_10
                   Samples.plain_match]) as H.
  cbv zeta in H. destruct H as (_ & _ & H & _).
  exact (H Samples.plain_match (or_introl eq_refl)).
Defined.

(** X22.  Each of the morning, afternoon and evening slots counts the
    matches whose kickoff hour lies in it, and the late-night slot every
    readable hour outside 6 to 23.  A match without a readable kickoff time
    lands in no slot, so the four slots add up to the number of matches
    with a readable kickoff time, at most the total. *)
Theorem daily_time_slots
    (iso_hour : string -> option Z) (ms : list Classifier.EnhancedMatch) :
  let st := DailyStats.analyze_daily_matches iso_hour ms in
  let slots := DailyStats.by_time_slots st in
  let records := map Classifier.base ms in
  DailyStats.morning slots
  = DailySpec.how_many (DailySpec.kicks_off_in iso_hour 6 12) records /\
  DailyStats.afternoon slots
  = DailySpec.how_many (DailySpec.kicks_off_in iso_hour 12 18) records /\
  DailyStats.evening slots
  = DailySpec.how_many (DailySpec.kicks_off_in iso_hour 18 24) records /\
  DailyStats.late_night slots
  = DailySpec.how_many (DailySpec.kicks_off_outside iso_hour 6 24) records /\
  (DailyStats.morning slots + DailyStats.afternoon slots
   + DailyStats.evening slots + DailyStats.late_night slots)%nat
  = DailySpec.how_many (DailySpec.timed iso_hour) records /\
  (DailySpec.how_many (DailySpec.timed iso_hour) records
   <= DailyStats.total_matches st)%nat.
Proof.
  intros st slots records.
  destruct (slot_counts iso_hour ms (DailyStats.mkTimeSlots 0 0 0 0))
    as (H1 & H2 & H3 & H4).
  assert (Hslots : slots
                   = fold_left
                       (fun t e => DailyStats.count_time_slot iso_hour t
                                     (Classifier.base e)) ms
                       (DailyStats.mkTimeSlots 0 0 0 0)).
  { unfold slots, st, DailyStats.analyze_daily_matches.
    now rewrite daily_slots. }
  rewrite <- Hslots in H1, H2, H3, H4. simpl in H1, H2, H3, H4.
  unfold records. rewrite !how_many_map.
  split; [exact H1|]. split; [exact H2|]. split; [exact H3|].
  split; [exact H4|]. split.
  - exact (slots_total iso_hour ms).
  - unfold st, DailyStats.analyze_daily_matches. rewrite daily_total.
    cbn [DailyStats.total_matches]. apply how_many_le.
Qed.

Lemma rivalry_scan_named (table : list ((string * string) * string))
    (home_team away_team : string) :
  Forall (fun entry => snd entry <> "") table ->
  Importance.rivalry_scan table home_team away_team <> Some "".
Proof.
  induction 1 as [|[[t1 t2] n] rest Hn _ IH]; simpl; [discriminate|].
  destruct (_ || _); [|exact IH]. simpl in Hn. congruence.
Qed.

(** Every listed rivalry has a name, so a rivalry found is a true value. *)
Lemma rivalry_truthy (m : Match) :
  DailyStats.truthy (Importance.check_rivalry_factor m)
  = DailySpec.is_rivalry m.
Proof.
  unfold DailySpec.is_rivalry, Importance.check_rivalry_factor.
  pose proof (rivalry_scan_named Importance.rivalries
                (home_team_name m) (away_team_name m)) as H.
  destruct (Importance.rivalry_scan _ _ _) as [[|c s]|]; try reflexivity.
  exfalso. apply H; [|reflexivity].
  unfold Importance.rivalries. repeat constructor; discriminate.
Qed.

Section ResponseStatistics.
Variable iso_date : string -> option Z.
Variable today : Z.
Variable all_matches : list Match.

Let r := Classifier.get_matches_today iso_date today all_matches.
Let kept := filter (ResponseSpec.kept iso_date today) all_matches.
Let enhanced := ClassifierSpec.enhanced iso_date today.

Lemma enhanced_base (m : Match) : Classifier.base (enhanced m) = m.
Proof.
  unfold enhanced, ClassifierSpec.enhanced.
  now destruct (Classifier.derive_match_date iso_date m).
Qed.

Lemma enhanced_scores (m : Match) :
  Classifier.importance_score (Classifier.enhanced_info (enhanced m))
  = Importance.calculate_match_importance m /\
  Classifier.rivalry_factor (Classifier.enhanced_info (enhanced m))
  = Importance.check_rivalry_factor m.
Proof.
  unfold enhanced, ClassifierSpec.enhanced.
  now destruct (Classifier.derive_match_date iso_date m).
Qed.

(** Counting over the returned list is counting over the input records
    dated today or later. *)
Lemma response_how_many (g : Classifier.EnhancedMatch -> bool)
    (h : Match -> bool) :
  (forall m, g (enhanced m) = h m) ->
  DailySpec.how_many g (Classifier.matches r) = DailySpec.how_many h kept.
Proof.
  intros Hgh.
  destruct (get_matches_today_closed iso_date today all_matches)
    as (Ht & Hf & Hm & _).
  fold r in Ht, Hf, Hm.
  rewrite Hm.
  rewrite (how_many_perm g _ (Classifier.today_matches r
                              ++ Classifier.future_matches r))
    by (symmetry; apply sort_perm).
  rewrite Ht, Hf, process_matches_partition. cbn [fst snd].
  fold enhanced. rewrite how_many_app, !how_many_map.
  rewrite !(how_many_ext (fun x => g (enhanced x)) h) by exact Hgh.
  unfold kept. rewrite !how_many_filter.
  unfold DailySpec.how_many. clear.
  induction all_matches as [|m l IH]; simpl; [reflexivity|].
  unfold ClassifierSpec.on_day, ClassifierSpec.after_day, ResponseSpec.kept
    in *.
  destruct (Classifier.derive_match_date iso_date m) as [d|];
    [|exact IH].
  destruct (Z.eqb_spec d today), (Z.ltb_spec today d), (Z.leb_spec today d);
    try lia; simpl; destruct (h m); simpl; lia.
Qed.

End ResponseStatistics.

(** X23.  The statistics computed over the returned matches count the
    input records dated today or later, whatever order the sort put them
    in: the total, the count of each competition, and the live,
    high-importance (60 or more), rivalry and major-league counters.  The
    four time slots together count those of them with a readable kickoff
    time. *)
Theorem response_statistics
    (iso_date : string -> option Z) (today : Z)
    (iso_hour : string -> option Z) (all_matches : list Match) :
  let r := Classifier.get_matches_today iso_date today all_matches in
  let st := DailyStats.analyze_daily_matches iso_hour (Classifier.matches r) in
  let slots := DailyStats.by_time_slots st in
  let kept := filter (ResponseSpec.kept iso_date today) all_matches in
  DailyStats.total_matches st = Classifier.total_matches r /\
  DailyStats.total_matches st = List.length kept /\
  (forall n c, In (n, c) (DailyStats.by_competition st) ->
     c = DailySpec.how_many (DailySpec.in_competition n) kept) /\
  DailyStats.live_matches st = DailySpec.how_many DailySpec.is_live kept /\
  DailyStats.high_importance st
  = DailySpec.how_many
      (fun m => 60 <=? Importance.calculate_match_importance m) kept /\
  DailyStats.rivalries st = DailySpec.how_many DailySpec.is_rivalry kept /\
  DailyStats.major_leagues st
  = DailySpec.how_many DailySpec.in_major_league kept /\
  (DailyStats.morning slots + DailyStats.afternoon slots
   + DailyStats.evening slots + DailyStats.late_night slots)%nat
  = DailySpec.how_many (DailySpec.timed iso_hour) kept.
Proof.
  intros r st slots kept.
  destruct (get_matches_today_closed iso_date today all_matches)
    as (_ & _ & _ & _ & _ & Htot & _).
  fold r in Htot.
  pose proof (response_how_many iso_date today all_matches) as Hcount.
  fold r kept in Hcount.
  assert (Hlen : List.length (Classifier.matches r) = List.length kept).
  { pose proof (Hcount (fun _ => true) (fun _ => true) (fun _ => eq_refl))
      as H.
    unfold DailySpec.how_many in H.
    assert (Hall : forall (A : Type) (l : list A),
               filter (fun _ => true) l = l)
      by (intros A l; induction l; simpl; congruence).
    now rewrite !Hall in H. }
  assert (Hst : DailyStats.total_matches st
                = List.length (Classifier.matches r)).
  { unfold st, DailyStats.analyze_daily_matches. now rewrite daily_total. }
  split; [now rewrite Hst, Htot|]. split; [now rewrite Hst|]. split.
  { intros n c Hmem.
    destruct (breakdown_shape iso_hour (Classifier.matches r))
      as (_ & _ & Hc & _).
    fold st in Hc. rewrite (Hc n c Hmem).
    apply Hcount. intros m. now rewrite enhanced_base. }
  split.
  { unfold st, DailyStats.analyze_daily_matches. rewrite daily_live.
    cbn [DailyStats.live_matches]. apply Hcount.
    intros m. now rewrite enhanced_base. }
  split.
  { unfold st, DailyStats.analyze_daily_matches.
    rewrite daily_high_importance. cbn [DailyStats.high_importance].
    apply Hcount. intros m.
    now rewrite (proj1 (enhanced_scores iso_date today m)). }
  split.
  { unfold st, DailyStats.analyze_daily_matches. rewrite daily_rivalries.
    cbn [DailyStats.rivalries]. apply Hcount. intros m.
    rewrite (proj2 (enhanced_scores iso_date today m)).
    apply rivalry_truthy. }
  split.
  { unfold st, DailyStats.analyze_daily_matches. rewrite daily_major.
    cbn [DailyStats.major_leagues]. apply Hcount.
    intros m. now rewrite enhanced_base. }
  unfold slots, st. rewrite slots_total. apply Hcount.
  intros m. now rewrite enhanced_base.
Qed.

Lemma response_statistics_witness :
  1%nat = DailySpec.how_many (DailySpec.in_competition "Friendlies")
            (filter (ResponseSpec.kept RefDates.iso_date Samples.march_10)
               MoreSamples.two_days).
Proof.
  pose proof (response_statistics RefDates.iso_date Samples.march_10
                MoreSamples.iso_hour MoreSamples.two_days) as H.
  cbv zeta in H. destruct H as (_ & _ & H & _).
  apply (H "Friendlies" 1%nat). vm_compute. right. left. reflexivity.
Defined.

(** ** ESPN events *)

Section EspnFacts.
Import Espn EspnSpec.

Lemma find_app {A : Type} (f : A -> bool) (l l' : list A) :
  find f (l ++ l')
  = match find f l with Some x => Some x | None => find f l' end.
Proof.
  induction l as [|a l IH]; simpl; [reflexivity|]. now destruct (f a).
Qed.

Lemma find_none_iff {A : Type} (f : A -> bool) (l : list A) :
  find f l = None <-> forall x, In x l -> f x = false.
Proof.
  split; [apply find_none|]. intros H.
  destruct (find f l) as [x|] eqn:Hx; [|reflexivity].
  apply find_some in Hx as [Hin Hfx]. rewrite (H x Hin) in Hfx. discriminate.
Qed.

(** Both loops over the competitors keep, for each side, the value of the
    last competitor of that side. *)
Lemma assign_fold {T : Type} (v : Competitor -> option T)
    (cs : list Competitor) (acc : option T * option T) :
  fold_left
    (fun sides c =>
       if is_home c then (v c, snd sides) else (fst sides, v c))
    cs acc
  = (match last_home cs with Some c => v c | None => fst acc end,
     match last_away cs with Some c => v c | None => snd acc end).
Proof.
  revert acc. unfold last_home, last_away.
  induction cs as [|c cs IH]; intros acc; [now destruct acc|].
  cbn [fold_left rev]. rewrite IH, !find_app. cbn [find].
  destruct (find is_home (rev cs)), (find (fun c0 => negb (is_home c0)) (rev cs));
    destruct (is_home c); reflexivity.
Qed.

Lemma assign_teams_spec (cs : list Competitor) :
  assign_teams cs
  = (option_map team_data (last_home cs), option_map team_data (last_away cs)).
Proof.
  unfold assign_teams.
  rewrite (assign_fold (fun c => Some (team_data c))). cbn [fst snd].
  now destruct (last_home cs), (last_away cs).
Qed.

Lemma assign_scores_spec (cs : list Competitor) :
  assign_scores cs
  = (match last_home cs with Some c => co_score c | None => None end,
     match last_away cs with Some c => co_score c | None => None end).
Proof. unfold assign_scores. now rewrite (assign_fold co_score). Qed.

Lemma last_home_some (cs : list Competitor) (c : Competitor) :
  last_home cs = Some c -> In c cs /\ is_home c = true.
Proof.
  intros H. apply find_some in H as [Hin Hc]. now rewrite <- in_rev in Hin.
Qed.

Lemma last_away_some (cs : list Competitor) (c : Competitor) :
  last_away cs = Some c -> In c cs /\ is_home c = false.
Proof.
  intros H. apply find_some in H as [Hin Hc]. rewrite <- in_rev in Hin.
  now apply negb_true_iff in Hc.
Qed.

Lemma last_home_none (cs : list Competitor) :
  last_home cs = None <-> forall c, In c cs -> is_home c = false.
Proof.
  unfold last_home. rewrite find_none_iff.
  split; intros H c Hc; apply H; [now rewrite <- in_rev | now rewrite in_rev].
Qed.

Lemma last_away_none (cs : list Competitor) :
  last_away cs = None <-> forall c, In c cs -> is_home c = true.
Proof.
  unfold last_away. rewrite find_none_iff.
  split; intros H c Hc.
  - apply negb_false_iff, H. now rewrite <- in_rev.
  - apply negb_false_iff, H. now rewrite in_rev.
Qed.

Lemma score_gt_sym (h a : Score) : score_gt h a = None -> score_gt a h = None.
Proof. now destruct h, a. Qed.

Lemma decide_winner_none (st : string) (hs aws : option Score) :
  decide_winner st hs aws = None
  <-> st = "FINISHED" /\
      exists h a, hs = Some h /\ aws = Some a /\ score_gt h a = None.
Proof.
  unfold decide_winner. destruct (String.eqb_spec st "FINISHED") as [->|Hne].
  - destruct hs as [h|], aws as [a|].
    + destruct (score_gt h a) as [[|]|] eqn:Hg.
      * split; [discriminate|]. intros (_ & h' & a' & [= <-] & [= <-] & H).
        congruence.
      * destruct (score_gt a h) as [[|]|] eqn:Hg'.
        -- split; [discriminate|].
           intros (_ & h' & a' & [= <-] & [= <-] & H). congruence.
        -- split; [discriminate|].
           intros (_ & h' & a' & [= <-] & [= <-] & H). congruence.
        -- destruct h, a; discriminate.
      * split; [|reflexivity]. intros _. split; [reflexivity|]. eauto.
    + split; [discriminate|]. intros (_ & h' & a' & _ & [=] & _).
    + split; [discriminate|]. intros (_ & h' & a' & [=] & _).
    + split; [discriminate|]. intros (_ & h' & a' & [=] & _).
  - split; [discriminate|]. intros [H _]. contradiction.
Qed.

Lemma decide_winner_some (st : string) (hs aws : option Score)
    (w : option string) :
  decide_winner st hs aws = Some w ->
  (w <> None <-> st = "FINISHED" /\ hs <> None /\ aws <> None) /\
  (forall h a, st = "FINISHED" -> hs = Some h -> aws = Some a ->
     score_gt h a <> None /\ w = Some (winner_of h a)).
Proof.
  unfold decide_winner, winner_of.
  destruct (String.eqb_spec st "FINISHED") as [->|Hne].
  - destruct hs as [h|], aws as [a|]; try (intros [= <-]; split;
      [split; [congruence | intros (_ & H1 & H2); congruence]
      | intros h' a' _ H1 H2; discriminate]).
    destruct (score_gt h a) as [[|]|] eqn:Hg; [| |discriminate].
    + intros [= <-]. split.
      * split; [intros _; repeat split; discriminate | discriminate].
      * intros h' a' _ [= <-] [= <-]. rewrite Hg. split; [discriminate|].
        reflexivity.
    + destruct (score_gt a h) as [[|]|] eqn:Hg'; [| |discriminate];
        intros [= <-]; (split;
          [split; [intros _; repeat split; discriminate | discriminate]
          | intros h' a' _ [= <-] [= <-]; rewrite Hg, Hg';
            split; [discriminate | reflexivity]]).
  - intros [= <-]. split.
    + split; [congruence | intros [H _]; contradiction].
    + intros h a H. contradiction.
Qed.

Lemma status_of_values (ev : EspnEvent) :
  In (status_of ev) ["SCHEDULED"; "LIVE"; "FINISHED"; "POSTPONED"; "CANCELLED"].
Proof.
  unfold status_of, Py.dict_get, status_mapping. cbn [Py.dict_lookup].
  repeat (destruct (String.eqb _ _); [simpl; tauto|]). simpl. tauto.
Qed.

(** The converter, with its loops summed up. *)
Lemma convert_closed (ev : EspnEvent) (league_name : string) :
  convert_espn_to_standard_format ev league_name
  = match ev_competitions ev with
    | Some [] => None
    | _ =>
        let cs := competitors_of ev in
        if (List.length cs <? 2)%nat then None
        else
          match last_home cs, last_away cs with
          | Some ch, Some ca =>
              let hs := if with_scores (status_of ev)
                        then co_score ch else None in
              let aws := if with_scores (status_of ev)
                         then co_score ca else None in
              match decide_winner (status_of ev) hs aws with
              | None => None
              | Some w =>
                  Some {| sm_id := "espn_" ++ Py.get_str (ev_id ev) "None";
                          sm_utcDate := ev_date ev;
                          sm_status := status_of ev;
                          sm_stage := "REGULAR_SEASON";
                          sm_lastUpdated := ev_date ev;
                          sm_homeTeam := team_data ch;
                          sm_awayTeam := team_data ca;
                          sm_winner := w;
                          sm_duration := "REGULAR";
                          sm_home_score := hs;
                          sm_away_score := aws;
                          sm_competition_name := league_name;
                          sm_competition_type := "LEAGUE";
                          sm_venue :=
                            match first_competition ev with
                            | Some {| ec_venue := Some v |} =>
                                Py.get_str (vn_fullName v) "Unknown Venue"
                            | _ => "Unknown Venue"
                            end |}
              end
          | _, _ => None
          end
    end.
Proof.
  unfold convert_espn_to_standard_format, first_competition, competitors_of.
  fold (status_of ev).
  destruct (ev_competitions ev) as [[|c rest]|]; [reflexivity| |reflexivity].
  cbv zeta.
  set (cs := match ec_competitors c with Some l => l | None => [] end).
  destruct (List.length cs <? 2)%nat; [reflexivity|].
  rewrite assign_teams_spec, assign_scores_spec.
  fold (with_scores (status_of ev)).
  destruct (last_home cs) as [ch|], (last_away cs) as [ca|];
    cbn [option_map]; try reflexivity.
  destruct (with_scores (status_of ev)); cbn [fst snd];
    destruct (decide_winner _ _ _); try reflexivity;
    destruct c as [? [v|]]; reflexivity.
Qed.

End EspnFacts.

(** X24.  The converter drops an event, returning [None], exactly when its
    list of competitions is empty, it has fewer than two competitors, no
    competitor is flagged home, every competitor is flagged home, or the
    event is final and one side's score is a string while the other's is a
    number. *)
Theorem espn_conversion_rejects
    (ev : Espn.EspnEvent) (league_name : string) :
  let cs := EspnSpec.competitors_of ev in
  Espn.convert_espn_to_standard_format ev league_name = None
  <-> (Espn.ev_competitions ev = Some [] \/
       (List.length cs < 2)%nat \/
       (forall c, In c cs -> Espn.is_home c = false) \/
       (forall c, In c cs -> Espn.is_home c = true) \/
       EspnSpec.scores_incomparable ev).
Proof.
  intros cs. rewrite convert_closed. fold cs.
  unfold EspnSpec.scores_incomparable. fold cs.
  assert (Hempty : Espn.ev_competitions ev = Some [] \/
                   Espn.ev_competitions ev <> Some [])
    by (destruct (Espn.ev_competitions ev) as [[|? ?]|];
        [left; reflexivity | right; discriminate | right; discriminate]).
  destruct Hempty as [He|Hne]; [rewrite He; tauto|].
  assert (Hskip : forall X : option Espn.StandardMatch,
             match Espn.ev_competitions ev with
             | Some [] => None
             | _ => X
             end = X)
    by (intros X; destruct (Espn.ev_competitions ev) as [[|? ?]|];
        [contradiction | reflexivity | reflexivity]).
  rewrite Hskip. cbv zeta.
  destruct (Nat.ltb_spec (List.length cs) 2) as [Hlt|Hge]; [tauto|].
  destruct (EspnSpec.last_home cs) as [ch|] eqn:Hh.
  2:{ split; [|reflexivity]. intros _. right. right. left.
      now apply last_home_none. }
  destruct (EspnSpec.last_away cs) as [ca|] eqn:Ha.
  2:{ split; [|reflexivity]. intros _. right. right. right. left.
      now apply last_away_none. }
  destruct (last_home_some cs ch Hh) as [Hinh Hish].
  destruct (last_away_some cs ca Ha) as [Hina Hisa].
  destruct (Espn.decide_winner _ _ _) as [w|] eqn:Hw.
  - split; [discriminate|].
    intros [H|[H|[H|[H|H]]]].
    + contradiction.
    + lia.
    + rewrite (H ch Hinh) in Hish. discriminate.
    + rewrite (H ca Hina) in Hisa. discriminate.
    + destruct H as (Hfin & ch' & ca' & h & a & [= <-] & [= <-] & Hsh & Hsa & Hg).
      assert (Hnone : Espn.decide_winner (EspnSpec.status_of ev)
                        (if EspnSpec.with_scores (EspnSpec.status_of ev)
                         then Espn.co_score ch else None)
                        (if EspnSpec.with_scores (EspnSpec.status_of ev)
                         then Espn.co_score ca else None) = None).
      { apply decide_winner_none. split; [exact Hfin|].
        rewrite Hfin. exists h, a. simpl. auto. }
      congruence.
  - split; [|reflexivity]. intros _. right. right. right. right.
    apply decide_winner_none in Hw as (Hfin & h & a & Hhs & Has & Hg).
    split; [exact Hfin|]. exists ch, ca, h, a.
    rewrite Hfin in Hhs, Has. simpl in Hhs, Has. auto.
Qed.

Lemma espn_conversion_rejects_witness :
  Espn.convert_espn_to_standard_format EspnSamples.one_sided "Premier League"
  = None.
Proof.
  apply (proj2 (espn_conversion_rejects EspnSamples.one_sided
                  "Premier League")).
  right. left. simpl. lia.
Defined.

(** X25.  A converted record has one of five statuses (SCHEDULED for an
    ESPN status outside the mapping), the last competitor flagged home
    as home side and the last one not flagged so as away side, and
    scores only when FINISHED or LIVE.  It has a winner exactly when
    FINISHED with both scores, decided by the order of the two scores as
    Python compares them, so character by character for strings. *)
Theorem espn_conversion_shape
    (ev : Espn.EspnEvent) (league_name : string) (sm : Espn.StandardMatch) :
  Espn.convert_espn_to_standard_format ev league_name = Some sm ->
  let cs := EspnSpec.competitors_of ev in
  Espn.sm_status sm = EspnSpec.status_of ev /\
  In (Espn.sm_status sm)
     ["SCHEDULED"; "LIVE"; "FINISHED"; "POSTPONED"; "CANCELLED"] /\
  (2 <= List.length cs)%nat /\
  (exists ch ca,
      EspnSpec.last_home cs = Some ch /\ EspnSpec.last_away cs = Some ca /\
      Espn.sm_homeTeam sm = Espn.team_data ch /\
      Espn.sm_awayTeam sm = Espn.team_data ca /\
      Espn.sm_home_score sm
      = (if EspnSpec.with_scores (Espn.sm_status sm)
         then Espn.co_score ch else None) /\
      Espn.sm_away_score sm
      = (if EspnSpec.with_scores (Espn.sm_status sm)
         then Espn.co_score ca else None)) /\
  (Espn.sm_winner sm <> None
   <-> Espn.sm_status sm = "FINISHED" /\
       Espn.sm_home_score sm <> None /\ Espn.sm_away_score sm <> None) /\
  (forall h a,
      Espn.sm_status sm = "FINISHED" ->
      Espn.sm_home_score sm = Some h -> Espn.sm_away_score sm = Some a ->
      Espn.score_gt h a <> None /\
      Espn.sm_winner sm = Some (EspnSpec.winner_of h a)) /\
  Espn.sm_utcDate sm = Espn.ev_date ev /\
  Espn.sm_stage sm = "REGULAR_SEASON" /\
  Espn.sm_competition_name sm = league_name.
Proof.
  intros Hconv cs. rewrite convert_closed in Hconv. fold cs in Hconv.
  assert (Hbody :
            (let cs := cs in
             if (List.length cs <? 2)%nat then None
             else
               match EspnSpec.last_home cs, EspnSpec.last_away cs with
               | Some ch, Some ca =>
                   let hs := if EspnSpec.with_scores (EspnSpec.status_of ev)
                             then Espn.co_score ch else None in
                   let aws := if EspnSpec.with_scores (EspnSpec.status_of ev)
                              then Espn.co_score ca else None in
                   match Espn.decide_winner (EspnSpec.status_of ev) hs aws with
                   | None => None
                   | Some w =>
                       Some {| Espn.sm_id :=
                                 "espn_" ++ Py.get_str (Espn.ev_id ev) "None";
                               Espn.sm_utcDate := Espn.ev_date ev;
                               Espn.sm_status := EspnSpec.status_of ev;
                               Espn.sm_stage := "REGULAR_SEASON";
                               Espn.sm_lastUpdated := Espn.ev_date ev;
                               Espn.sm_homeTeam := Espn.team_data ch;
                               Espn.sm_awayTeam := Espn.team_data ca;
                               Espn.sm_winner := w;
                               Espn.sm_duration := "REGULAR";
                               Espn.sm_home_score := hs;
                               Espn.sm_away_score := aws;
                               Espn.sm_competition_name := league_name;
                               Espn.sm_competition_type := "LEAGUE";
                               Espn.sm_venue :=
                                 match Espn.first_competition ev with
                                 | Some {| Espn.ec_venue := Some v |} =>
                                     Py.get_str (Espn.vn_fullName v)
                                       "Unknown Venue"
                                 | _ => "Unknown Venue"
                                 end |}
                   end
               | _, _ => None
               end) = Some sm).
  { destruct (Espn.ev_competitions ev) as [[|? ?]|];
      [discriminate | exact Hconv | exact Hconv]. }
  clear Hconv. cbv zeta in Hbody.
  destruct (Nat.ltb_spec (List.length cs) 2) as [Hlt|Hge]; [discriminate|].
  destruct (EspnSpec.last_home cs) as [ch|] eqn:Hh; [|discriminate].
  destruct (EspnSpec.last_away cs) as [ca|] eqn:Ha; [|discriminate].
  destruct (Espn.decide_winner _ _ _) as [w|] eqn:Hw; [|discriminate].
  injection Hbody as <-.
  cbn [Espn.sm_status Espn.sm_homeTeam Espn.sm_awayTeam Espn.sm_home_score
       Espn.sm_away_score Espn.sm_winner Espn.sm_utcDate Espn.sm_stage
       Espn.sm_competition_name].
  destruct (decide_winner_some _ _ _ _ Hw) as [Hw1 Hw2].
  split; [reflexivity|]. split; [apply status_of_values|].
  split; [exact Hge|]. split; [exists ch, ca; auto 10|].
  split; [exact Hw1|]. split; [exact Hw2|]. auto.
Qed.

Lemma espn_conversion_shape_witness :
  Espn.sm_winner EspnSamples.ten_nine_converted
  = Some (EspnSpec.winner_of (Espn.ScoreStr "10") (Espn.ScoreStr "9")) /\
  EspnSpec.winner_of (Espn.ScoreStr "10") (Espn.ScoreStr "9") = "AWAY_TEAM".
Proof.
  split; [|reflexivity].
  pose proof (espn_conversion_shape EspnSamples.ten_nine "Premier League"
                EspnSamples.ten_nine_converted eq_refl) as H.
  cbv zeta in H. destruct H as (_ & _ & _ & _ & _ & H & _).
  exact (proj2 (H (Espn.ScoreStr "10") (Espn.ScoreStr "9")
                  eq_refl eq_refl eq_refl)).
Defined.

(** ** ESPN records in the scorer and the classifier *)

Lemma convert_fields (ev : Espn.EspnEvent) (league_name : string)
    (sm : Espn.StandardMatch) :
  Espn.convert_espn_to_standard_format ev league_name = Some sm ->
  Espn.sm_status sm = EspnSpec.status_of ev /\
  Espn.sm_stage sm = "REGULAR_SEASON" /\
  Espn.sm_competition_name sm = league_name /\
  Espn.sm_utcDate sm = Espn.ev_date ev.
Proof.
  rewrite convert_closed. intros Hconv.
  assert (Hbody : exists ch ca hs aws w venue_name,
             sm = {| Espn.sm_id := "espn_" ++ Py.get_str (Espn.ev_id ev) "None";
                     Espn.sm_utcDate := Espn.ev_date ev;
                     Espn.sm_status := EspnSpec.status_of ev;
                     Espn.sm_stage := "REGULAR_SEASON";
                     Espn.sm_lastUpdated := Espn.ev_date ev;
                     Espn.sm_homeTeam := Espn.team_data ch;
                     Espn.sm_awayTeam := Espn.team_data ca;
                     Espn.sm_winner := w;
                     Espn.sm_duration := "REGULAR";
                     Espn.sm_home_score := hs;
                     Espn.sm_away_score := aws;
                     Espn.sm_competition_name := league_name;
                     Espn.sm_competition_type := "LEAGUE";
                     Espn.sm_venue := venue_name |}).
  { destruct (Espn.ev_competitions ev) as [[|? ?]|]; [discriminate| |];
      cbv zeta in Hconv;
      destruct (List.length _ <? 2)%nat; try discriminate;
      destruct (EspnSpec.last_home _) as [ch|]; try discriminate;
      destruct (EspnSpec.last_away _) as [ca|]; try discriminate;
      destruct (Espn.decide_winner _ _ _) as [w|]; try discriminate;
      injection Hconv as <-; eauto 10. }
  destruct Hbody as (ch & ca & hs & aws & w & v & ->). simpl. auto.
Qed.

(** X26.  A record converted from ESPN earns no stage boost and status
    points only when live (20); having no [date] key, it is dated by its
    kickoff time and tagged as coming from football-data.org.  For the
    twenty league names of the ESPN table its importance is at most 80,
    the three UEFA competitions (named without prefix) score the default
    10, and only the five domestic leagues count as major leagues. *)
Theorem espn_match_importance
    (ev : Espn.EspnEvent) (league_name : string) (sm : Espn.StandardMatch)
    (m : Match) :
  Espn.convert_espn_to_standard_format ev league_name = Some sm ->
  EspnSpec.carries sm m ->
  Importance.stage_points m = 0 /\
  Importance.status_points m
  = (if String.eqb (Espn.sm_status sm) "LIVE" then 20 else 0) /\
  Importance.competition_points m
  = Py.dict_get Importance.competition_scores league_name 10 /\
  (forall iso_date,
      Classifier.derive_match_date iso_date m
      = match Espn.ev_date ev with Some s => iso_date s | None => None end) /\
  (forall today d,
      Classifier.source (Classifier.enhanced_info (Classifier.enhance today m d))
      = "football-data.org") /\
  (In league_name (map snd Sources.espn_leagues) ->
   Importance.calculate_match_importance m <= 80 /\
   (In league_name ["Champions League"; "Europa League"; "Conference League"]
    -> Importance.competition_points m = 10) /\
   DailySpec.in_major_league m
   = Py.str_in_list league_name
       ["Premier League"; "La Liga"; "Bundesliga"; "Serie A"; "Ligue 1"]).
Proof.
  intros Hconv (Hdate & Hutc & Hstatus & Hstage & _ & _ & _ & (c & Hc & Hname)).
  destruct (convert_fields ev league_name sm Hconv) as (Hs & Hg & Hn & Hu).
  pose proof (status_of_values ev) as Hvalues.
  assert (Hcomp : forall default, competition_name_of m default = league_name).
  { intros default. unfold competition_name_of. now rewrite Hc, Hname, Hn. }
  assert (Hsp : Importance.stage_points m = 0).
  { unfold Importance.stage_points. now rewrite Hstage, Hg. }
  assert (Hst : Importance.status_points m
                = (if String.eqb (Espn.sm_status sm) "LIVE" then 20 else 0)).
  { unfold Importance.status_points. rewrite Hstatus, Hs. cbn [Py.get_str].
    destruct Hvalues as [H|[H|[H|[H|[H|[]]]]]]; rewrite <- H; reflexivity. }
  assert (Hcp : Importance.competition_points m
                = Py.dict_get Importance.competition_scores league_name 10).
  { unfold Importance.competition_points. now rewrite Hcomp. }
  split; [exact Hsp|]. split; [exact Hst|]. split; [exact Hcp|]. split.
  { intros iso_date. unfold Classifier.derive_match_date.
    now rewrite Hdate, Hutc, Hu. }
  split.
  { intros today d. unfold Classifier.enhance. cbn [Classifier.source
      Classifier.enhanced_info]. now rewrite Hdate. }
  intros Hleague.
  pose proof (club_points_bounds m) as Hclub.
  assert (Hlive : 0 <= Importance.status_points m <= 20)
    by (rewrite Hst; destruct (String.eqb _ _); lia).
  unfold DailySpec.in_major_league, DailySpec.filed_under.
  rewrite Hcomp.
  unfold Importance.calculate_match_importance. rewrite Hsp, Hcp.
  clear Hconv Hn Hcomp Hcp Hname.
  simpl in Hleague.
  repeat (destruct Hleague as [Hleague|Hleague];
          [subst league_name;
           match goal with
           | |- context [Py.dict_get ?d ?k ?x] =>
               let v := eval vm_compute in (Py.dict_get d k x) in
               change (Py.dict_get d k x) with v
           end;
           split; [lia|];
           split; [intros Hin; first [reflexivity
                                     | exfalso; simpl in Hin;
                                       intuition discriminate]
                  | reflexivity]|]).
  destruct Hleague.
Qed.

Lemma espn_match_importance_witness :
  Importance.stage_points EspnSamples.ten_nine_match = 0.
Proof.
  refine (proj1 (espn_match_importance EspnSamples.ten_nine "Premier League"
                   EspnSamples.ten_nine_converted EspnSamples.ten_nine_match
                   eq_refl _)).
  unfold EspnSpec.carries. simpl.
  repeat split; eexists; split; reflexivity.
Defined.

(** ** Match sources *)

Section SourcesFacts.
Import Sources SourcesSpec.
Variable scoreboard : string -> Z -> option (list Espn.EspnEvent).
Variable football_data : bool -> option (list Match).

Let nonempty (l : list Record) : bool :=
  match l with [] => false | _ :: _ => true end.

Lemma nonempty_app (l l' : list Record) :
  nonempty (l ++ l') = nonempty l || nonempty l'.
Proof. now destruct l, l'. Qed.

Lemma fetch_today_spec (state : list Record * bool) (league : string * string) :
  fetch_today scoreboard state league
  = (fst state ++ league_records scoreboard 0 league,
     snd state || nonempty (league_records scoreboard 0 league)).
Proof.
  unfold fetch_today, league_records.
  destruct (scoreboard (fst league) 0) as [events|].
  2:{ simpl. rewrite app_nil_r, orb_false_r. now destruct state. }
  revert state. induction events as [|ev events IH]; intros state.
  - simpl. rewrite app_nil_r, orb_false_r. now destruct state.
  - cbn [fold_left flat_map]. rewrite IH.
    destruct (Espn.convert_espn_to_standard_format ev (snd league)) as [m|].
    + cbn [fst snd app]. rewrite <- app_assoc. cbn [app nonempty].
      now rewrite orb_true_r.
    + reflexivity.
Qed.

Lemma today_fold (leagues : list (string * string)) (state : list Record * bool) :
  fold_left (fetch_today scoreboard) leagues state
  = (fst state ++ day_records scoreboard leagues 0,
     snd state || nonempty (day_records scoreboard leagues 0)).
Proof.
  revert state. unfold day_records.
  induction leagues as [|l leagues IH]; intros state.
  - simpl. rewrite app_nil_r, orb_false_r. now destruct state.
  - cbn [fold_left flat_map]. rewrite IH, fetch_today_spec. cbn [fst snd].
    now rewrite nonempty_app, app_assoc, orb_assoc.
Qed.

Lemma today_phase_spec :
  today_phase scoreboard
  = (day_records scoreboard espn_leagues 0,
     nonempty (day_records scoreboard espn_leagues 0)).
Proof. unfold today_phase. now rewrite today_fold. Qed.

Lemma fetch_extended_spec (d : Z) (all : list Record) (league : string * string) :
  fetch_extended scoreboard d all league
  = all ++ league_records scoreboard d league.
Proof.
  unfold fetch_extended, league_records.
  destruct (scoreboard (fst league) d) as [events|];
    [|now rewrite app_nil_r].
  revert all. induction events as [|ev events IH]; intros all.
  - simpl. now rewrite app_nil_r.
  - cbn [fold_left flat_map]. rewrite IH.
    destruct (Espn.convert_espn_to_standard_format ev (snd league)) as [m|];
      [now rewrite <- app_assoc | reflexivity].
Qed.

Lemma extended_fold (d : Z) (leagues : list (string * string))
    (all : list Record) :
  fold_left (fetch_extended scoreboard d) leagues all
  = all ++ day_records scoreboard leagues d.
Proof.
  revert all. unfold day_records.
  induction leagues as [|l leagues IH]; intros all.
  - simpl. now rewrite app_nil_r.
  - cbn [fold_left flat_map]. rewrite IH, fetch_extended_spec.
    now rewrite app_assoc.
Qed.

(** The extended search takes whole days, skipping today, and stops after
    the first day that brings the list to twenty records. *)
Lemma extended_loop_spec (offsets : list Z) (all : list Record) :
  let days := filter (fun d => negb (d =? 0)) offsets in
  let upto n :=
    all ++ flat_map (day_records scoreboard (firstn 5 espn_leagues))
             (firstn n days) in
  exists n,
    (n <= List.length days)%nat /\
    extended_loop scoreboard offsets all = upto n /\
    ((n < List.length days)%nat -> (20 <= List.length (upto n))%nat) /\
    (forall k, (1 <= k < n)%nat -> (List.length (upto k) < 20)%nat).
Proof.
  revert all. induction offsets as [|d rest IH]; intros all; cbv zeta.
  - exists 0%nat. simpl. rewrite app_nil_r.
    repeat split; [lia | lia | lia].
  - cbn [extended_loop filter].
    destruct (Z.eqb_spec d 0) as [->|Hd]; cbn [negb]; [apply IH|].
    unfold Py.slice_to. rewrite extended_fold.
    set (dr := day_records scoreboard (firstn 5 espn_leagues)).
    destruct (Nat.leb_spec 20 (List.length (all ++ dr d))) as [Hfull|Hmore].
    + exists 1%nat. cbn [firstn flat_map List.length]. rewrite app_nil_r.
      repeat split; [lia | fold dr; lia | lia].
    + destruct (IH (all ++ dr d)) as (n & Hn & Hres & Hstop & Hbefore).
      cbv zeta in Hn, Hres, Hstop, Hbefore. fold dr in Hres, Hstop, Hbefore.
      exists (S n). cbn [firstn flat_map List.length].
      rewrite app_assoc.
      split; [lia|]. split; [exact Hres|]. split.
      * intros Hlt. apply Hstop. lia.
      * intros k Hk. destruct k as [|k]; [lia|].
        cbn [firstn flat_map]. rewrite app_assoc.
        destruct k as [|k]; [simpl; rewrite app_nil_r; exact Hmore|].
        apply Hbefore. lia.
Qed.

Lemma league_records_espn (d : Z) (league : string * string) (r : Record) :
  In r (league_records scoreboard d league) -> exists sm, r = FromEspn sm.
Proof.
  unfold league_records. destruct (scoreboard (fst league) d) as [events|];
    [|intros []].
  intros H. apply in_flat_map in H as (ev & _ & H).
  destruct (Espn.convert_espn_to_standard_format ev (snd league)) as [m|];
    [|destruct H].
  destruct H as [<-|[]]. now exists m.
Qed.

Lemma day_records_espn (leagues : list (string * string)) (d : Z) (r : Record) :
  In r (day_records scoreboard leagues d) -> exists sm, r = FromEspn sm.
Proof.
  intros H. apply in_flat_map in H as (l & _ & H).
  now apply league_records_espn in H.
Qed.

Lemma extended_days :
  filter (fun d => negb (d =? 0)) days_offsets
  = [-3; -2; -1; 1; 2; 3; 4; 5; 6; 7].
Proof. reflexivity. Qed.

(** What ESPN contributes: today's records when there are any, the
    extended search otherwise. *)
Lemma espn_phase_spec :
  let today_records := day_records scoreboard espn_leagues 0 in
  (today_records <> [] -> espn_phase scoreboard = today_records) /\
  (today_records = [] ->
   exists n,
     (n <= 10)%nat /\
     espn_phase scoreboard = extended_records scoreboard n /\
     ((n < 10)%nat -> (20 <= List.length (espn_phase scoreboard))%nat) /\
     (forall k, (k < n)%nat ->
                (List.length (extended_records scoreboard k) < 20)%nat)).
Proof.
  cbv zeta. unfold espn_phase. rewrite today_phase_spec.
  destruct (day_records scoreboard espn_leagues 0) as [|r rs] eqn:Htoday;
    cbn [nonempty].
  - split; [congruence|]. intros _.
    destruct (extended_loop_spec days_offsets []) as (n & Hn & Hres & Hstop & Hk).
    cbv zeta in Hn, Hres, Hstop, Hk.
    rewrite extended_days in Hn, Hres, Hstop, Hk.
    cbn [app] in Hres, Hstop, Hk. simpl List.length in Hn, Hstop.
    exists n. unfold extended_records.
    split; [exact Hn|]. split; [exact Hres|]. split.
    + intros Hlt. rewrite Hres. now apply Hstop.
    + intros k Hlt. destruct k as [|k]; [simpl; lia|]. apply Hk. lia.
  - split; [reflexivity|]. discriminate.
Qed.

Lemma espn_phase_espn (r : Record) :
  In r (espn_phase scoreboard) -> exists sm, r = FromEspn sm.
Proof.
  destruct espn_phase_spec as [Hsome Hnone]. cbv zeta in Hsome, Hnone.
  destruct (day_records scoreboard espn_leagues 0) as [|r0 rs] eqn:Htoday.
  - destruct (Hnone eq_refl) as (n & _ & -> & _).
    unfold extended_records. intros H.
    apply in_flat_map in H as (d & _ & H). now apply day_records_espn in H.
  - rewrite Hsome by discriminate. rewrite <- Htoday.
    apply day_records_espn.
Qed.

Lemma fallback_matches_espn (records : list Record) :
  (forall r, In r records -> exists sm, r = FromEspn sm) ->
  fallback_matches records = [].
Proof.
  induction records as [|r records IH]; intros H; [reflexivity|].
  destruct (H r (or_introl eq_refl)) as (sm & ->). simpl.
  apply IH. intros r' Hr'. apply H. now right.
Qed.

Lemma fallback_matches_raw (l : list Match) :
  fallback_matches (map FromFootballData l) = l.
Proof. induction l as [|m l IH]; simpl; congruence. Qed.

Lemma gather_stats :
  let g := gather scoreboard football_data in
  let today_records := day_records scoreboard espn_leagues 0 in
  espn_api g = List.length today_records /\
  extended_search g = negb (nonempty today_records).
Proof.
  cbv zeta. unfold gather. rewrite today_phase_spec.
  destruct (List.length (espn_phase scoreboard) <? 5)%nat;
    [destruct (football_data _)|]; split; reflexivity.
Qed.

Lemma gather_records :
  let g := gather scoreboard football_data in
  let fb :=
    if (List.length (espn_phase scoreboard) <? 5)%nat
    then match football_data (extended_search g) with
         | Some l => l
         | None => []
         end
    else [] in
  all_matches g = espn_phase scoreboard ++ map FromFootballData fb /\
  football_data_fallback g = List.length fb.
Proof.
  cbv zeta. unfold gather. rewrite today_phase_spec.
  destruct (List.length (espn_phase scoreboard) <? 5)%nat.
  - destruct (football_data _) as [l|] eqn:Hfb; cbn [all_matches
      football_data_fallback extended_search]; rewrite Hfb;
      [split; reflexivity|]. simpl. now rewrite app_nil_r.
  - simpl. now rewrite app_nil_r.
Qed.

End SourcesFacts.

Lemma espn_phase_ext
    (scoreboard scoreboard' : string -> Z -> option (list Espn.EspnEvent)) :
  (forall d l, SourcesSpec.league_records scoreboard d l
               = SourcesSpec.league_records scoreboard' d l) ->
  Sources.espn_phase scoreboard = Sources.espn_phase scoreboard'.
Proof.
  intros Hsame.
  assert (Hday : forall leagues d,
             SourcesSpec.day_records scoreboard leagues d
             = SourcesSpec.day_records scoreboard' leagues d).
  { intros leagues d. unfold SourcesSpec.day_records.
    induction leagues as [|l leagues IH]; simpl; [reflexivity|].
    now rewrite IH, Hsame. }
  unfold Sources.espn_phase. rewrite !today_phase_spec, Hday.
  destruct (SourcesSpec.day_records scoreboard' Sources.espn_leagues 0)
    as [|r rs]; [|reflexivity].
  cbn match. generalize (@nil Sources.Record).
  induction Sources.days_offsets as [|d rest IH]; intros all; [reflexivity|].
  cbn [Sources.extended_loop]. destruct (d =? 0); [apply IH|].
  rewrite !extended_fold, Hday.
  destruct (20 <=? _)%nat; [reflexivity | apply IH].
Qed.

(** X27.  If any of today's ESPN events (all twenty leagues, in table
    order) converts, those records are all that ESPN contributes; if none
    does, the extended search adds whole days of the first five leagues,
    from three days back to seven days ahead without today, and stops
    after the first day that brings the list to twenty records.  Every
    ESPN record is a converted event, and a failed request counts as an
    empty scoreboard. *)
Theorem espn_today_then_extended
    (scoreboard : string -> Z -> option (list Espn.EspnEvent)) :
  let today_records :=
    SourcesSpec.day_records scoreboard Sources.espn_leagues 0 in
  let espn := Sources.espn_phase scoreboard in
  (today_records <> [] -> espn = today_records) /\
  (today_records = [] ->
   exists n,
     (n <= 10)%nat /\
     espn = SourcesSpec.extended_records scoreboard n /\
     ((n < 10)%nat -> (20 <= List.length espn)%nat) /\
     (forall k, (k < n)%nat ->
        (List.length (SourcesSpec.extended_records scoreboard k) < 20)%nat)) /\
  (forall r, In r espn -> exists sm, r = Sources.FromEspn sm) /\
  (forall scoreboard',
      (forall league_id d,
          scoreboard' league_id d
          = match scoreboard league_id d with
            | Some events => Some events
            | None => Some []
            end) ->
      Sources.espn_phase scoreboard' = espn).
Proof.
  intros today_records espn.
  destruct (espn_phase_spec scoreboard) as [Hsome Hnone].
  split; [exact Hsome|]. split; [exact Hnone|].
  split; [apply espn_phase_espn|].
  intros scoreboard' Hsame. apply espn_phase_ext. intros d l.
  unfold SourcesSpec.league_records. rewrite Hsame.
  now destruct (scoreboard (fst l) d).
Qed.

Lemma espn_today_then_extended_witness :
  Sources.espn_phase SourceSamples.scoreboard
  = SourcesSpec.day_records SourceSamples.scoreboard Sources.espn_leagues 0.
Proof.
  apply (proj1 (espn_today_then_extended SourceSamples.scoreboard)).
  vm_compute. discriminate.
Defined.

(** X28.  The list handed to the classifier is ESPN's records followed by
    the football-data.org matches, which are added only when ESPN gave
    fewer than five records (for the wide date range exactly when the
    extended search ran; a failed request adds nothing).  The [espn_api]
    counter counts today's ESPN records only, so it is 0 whenever the
    extended search ran, and [football_data_fallback] counts the matches
    added. *)
Theorem fallback_below_five
    (scoreboard : string -> Z -> option (list Espn.EspnEvent))
    (football_data : bool -> option (list Match)) :
  let g := Sources.gather scoreboard football_data in
  let espn := Sources.espn_phase scoreboard in
  let fb := SourcesSpec.fallback_matches (Sources.all_matches g) in
  let today_records :=
    SourcesSpec.day_records scoreboard Sources.espn_leagues 0 in
  Sources.all_matches g = espn ++ map Sources.FromFootballData fb /\
  Sources.football_data_fallback g = List.length fb /\
  ((5 <= List.length espn)%nat -> fb = []) /\
  ((List.length espn < 5)%nat ->
   fb = match football_data (Sources.extended_search g) with
        | Some l => l
        | None => []
        end) /\
  Sources.espn_api g = List.length today_records /\
  (Sources.extended_search g = true <-> today_records = []) /\
  (Sources.extended_search g = true -> Sources.espn_api g = 0%nat).
Proof.
  intros g espn fb today_records.
  destruct (gather_records scoreboard football_data) as [Hall Hcount].
  destruct (gather_stats scoreboard football_data) as [Hapi Hext].
  fold g espn in Hall, Hcount. fold g today_records in Hapi, Hext.
  assert (Hfb : fb
                = if (List.length espn <? 5)%nat
                  then match football_data (Sources.extended_search g) with
                       | Some l => l
                       | None => []
                       end
                  else []).
  { unfold fb. rewrite Hall.
    unfold SourcesSpec.fallback_matches at 1. rewrite flat_map_app.
    fold (SourcesSpec.fallback_matches espn).
    rewrite (fallback_matches_espn espn) by apply espn_phase_espn.
    apply fallback_matches_raw. }
  split; [now rewrite Hfb|]. split; [now rewrite Hfb|]. split.
  { intros Hge. rewrite Hfb.
    destruct (Nat.ltb_spec (List.length espn) 5); [lia | reflexivity]. }
  split.
  { intros Hlt. rewrite Hfb.
    destruct (Nat.ltb_spec (List.length espn) 5); [reflexivity | lia]. }
  split; [exact Hapi|].
  assert (Hiff : Sources.extended_search g = true <-> today_records = []).
  { rewrite Hext. destruct today_records; simpl; split; congruence. }
  split; [exact Hiff|].
  intros H. apply Hiff in H. now rewrite Hapi, H.
Qed.

Lemma fallback_below_five_witness :
  SourcesSpec.fallback_matches
    (Sources.all_matches
       (Sources.gather SourceSamples.scoreboard SourceSamples.football_data))
  = [Samples.plain_match].
Proof.
  pose proof (fallback_below_five SourceSamples.scoreboard
                SourceSamples.football_data) as H.
  cbv zeta in H. destruct H as (_ & _ & _ & H & _).
  apply H. vm_compute. lia.
Defined.

(** ** Player roster *)

Section RosterFacts.
Import Roster RosterSpec.









End RosterFacts.



(** X30.  The time at a club is "Unknown" without a contract or without
    a readable start date.  Otherwise, for valid months, it is the
    number of whole months from the start month to the current month,
    days ignored, shown as years and months from twelve months on and as
    months alone below; for a start month after the current one only the
    remainder of the count modulo 12 is shown. *)
Theorem time_at_club_months
    (strptime_ymd : string -> option Squad.Date) (today : Squad.Date) :
  Roster.calculate_time_at_club strptime_ymd today None = "Unknown" /\
  (forall c,
      (Roster.start c = None \/ Roster.start c = Some "" \/
       exists s, Roster.start c = Some s /\ strptime_ymd s = None) ->
      Roster.calculate_time_at_club strptime_ymd today (Some c) = "Unknown") /\
  (forall c s start_date,
      Roster.start c = Some s -> s <> "" ->
      strptime_ymd s = Some start_date ->
      1 <= Squad.month start_date <= 12 ->
      1 <= Squad.month today <= 12 ->
      Roster.calculate_time_at_club strptime_ymd today (Some c)
      = RosterSpec.label (RosterSpec.months_between start_date today)).
Proof.
  split; [reflexivity|]. split.
  - intros c [H|[H|(s & H & Hs)]]; unfold Roster.calculate_time_at_club;
      rewrite H; try reflexivity.
    destruct s; [reflexivity|]. now rewrite Hs.
  - intros c s start_date Hstart Hne Hparse Hm Ht.
    unfold Roster.calculate_time_at_club. rewrite Hstart.
    destruct s as [|ch s']; [contradiction|]. rewrite Hparse.
    unfold RosterSpec.label, RosterSpec.months_between.
    set (y := Squad.year today - Squad.year start_date).
    set (mo := Squad.month today - Squad.month start_date).
    fold y mo.
    destruct (Z.ltb_spec mo 0) as [Hneg|Hpos].
    + assert (Hq : (12 * y + mo) / 12 = y - 1)
        by (symmetry; apply (Z.div_unique _ _ _ (mo + 12)); lia).
      assert (Hr : (12 * y + mo) mod 12 = mo + 12)
        by (symmetry; apply (Z.mod_unique _ _ (y - 1)); lia).
      rewrite Hq, Hr.
      destruct (Z.ltb_spec 0 (y - 1)), (Z.leb_spec 12 (12 * y + mo));
        try lia; reflexivity.
    + assert (Hq : (12 * y + mo) / 12 = y)
        by (symmetry; apply (Z.div_unique _ _ _ mo); lia).
      assert (Hr : (12 * y + mo) mod 12 = mo)
        by (symmetry; apply (Z.mod_unique _ _ y); lia).
      rewrite Hq, Hr.
      destruct (Z.ltb_spec 0 y), (Z.leb_spec 12 (12 * y + mo));
        try lia; reflexivity.
Qed.

Lemma time_at_club_months_witness :
  Roster.calculate_time_at_club RefDates.strptime_ymd Samples.squad_day
    (Roster.contract RosterSamples.keeper)
  = "2y 8m".
Proof.
  refine (proj2 (proj2 (time_at_club_months RefDates.strptime_ymd
                          Samples.squad_day))
            (Roster.mkContract (Some "2022-07-01")) "2022-07-01"
            (Squad.mkDate 2022 7 1) eq_refl _ eq_refl _ _).
  - discriminate.
  - simpl. lia.
  - simpl. lia.
Defined.
